(** * Document analysis pipeline: the processing Lambda

    A shallow embedding of the processing handler of the contract
    analyzer (the Lambda that extracts text, calls the model, interprets
    its answer and records the outcome in the documents table), and the
    properties of its specification.

    JavaScript values that come out of [JSON.parse] are modelled by the
    inductive type [json]; [undefined] is the [None] of [option json].
    Strings are Rocq byte strings and stand for the text they encode.
    A number is the rational it denotes; the only test the program makes
    on a number is whether it is zero. *)

From Stdlib Require Import ZArith QArith Qabs String Ascii List Bool Lia DecimalString.
From stdpp Require Import base option list strings gmap.

#[local] Set Warnings "-register-all".

Local Open Scope string_scope.
Local Open Scope list_scope.

(** ** JavaScript values *)

Inductive json : Type :=
| JNull
| JBool (b : bool)
| JNum (q : Q)
| JStr (s : string)
| JArr (xs : list json)
| JObj (kvs : list (string * json)).

(** A JavaScript value: a [json] or [undefined]. *)
Abbreviation value := (option json).
Abbreviation undefined := (@None json).

Definition num (z : Z) : json := JNum (inject_Z z).

(** ToBoolean: [undefined], [null], [false], [0] and [''] are falsy. *)
Definition truthy (v : value) : bool :=
  match v with
  | None => false
  | Some JNull => false
  | Some (JBool b) => b
  | Some (JNum q) => negb (Qeq_bool q 0)
  | Some (JStr s) => negb (String.eqb s "")
  | Some (JArr _) => true
  | Some (JObj _) => true
  end.

(** [a || b] where [b] is a value that is always defined. *)
Definition js_or (a : value) (b : json) : json :=
  if truthy a then default b a else b.

(** Own property of an object literal, first binding of the key. *)
Fixpoint assoc (k : string) (kvs : list (string * json)) : value :=
  match kvs with
  | [] => None
  | (k', v) :: rest => if String.eqb k k' then Some v else assoc k rest
  end.

(** Assignment to a property: the value of an existing key is replaced
    where it stands, a new key goes to the end. *)
Fixpoint obj_set (k : string) (v : json) (kvs : list (string * json))
  : list (string * json) :=
  match kvs with
  | [] => [(k, v)]
  | (k', v') :: rest =>
      if String.eqb k k' then (k', v) :: rest else (k', v') :: obj_set k v rest
  end.

(** ** Exceptions *)

Inductive service := DynamoDB | S3 | Textract | Bedrock.

Inductive exn :=
| TypeError
| SyntaxError
| ServiceException (s : service).

Inductive outcome (A : Type) : Type :=
| Ok (a : A)
| Throw (e : exn).
Arguments Ok {A} a.
Arguments Throw {A} e.

(** [v.k] for the property names this program reads ([content], [text],
    [documentId], the six section names, ...): none of them is defined on
    a built-in prototype, so only own properties of objects answer; reading
    a property of [null] or [undefined] throws. *)
Definition js_prop (v : value) (k : string) : outcome value :=
  match v with
  | None => Throw TypeError
  | Some JNull => Throw TypeError
  | Some (JObj kvs) => Ok (assoc k kvs)
  | Some _ => Ok None
  end.

(** [v[0]]: first element of an array, first character of a string, the
    property named ["0"] of an object. *)
Definition js_index0 (v : value) : outcome value :=
  match v with
  | None => Throw TypeError
  | Some JNull => Throw TypeError
  | Some (JArr xs) => Ok (head xs)
  | Some (JStr (String c _)) => Ok (Some (JStr (String c EmptyString)))
  | Some (JObj kvs) => Ok (assoc "0" kvs)
  | Some _ => Ok None
  end.

(** ** Regular expressions

    A backtracking matcher for the fragment of ECMAScript regular
    expressions the program uses: a literal character, a character class,
    concatenation and the greedy star. *)

Inductive regex :=
| RChar (c : ascii)
| RClass (p : ascii -> bool)
| RSeq (r1 r2 : regex)
| RStar (r : regex).

Section Matcher.
Context {R : Type}.

(** Greedy iteration of [step]: one more iteration is tried first, and the
    continuation only when that fails. An iteration that consumes nothing
    is rejected. [n] bounds the number of iterations. *)
Fixpoint star_loop (step : list ascii -> (list ascii -> option R) -> option R)
    (n : nat) (s : list ascii) (k : list ascii -> option R) : option R :=
  match n with
  | O => k s
  | S n' =>
      match step s (fun s' =>
               if (length s' <? length s)%nat
               then star_loop step n' s' k else None) with
      | Some x => Some x
      | None => k s
      end
  end.

Fixpoint rmatch (r : regex) (s : list ascii) (k : list ascii -> option R)
  : option R :=
  match r with
  | RChar c =>
      match s with
      | c' :: s' => if Ascii.eqb c c' then k s' else None
      | [] => None
      end
  | RClass p =>
      match s with
      | c' :: s' => if p c' then k s' else None
      | [] => None
      end
  | RSeq r1 r2 => rmatch r1 s (fun s' => rmatch r2 s' k)
  | RStar r' => star_loop (rmatch r') (length s) s k
  end.
End Matcher.

(** The text matched at the start of [s], if the expression matches there. *)
Definition rexec (r : regex) (s : list ascii) : option (list ascii) :=
  match rmatch r s (fun rest => Some rest) with
  | Some rest => Some (take (length s - length rest) s)
  | None => None
  end.

(** The leftmost match: every start position is tried in turn. *)
Fixpoint rsearch (r : regex) (s : list ascii) : option (list ascii) :=
  match rexec r s with
  | Some m => Some m
  | None =>
      match s with
      | [] => None
      | _ :: s' => rsearch r s'
      end
  end.

(** [str.match(re)[0]] for an expression without the global flag, [None]
    when [match] returns [null]. *)
Definition String_match (str : string) (re : regex) : option string :=
  string_of_list_ascii <$> rsearch re (list_ascii_of_string str).

(** [\s]: the white space and line terminators below U+0080. *)
Definition is_space (c : ascii) : bool :=
  let n := nat_of_ascii c in
  ((n =? 9) || (n =? 10) || (n =? 11) || (n =? 12) || (n =? 13) || (n =? 32))%nat.

(** [[\s\S]] *)
Definition space_or_not : ascii -> bool :=
  fun c => is_space c || negb (is_space c).

Definition open_brace : ascii := "{"%char.
Definition close_brace : ascii := "}"%char.

(** [/\{[\s\S]*\}/] *)
Definition json_regex : regex :=
  RSeq (RChar open_brace) (RSeq (RStar (RClass space_or_not)) (RChar close_brace)).

(** [analysisText.match(/\{[\s\S]*\}/)] *)
Definition jsonMatch (analysisText : string) : option string :=
  String_match analysisText json_regex.

(** What the greedy star of a class that takes every character does: the
    continuation is tried on the suffixes of the input, the shortest
    first. *)
Fixpoint shortest_suffix {R} (s : list ascii) (k : list ascii -> option R)
  : option R :=
  match s with
  | [] => k []
  | _ :: s' =>
      match shortest_suffix s' k with
      | Some x => Some x
      | None => k s
      end
  end.

(** The continuation of the star in [json_regex]: a closing brace. *)
Definition closes (s : list ascii) : option (list ascii) :=
  rmatch (RChar close_brace) s (fun rest => Some rest).

(** ** JSON.parse

    A parser for the JSON grammar of ECMA-404, as [JSON.parse] reads it:
    one value between optional white space, objects keeping the last
    binding of a repeated key. A [\u] escape is stored as the UTF-8 bytes
    of its code point. The statements below hold for any function in the
    place of [JSON.parse]; this one serves the sample runs. *)

Module JSON.

Definition is_ws (c : ascii) : bool :=
  let n := nat_of_ascii c in
  ((n =? 32) || (n =? 9) || (n =? 10) || (n =? 13))%nat.

Fixpoint skip_ws (s : list ascii) : list ascii :=
  match s with
  | c :: s' => if is_ws c then skip_ws s' else s
  | [] => []
  end.

Definition digit (c : ascii) : option Z :=
  let n := Z.of_nat (nat_of_ascii c) in
  if ((48 <=? n) && (n <=? 57))%Z then Some (n - 48)%Z else None.

Definition hex (c : ascii) : option Z :=
  let n := Z.of_nat (nat_of_ascii c) in
  if ((48 <=? n) && (n <=? 57))%Z then Some (n - 48)%Z
  else if ((65 <=? n) && (n <=? 70))%Z then Some (n - 55)%Z
  else if ((97 <=? n) && (n <=? 102))%Z then Some (n - 87)%Z
  else None.

(** Reads a run of decimal digits: the number read so far, how many
    digits were read, and the rest. *)
Fixpoint digits (s : list ascii) (acc : Z) (count : nat)
  : Z * nat * list ascii :=
  match s with
  | c :: s' =>
      match digit c with
      | Some d => digits s' (10 * acc + d)%Z (S count)
      | None => (acc, count, s)
      end
  | [] => (acc, count, s)
  end.

(** [m * 10^e] *)
Definition scale (m e : Z) : Q :=
  if (0 <=? e)%Z then inject_Z (m * 10 ^ e)
  else Qmake m (Z.to_pos (10 ^ (- e))).

(** A literal is read as the nearest double: one of absolute value at most
    [2^-1075], half of the smallest positive double, is read as zero. Any
    other literal is kept as the rational it denotes. *)
Definition rounds_to_zero (q : Q) : bool :=
  Qle_bool (Qabs q) (1 # Pos.pow 2 1075).

Definition number_int (s : list ascii) : option (Z * list ascii) :=
  match s with
  | c :: s' =>
      match digit c with
      | Some 0%Z => Some (0%Z, s')
      | Some d => let '(m, _, r) := digits s' d 1 in Some (m, r)
      | None => None
      end
  | [] => None
  end.

Definition number_frac (m : Z) (s : list ascii)
  : option (Z * nat * list ascii) :=
  match s with
  | "."%char :: s' =>
      let '(m', n, r) := digits s' m 0 in
      match n with O => None | _ => Some (m', n, r) end
  | _ => Some (m, O, s)
  end.

Definition number_exp (s : list ascii) : option (Z * list ascii) :=
  let unsigned (neg : bool) (s' : list ascii) :=
    let '(e, n, r) := digits s' 0 0 in
    match n with
    | O => None
    | _ => Some (if neg then (- e)%Z else e, r)
    end in
  let signed (s' : list ascii) :=
    match s' with
    | "+"%char :: s'' => unsigned false s''
    | "-"%char :: s'' => unsigned true s''
    | _ => unsigned false s'
    end in
  match s with
  | "e"%char :: s' => signed s'
  | "E"%char :: s' => signed s'
  | _ => Some (0%Z, s)
  end.

Definition number (s : list ascii) : option (Q * list ascii) :=
  let '(neg, s1) :=
    match s with
    | "-"%char :: s' => (true, s')
    | _ => (false, s)
    end in
  '(i, s2) ← number_int s1;
  '(m, f, s3) ← number_frac i s2;
  '(e, s4) ← number_exp s3;
  let q := scale (if neg then - m else m)%Z (e - Z.of_nat f)%Z in
  Some (if rounds_to_zero q then 0%Q else q, s4).

(** What a string literal is made of: a byte of the source text, or the
    UTF-16 code unit of a [\u] escape. *)
Inductive item := Byte (c : ascii) | Unit (n : Z).

Definition hex4 (a b c d : ascii) : option Z :=
  x ← hex a; y ← hex b; z ← hex c; w ← hex d;
  Some (((x * 16 + y) * 16 + z) * 16 + w)%Z.

Definition escape (c : ascii) : option ascii :=
  match c with
  | "034"%char => Some "034"%char
  | "092"%char => Some "092"%char
  | "/"%char => Some "/"%char
  | "b"%char => Some "008"%char
  | "f"%char => Some "012"%char
  | "n"%char => Some "010"%char
  | "r"%char => Some "013"%char
  | "t"%char => Some "009"%char
  | _ => None
  end.

(** The characters of a string literal after its opening quote, up to
    the closing quote. *)
Fixpoint string_items (s : list ascii) : option (list item * list ascii) :=
  match s with
  | [] => None
  | "034"%char :: r => Some ([], r)
  | "092"%char :: "u"%char :: a :: b :: c :: d :: r =>
      n ← hex4 a b c d;
      '(its, r') ← string_items r;
      Some (Unit n :: its, r')
  | "092"%char :: e :: r =>
      c ← escape e;
      '(its, r') ← string_items r;
      Some (Byte c :: its, r')
  | "092"%char :: [] => None
  | c :: r =>
      if (nat_of_ascii c <? 32)%nat then None
      else '(its, r') ← string_items r; Some (Byte c :: its, r')
  end.

Definition byte (n : Z) : ascii := ascii_of_nat (Z.to_nat n).

Definition utf8 (n : Z) : list ascii :=
  if (n <? 128)%Z then [byte n]
  else if (n <? 2048)%Z then
    [byte (192 + n / 64); byte (128 + n mod 64)]
  else if (n <? 65536)%Z then
    [byte (224 + n / 4096); byte (128 + (n / 64) mod 64); byte (128 + n mod 64)]
  else
    [byte (240 + n / 262144); byte (128 + (n / 4096) mod 64);
     byte (128 + (n / 64) mod 64); byte (128 + n mod 64)].

Definition is_high (n : Z) : bool := ((55296 <=? n) && (n <=? 56319))%Z.
Definition is_low (n : Z) : bool := ((56320 <=? n) && (n <=? 57343))%Z.

Fixpoint encode (its : list item) : list ascii :=
  match its with
  | [] => []
  | Byte c :: r => c :: encode r
  | Unit h :: r =>
      match r with
      | Unit l :: r' =>
          if is_high h && is_low l
          then utf8 (65536 + (h - 55296) * 1024 + (l - 56320))%Z ++ encode r'
          else utf8 h ++ encode r
      | _ => utf8 h ++ encode r
      end
  end.

Definition string_literal (s : list ascii) : option (string * list ascii) :=
  '(its, r) ← string_items s;
  Some (string_of_list_ascii (encode its), r).

Fixpoint expect (w s : list ascii) : option (list ascii) :=
  match w, s with
  | [], _ => Some s
  | c :: w', c' :: s' => if Ascii.eqb c c' then expect w' s' else None
  | _ :: _, [] => None
  end.

Fixpoint parse_value (fuel : nat) (s : list ascii)
  : option (json * list ascii) :=
  match fuel with
  | O => None
  | S fuel' =>
      match skip_ws s with
      | "{"%char :: r =>
          match skip_ws r with
          | "}"%char :: r' => Some (JObj [], r')
          | r' => parse_members fuel' r' []
          end
      | "["%char :: r =>
          match skip_ws r with
          | "]"%char :: r' => Some (JArr [], r')
          | r' => parse_elements fuel' r' []
          end
      | "034"%char :: r =>
          '(str, r') ← string_literal r; Some (JStr str, r')
      | "t"%char :: r => r' ← expect (list_ascii_of_string "rue") r; Some (JBool true, r')
      | "f"%char :: r => r' ← expect (list_ascii_of_string "alse") r; Some (JBool false, r')
      | "n"%char :: r => r' ← expect (list_ascii_of_string "ull") r; Some (JNull, r')
      | r => '(q, r') ← number r; Some (JNum q, r')
      end
  end
with parse_elements (fuel : nat) (s : list ascii) (acc : list json)
  : option (json * list ascii) :=
  match fuel with
  | O => None
  | S fuel' =>
      '(v, r) ← parse_value fuel' s;
      match skip_ws r with
      | ","%char :: r' => parse_elements fuel' r' (v :: acc)
      | "]"%char :: r' => Some (JArr (rev (v :: acc)), r')
      | _ => None
      end
  end
with parse_members (fuel : nat) (s : list ascii) (acc : list (string * json))
  : option (json * list ascii) :=
  match fuel with
  | O => None
  | S fuel' =>
      match skip_ws s with
      | "034"%char :: r =>
          '(k, r1) ← string_literal r;
          match skip_ws r1 with
          | ":"%char :: r2 =>
              '(v, r3) ← parse_value fuel' r2;
              match skip_ws r3 with
              | ","%char :: r4 => parse_members fuel' r4 (obj_set k v acc)
              | "}"%char :: r4 => Some (JObj (obj_set k v acc), r4)
              | _ => None
              end
          | _ => None
          end
      | _ => None
      end
  end.

(** [JSON.parse(text)], [None] when it throws a [SyntaxError]. *)
Definition parse (text : string) : option json :=
  let s := list_ascii_of_string text in
  '(v, r) ← parse_value (2 * length s + 2) s;
  match skip_ws r with
  | [] => Some v
  | _ => None
  end.

End JSON.

(** Writes a text that holds double quotes with single quotes in their
    place. *)
Definition dq (s : string) : string :=
  string_of_list_ascii
    (map (fun c => if Ascii.eqb c "'"%char then "034"%char else c)
       (list_ascii_of_string s)).

(** ** The analysis result (types/index.ts)

    TypeScript's interfaces are erased when the program runs: at run time
    a section of a [ContractAnalysis] holds whatever value was put there.
    The record has the fields of the interface; the predicates below say
    when a run-time value has the shape and the domains the interfaces
    and the specification declare. *)

Record ContractAnalysis := {
  documentId : string;
  keyTerms : json;
  riskAssessment : json;
  clauseAnalysis : json;
  complianceCheck : json;
  executiveSummary : json;
  confidenceScore : json;
  processedAt : string
}.

(** The object a [ContractAnalysis] is at run time. *)
Definition analysis_object (a : ContractAnalysis) : json :=
  JObj [ ("documentId", JStr (documentId a));
         ("keyTerms", keyTerms a);
         ("riskAssessment", riskAssessment a);
         ("clauseAnalysis", clauseAnalysis a);
         ("complianceCheck", complianceCheck a);
         ("executiveSummary", executiveSummary a);
         ("confidenceScore", confidenceScore a);
         ("processedAt", JStr (processedAt a)) ].

Definition termTypes : list string :=
  ["party"; "date"; "amount"; "payment_term"; "obligation"; "other"].

Definition riskLevels : list string :=
  ["low"; "medium"; "high"; "critical"].

Definition is_enum (dom : list string) (v : value) : bool :=
  match v with
  | Some (JStr s) => existsb (String.eqb s) dom
  | _ => false
  end.

(** A number of [0, 100]. *)
Definition is_score (v : value) : bool :=
  match v with
  | Some (JNum q) => Qle_bool 0 q && Qle_bool q 100
  | _ => false
  end.

Definition is_string (v : value) : bool :=
  match v with Some (JStr _) => true | _ => false end.

Definition is_boolean (v : value) : bool :=
  match v with Some (JBool _) => true | _ => false end.

Definition is_array_of (p : json -> bool) (v : value) : bool :=
  match v with Some (JArr xs) => forallb p xs | _ => false end.

Definition is_object_with (p : list (string * json) -> bool) (v : json) : bool :=
  match v with JObj kvs => p kvs | _ => false end.

Definition is_strings : value -> bool :=
  is_array_of (fun x => is_string (Some x)).

(** *** Domains: the enumerated fields and the scores *)

Definition KeyTerm_domain : json -> bool :=
  is_object_with (fun o =>
    is_enum termTypes (assoc "type" o) && is_score (assoc "confidence" o)).

Definition Risk_domain : json -> bool :=
  is_object_with (fun o =>
    is_enum riskLevels (assoc "severity" o) && is_score (assoc "confidence" o)).

Definition RiskAssessment_domain : json -> bool :=
  is_object_with (fun o =>
    is_enum riskLevels (assoc "overallRisk" o)
    && is_array_of Risk_domain (assoc "risks" o)
    && is_score (assoc "totalScore" o)).

Definition ComplianceResult_domain : json -> bool :=
  is_object_with (fun o => is_score (assoc "overallCompliance" o)).

Definition keyTerms_domain (v : json) : bool :=
  is_array_of KeyTerm_domain (Some v).

Definition confidenceScore_domain (v : json) : bool := is_score (Some v).

(** Every enumerated field of the result is in its domain and every
    confidence and score is in [0, 100]. *)
Definition in_domain (a : ContractAnalysis) : bool :=
  keyTerms_domain (keyTerms a)
  && RiskAssessment_domain (riskAssessment a)
  && ComplianceResult_domain (complianceCheck a)
  && confidenceScore_domain (confidenceScore a).

(** *** Shape: the remaining fields of the interfaces *)

Definition KeyTerm_shape : json -> bool :=
  is_object_with (fun o =>
    is_string (assoc "value" o) && is_string (assoc "location" o)).

Definition Risk_shape : json -> bool :=
  is_object_with (fun o =>
    is_string (assoc "category" o) && is_string (assoc "description" o)
    && is_string (assoc "recommendation" o)).

Definition RiskAssessment_shape : json -> bool :=
  is_object_with (fun o => is_array_of Risk_shape (assoc "risks" o)).

Definition ClauseAnalysis_shape : json -> bool :=
  is_object_with (fun o =>
    is_string (assoc "clauseType" o) && is_string (assoc "content" o)
    && is_boolean (assoc "isStandard" o)
    && is_strings (assoc "unusualAspects" o)
    && is_string (assoc "recommendation" o)).

Definition ComplianceResult_shape : json -> bool :=
  is_object_with (fun o =>
    is_strings (assoc "missingClauses" o)
    && is_strings (assoc "nonStandardClauses" o)
    && is_strings (assoc "recommendations" o)).

Definition ExecutiveSummary_shape : json -> bool :=
  is_object_with (fun o =>
    is_string (assoc "overview" o) && is_strings (assoc "keyHighlights" o)
    && is_strings (assoc "majorConcerns" o)
    && is_string (assoc "recommendation" o)).

(** The result conforms to the Analysis Result schema. *)
Definition conforms (a : ContractAnalysis) : bool :=
  in_domain a
  && is_array_of KeyTerm_shape (Some (keyTerms a))
  && RiskAssessment_shape (riskAssessment a)
  && is_array_of ClauseAnalysis_shape (Some (clauseAnalysis a))
  && ComplianceResult_shape (complianceCheck a)
  && ExecutiveSummary_shape (executiveSummary a).

(** The same for the object stored in the table. *)
Definition analysis_of_object (v : json) : option ContractAnalysis :=
  match v with
  | JObj o =>
      match assoc "documentId" o, assoc "processedAt" o with
      | Some (JStr d), Some (JStr p) =>
          kt ← assoc "keyTerms" o;
          ra ← assoc "riskAssessment" o;
          ca ← assoc "clauseAnalysis" o;
          cc ← assoc "complianceCheck" o;
          es ← assoc "executiveSummary" o;
          cs ← assoc "confidenceScore" o;
          Some {| documentId := d; keyTerms := kt; riskAssessment := ra;
                  clauseAnalysis := ca; complianceCheck := cc;
                  executiveSummary := es; confidenceScore := cs;
                  processedAt := p |}
      | _, _ => None
      end
  | _ => None
  end.

Definition conforms_object (v : json) : bool :=
  match analysis_of_object v with
  | Some a => conforms a
  | None => false
  end.

(** ** The world outside the Lambda

    The handler talks to four services and reads the clock. What the
    services answer is given by an environment; what the handler changes
    or sends is recorded in the world. *)

(** An item of the documents table: attribute name to value. *)
Abbreviation Item := (gmap string json).

Record Block := { BlockType : option string; Text : option string }.

Record InvokeModelRequest := {
  modelId : string;
  contentType : string;
  accept : string;
  anthropic_version : string;
  max_tokens : Z;
  messages : list (string * string)
}.

Inductive Event :=
| GetItem (key : value)
| UpdateItem (key : value) (sets : list (string * json))
| GetObject (key : value)
| DetectDocumentText (name : value)
| InvokeModel (request : InvokeModelRequest)
| ConsoleError (message : string) (error : exn).

Record Env := {
  (** whether the n-th request to the documents table is served *)
  ddb_up : nat -> bool;
  (** the text of the stored object, [None] when the read fails *)
  s3_getObject : value -> option string;
  (** the [Blocks] of the answer, [None] when the call fails *)
  textract_detect : value -> option (option (list Block));
  (** the decoded body of the answer, [None] when the call fails *)
  bedrock_invoke : InvokeModelRequest -> option string;
  (** what the n-th reading of the clock gives, in ISO format *)
  clock : nat -> string
}.

Record World := {
  table : gmap string Item;
  ddb_requests : nat;
  clock_reads : nat;
  log : list Event
}.

Definition record (e : Event) (w : World) : World :=
  {| table := table w; ddb_requests := ddb_requests w;
     clock_reads := clock_reads w; log := log w ++ [e] |}.

(** The clock has been read once more. *)
Definition tick (w : World) : World :=
  {| table := table w; ddb_requests := ddb_requests w;
     clock_reads := S (clock_reads w); log := log w |}.

(** A computation of the handler: it changes the world and returns or
    throws. *)
Definition M (A : Type) : Type := World -> outcome A * World.

#[global] Instance M_ret : MRet M := fun A a w => (Ok a, w).

#[global] Instance M_bind : MBind M := fun A B f m w =>
  match m w with
  | (Ok a, w') => f a w'
  | (Throw e, w') => (Throw e, w')
  end.

Definition throw {A} (e : exn) : M A := fun w => (Throw e, w).

Definition lift {A} (o : outcome A) : M A := fun w => (o, w).

(** [try { body } catch (error) { handler }] *)
Definition try_catch {A} (body : M A) (handler : exn -> M A) : M A :=
  fun w =>
    match body w with
    | (Ok a, w') => (Ok a, w')
    | (Throw e, w') => handler e w'
    end.

Definition console_error (message : string) (error : exn) : M unit :=
  fun w => (Ok tt, record (ConsoleError message error) w).

(** [SET] of an update: the named attributes are written, the others stay. *)
Definition apply_sets (sets : list (string * json)) (item : Item) : Item :=
  foldl (fun m kv => <[kv.1 := kv.2]> m) item sets.

(** The item an update starts from: the stored one, or for a key that has
    none, a new item made of the key. *)
Definition item_or_new (id : string) (t : gmap string Item) : Item :=
  default {[ "id" := JStr id ]} (t !! id).

(** The prompt of lines 135-148, around the document text. *)
Definition prompt_head : string :=
  "Analyze this legal contract and provide a comprehensive analysis in JSON format. Extract key terms, assess risks, analyze clauses, check compliance, and provide an executive summary.

Contract text:
".

Definition prompt_tail : string :=
  "

Please respond with a JSON object containing:
1. keyTerms: Array of extracted terms (parties, dates, amounts, payment terms, obligations)
2. riskAssessment: Overall risk level and specific risks with recommendations
3. clauseAnalysis: Analysis of contract clauses, identifying unusual or non-standard elements
4. complianceCheck: Assessment against standard contract practices
5. executiveSummary: High-level overview with key highlights and concerns
6. confidenceScore: Overall confidence in the analysis (0-100)

Focus on practical legal insights that would help a legal professional quickly understand the contract's key aspects and potential issues.".

Definition prompt (text : string) : string :=
  prompt_head +:+ text +:+ prompt_tail.

Definition command (text : string) : InvokeModelRequest :=
  {| modelId := "anthropic.claude-3-sonnet-20240229-v1:0";
     contentType := "application/json";
     accept := "application/json";
     anthropic_version := "bedrock-2023-05-31";
     max_tokens := 4000;
     messages := [("user", prompt text)] |}.

(** [xs.join(sep)]: an [undefined] element is written as the empty string. *)
Definition join (sep : string) (xs : list (option string)) : string :=
  String.concat sep (map (default "") xs).

(** [v === 'literal'] *)
Definition strict_eq (v : value) (literal : string) : bool :=
  match v with
  | Some (JStr s) => String.eqb s literal
  | _ => false
  end.

(** [a || b] on strings, [a] possibly [null] or [undefined]. *)
Definition string_or (a : option string) (b : string) : string :=
  match a with
  | Some s => if String.eqb s "" then b else s
  | None => b
  end.

(** The sections the interpreter substitutes (lines 177-182). *)
Definition default_keyTerms : json := JArr [].
Definition default_riskAssessment : json :=
  JObj [("overallRisk", JStr "medium"); ("risks", JArr []); ("totalScore", num 50)].
Definition default_clauseAnalysis : json := JArr [].
Definition default_complianceCheck : json :=
  JObj [("overallCompliance", num 70); ("missingClauses", JArr []);
        ("nonStandardClauses", JArr []); ("recommendations", JArr [])].
Definition default_executiveSummary : json :=
  JObj [("overview", JStr "Analysis completed"); ("keyHighlights", JArr []);
        ("majorConcerns", JArr []); ("recommendation", JStr "Review recommended")].
Definition default_confidenceScore : json := num 75.

(** The object literal of lines 175-184, given the six sections read from
    the parsed object and the time. *)
Definition buildAnalysis (kt ra ca cc es cs : value) (now : string)
  : ContractAnalysis :=
  {| documentId := "";
     keyTerms := js_or kt default_keyTerms;
     riskAssessment := js_or ra default_riskAssessment;
     clauseAnalysis := js_or ca default_clauseAnalysis;
     complianceCheck := js_or cc default_complianceCheck;
     executiveSummary := js_or es default_executiveSummary;
     confidenceScore := js_or cs default_confidenceScore;
     processedAt := now |}.

(** The fallback analysis (lines 191-200). *)
Definition fallback (now : string) : ContractAnalysis :=
  {| documentId := "";
     keyTerms :=
       JArr [JObj [("type", JStr "other"); ("value", JStr "Analysis completed");
                   ("confidence", num 50); ("location", JStr "Document")]];
     riskAssessment :=
       JObj [("overallRisk", JStr "medium");
             ("risks",
               JArr [JObj [("category", JStr "General");
                           ("description",
                             JStr "Document processed but detailed analysis unavailable");
                           ("severity", JStr "medium");
                           ("recommendation", JStr "Manual review recommended");
                           ("confidence", num 50)]]);
             ("totalScore", num 50)];
     clauseAnalysis :=
       JArr [JObj [("clauseType", JStr "General"); ("content", JStr "Document processed");
                   ("isStandard", JBool true); ("unusualAspects", JArr []);
                   ("recommendation", JStr "Manual review recommended")]];
     complianceCheck :=
       JObj [("overallCompliance", num 50); ("missingClauses", JArr []);
             ("nonStandardClauses", JArr []);
             ("recommendations", JArr [JStr "Manual review recommended"])];
     executiveSummary :=
       JObj [("overview", JStr "Document processed successfully");
             ("keyHighlights", JArr [JStr "Text extraction completed"]);
             ("majorConcerns", JArr [JStr "Detailed analysis unavailable"]);
             ("recommendation", JStr "Manual review recommended")];
     confidenceScore := num 50;
     processedAt := now |}.

(** The body of an HTTP answer, before [JSON.stringify]. *)
Record APIResponse := {
  success : bool;
  data : option ContractAnalysis;
  error : option string
}.

Record APIGatewayProxyResult := {
  statusCode : Z;
  headers : list (string * string);
  body : APIResponse
}.

Record APIGatewayProxyEvent := { event_body : option string }.

Definition cors : list (string * string) := [("Access-Control-Allow-Origin", "*")].

Definition failure (code : Z) (message : string) : APIGatewayProxyResult :=
  {| statusCode := code; headers := cors;
     body := {| success := false; data := None; error := Some message |} |}.

Definition completed (analysis : ContractAnalysis) : APIGatewayProxyResult :=
  {| statusCode := 200; headers := cors;
     body := {| success := true; data := Some analysis; error := None |} |}.

Section Lambda.

(** [JSON.parse], [None] when it throws; and the services. *)
Context (JSON_parse : string -> option json) (env : Env).

Definition parse (text : string) : M json :=
  match JSON_parse text with
  | Some v => mret v
  | None => throw SyntaxError
  end.

(** [new Date().toISOString()] *)
Definition Date_now : M string := fun w =>
  (Ok (clock env (clock_reads w)), tick w).

(** A request to the documents table, whose partition key [id] is a
    string (bin/app.ts): the request fails when the table does not serve
    it or when the key is not a string. A request that the document client
    refuses before it is sent (a number that it does not marshal) counts as
    one that is not served. *)
Definition ddb_send {A} (e : Event) (key : value)
    (run : string -> gmap string Item -> A * gmap string Item) : M A :=
  fun w =>
    let served := ddb_up env (ddb_requests w) in
    let sent t :=
      {| table := t; ddb_requests := S (ddb_requests w);
         clock_reads := clock_reads w; log := log w ++ [e] |} in
    match key with
    | Some (JStr id) =>
        if served
        then let '(a, t) := run id (table w) in (Ok a, sent t)
        else (Throw (ServiceException DynamoDB), sent (table w))
    | _ => (Throw (ServiceException DynamoDB), sent (table w))
    end.

Definition GetCommand (key : value) : M (option Item) :=
  ddb_send (GetItem key) key (fun id t => (t !! id, t)).

Definition UpdateCommand (key : value) (sets : list (string * json)) : M unit :=
  ddb_send (UpdateItem key sets) key
    (fun id t => (tt, <[id := apply_sets sets (item_or_new id t)]> t)).

Definition GetObjectCommand (key : value) : M string := fun w =>
  (match s3_getObject env key with
   | Some text => Ok text
   | None => Throw (ServiceException S3)
   end, record (GetObject key) w).

Definition DetectDocumentTextCommand (name : value) : M (option (list Block)) :=
  fun w =>
    (match textract_detect env name with
     | Some blocks => Ok blocks
     | None => Throw (ServiceException Textract)
     end, record (DetectDocumentText name) w).

Definition InvokeModelCommand (request : InvokeModelRequest) : M string :=
  fun w =>
    (match bedrock_invoke env request with
     | Some answer => Ok answer
     | None => Throw (ServiceException Bedrock)
     end, record (InvokeModel request) w).

(** [block => block.BlockType === 'LINE'] *)
Definition is_line (block : Block) : bool :=
  match BlockType block with
  | Some t => String.eqb t "LINE"
  | None => false
  end.

(** Lines 70-73: the lines of the answer, joined. *)
Definition linesText (Blocks : option (list Block)) : string :=
  match Blocks with
  | Some blocks =>
      string_or (Some (join (String "010" "") (map Text (List.filter is_line blocks)))) ""
  | None => ""
  end.

(** Lines 50-74: the text of the document. *)
Definition extractText (document : Item) : M string :=
  if strict_eq (document !! "contentType") "text/plain"
  then GetObjectCommand (document !! "s3Key")
  else
    Blocks ← DetectDocumentTextCommand (document !! "s3Key");
    mret (linesText Blocks).

(** [responseBody.content[0].text] *)
Definition analysisText (responseBody : json) : outcome value :=
  match js_prop (Some responseBody) "content" with
  | Ok content =>
      match js_index0 content with
      | Ok first => js_prop first "text"
      | Throw e => Throw e
      end
  | Throw e => Throw e
  end.

(** [text.match(/\{[\s\S]*\}/)]: only a string has the method. *)
Definition match_json (text : value) : outcome (option string) :=
  match text with
  | Some (JStr t) => Ok (jsonMatch t)
  | _ => Throw TypeError
  end.

(** Lines 175-184: the result built from the parsed object. *)
Definition mapParsed (parsedAnalysis : json) : M ContractAnalysis :=
  kt ← lift (js_prop (Some parsedAnalysis) "keyTerms");
  ra ← lift (js_prop (Some parsedAnalysis) "riskAssessment");
  ca ← lift (js_prop (Some parsedAnalysis) "clauseAnalysis");
  cc ← lift (js_prop (Some parsedAnalysis) "complianceCheck");
  es ← lift (js_prop (Some parsedAnalysis) "executiveSummary");
  cs ← lift (js_prop (Some parsedAnalysis) "confidenceScore");
  now ← Date_now;
  mret (buildAnalysis kt ra ca cc es cs now).

(** Lines 167-200: the interpretation of the model's answer. The [try]
    block returns the mapped result or falls through to the fallback. *)
Definition interpretResponse (responseBody : json) : M ContractAnalysis :=
  mapped ← try_catch
    (text ← lift (analysisText responseBody);
     jsonMatch ← lift (match_json text);
     match jsonMatch with
     | Some matched =>
         parsedAnalysis ← parse matched;
         analysis ← mapParsed parsedAnalysis;
         mret (Some analysis)
     | None => mret None
     end)
    (fun parseError =>
       _ ← console_error "Failed to parse Bedrock response:" parseError;
       mret None);
  match mapped with
  | Some analysis => mret analysis
  | None => now ← Date_now; mret (fallback now)
  end.

(** Lines 134-201. *)
Definition analyzeContractWithBedrock (text : string) : M ContractAnalysis :=
  response ← InvokeModelCommand (command text);
  responseBody ← parse response;
  interpretResponse responseBody.

(** Lines 108-120: the status written by the error boundary. *)
Definition markFailed (event : APIGatewayProxyEvent) : M unit :=
  match event_body event with
  | Some text =>
      if String.eqb text "" then mret tt
      else
        parsed ← parse text;
        documentId ← lift (js_prop (Some parsed) "documentId");
        if truthy documentId
        then UpdateCommand documentId [("status", JStr "failed")]
        else mret tt
  | None => mret tt
  end.

(** Lines 16-104: the [try] block of the handler. *)
Definition process (event : APIGatewayProxyEvent) : M APIGatewayProxyResult :=
  parsed ← parse (string_or (event_body event) "{}");
  documentId ← lift (js_prop (Some parsed) "documentId");
  if negb (truthy documentId)
  then mret (failure 400 "Document ID is required")
  else
    docResult ← GetCommand documentId;
    match docResult with
    | None => mret (failure 404 "Document not found")
    | Some document =>
        extractedText ← extractText document;
        analysis ← analyzeContractWithBedrock extractedText;
        now ← Date_now;
        _ ← UpdateCommand documentId
              [("status", JStr "completed");
               ("analysis", analysis_object analysis);
               ("processedAt", JStr now)];
        mret (completed analysis)
    end.

(** Lines 15-131. *)
Definition handler (event : APIGatewayProxyEvent) : M APIGatewayProxyResult :=
  try_catch (process event)
    (fun error =>
       _ ← console_error "Processing error:" error;
       _ ← markFailed event;
       mret (failure 500 "Processing failed")).

End Lambda.

(** The parsed value the interpreter maps, when the answer holds a text
    in which the expression finds a match that [JSON.parse] accepts. A
    parsed [null] has no section to read (reading one throws): it counts
    as no value. [JSON.parse] gives an object for a text that starts with a
    brace. *)
Definition extractJSON (JSON_parse : string -> option json) (responseBody : json)
  : option json :=
  match analysisText responseBody with
  | Ok (Some (JStr text)) =>
      match jsonMatch text ≫= JSON_parse with
      | Some JNull => None
      | parsed => parsed
      end
  | _ => None
  end.

(** A section of the parsed value, as [parsedAnalysis.name] reads it. *)
Definition section (parsedAnalysis : json) (name : string) : value :=
  match parsedAnalysis with
  | JObj o => assoc name o
  | _ => None
  end.

(** The result mapped from a parsed value. *)
Definition mapSections (parsedAnalysis : json) (now : string) : ContractAnalysis :=
  buildAnalysis (section parsedAnalysis "keyTerms")
    (section parsedAnalysis "riskAssessment")
    (section parsedAnalysis "clauseAnalysis")
    (section parsedAnalysis "complianceCheck")
    (section parsedAnalysis "executiveSummary")
    (section parsedAnalysis "confidenceScore") now.

(** A section that is kept is in its domain. *)
Definition kept_in (domain : json -> bool) (v : value) : bool :=
  if truthy v then domain (default JNull v) else true.

Definition sections_in_domain (parsedAnalysis : json) : bool :=
  kept_in keyTerms_domain (section parsedAnalysis "keyTerms")
  && kept_in RiskAssessment_domain (section parsedAnalysis "riskAssessment")
  && kept_in ComplianceResult_domain (section parsedAnalysis "complianceCheck")
  && kept_in confidenceScore_domain (section parsedAnalysis "confidenceScore").

(** The answer of the model around a text. *)
Definition answer (text : string) : json :=
  JObj [("content", JArr [JObj [("type", JStr "text"); ("text", JStr text)]])].

(** The document id of the request, when the body gives a string. *)
Definition requestedId (JSON_parse : string -> option json)
    (event : APIGatewayProxyEvent) : option string :=
  match JSON_parse (string_or (event_body event) "{}") with
  | Some p =>
      match section p "documentId" with
      | Some (JStr id) => Some id
      | _ => None
      end
  | None => None
  end.

(** What the final write sets (lines 83-93). *)
Definition completedSets (a : ContractAnalysis) (now : string)
  : list (string * json) :=
  [("status", JStr "completed"); ("analysis", analysis_object a);
   ("processedAt", JStr now)].

(** The six sections: the key read in the parsed object, the default,
    the field of the result. *)
Definition sections : list (string * json * (ContractAnalysis -> json)) :=
  [ ("keyTerms", default_keyTerms, keyTerms);
    ("riskAssessment", default_riskAssessment, riskAssessment);
    ("clauseAnalysis", default_clauseAnalysis, clauseAnalysis);
    ("complianceCheck", default_complianceCheck, complianceCheck);
    ("executiveSummary", default_executiveSummary, executiveSummary);
    ("confidenceScore", default_confidenceScore, confidenceScore) ].

(** How many times the OCR service was called. *)
Definition ocr_calls (events : list Event) : nat :=
  length (List.filter
            (fun e => match e with DetectDocumentText _ => true | _ => false end)
            events).

(** What a run returned, when it did not throw. *)
Definition returned {A} (run : outcome A * World) : option A :=
  match run.1 with
  | Ok a => Some a
  | Throw _ => None
  end.

(** An attribute of the record of a document. *)
Definition stored (id attribute : string) (w : World) : value :=
  table w !! id ≫= (.!! attribute).

(** ** The specification's reading *)

Module Spec.

(** Spec: a section is present when the key is there and not null. *)
Definition present (v : value) : bool :=
  match v with
  | None => false
  | Some JNull => false
  | Some _ => true
  end.

(** Spec: a section that is present and non-null is mapped directly, one
    that is absent or null is replaced by its default. *)
Definition mapSection (v : value) (d : json) : json :=
  if present v then default d v else d.

(** Spec: the text from [s], which follows an opening brace met at depth
    [depth], up to the brace that closes it. *)
Fixpoint closing (depth : nat) (s : list ascii) : option (list ascii) :=
  match s with
  | [] => None
  | c :: s' =>
      if Ascii.eqb c close_brace then
        match depth with
        | O => Some [c]
        | S d => cons c <$> closing d s'
        end
      else if Ascii.eqb c open_brace then cons c <$> closing (S depth) s'
      else cons c <$> closing depth s'
  end.

(** Spec: the first opening brace and its matching closing brace, found by
    brace-depth scanning. *)
Fixpoint braceDepthScan (s : list ascii) : option (list ascii) :=
  match s with
  | [] => None
  | c :: s' =>
      if Ascii.eqb c open_brace then cons c <$> closing 0 s'
      else braceDepthScan s'
  end.

Definition braceDepthMatch (text : string) : option string :=
  string_of_list_ascii <$> braceDepthScan (list_ascii_of_string text).

(** Spec: a completed record has an analysis that conforms to the schema,
    a failed record has no analysis. *)
Definition record_invariant (item : Item) : bool :=
  if strict_eq (item !! "status") "completed" then
    match item !! "analysis" with
    | Some v => conforms_object v
    | None => false
    end
  else if strict_eq (item !! "status") "failed" then
    match item !! "analysis" with
    | Some _ => false
    | None => true
    end
  else true.

Definition table_invariant (w : World) : bool :=
  forallb (fun kv => record_invariant kv.2) (map_to_list (table w)).

Definition invariant_at (id : string) (w : World) : option bool :=
  record_invariant <$> (table w !! id).

End Spec.

(** ** Sample runs *)

Module Sample.

Definition document : Item :=
  {[ "id" := JStr "doc-1"; "fileName" := JStr "nda.txt"; "fileSize" := num 5;
     "uploadedAt" := JStr "2024-01-01T00:00:00.000Z";
     "status" := JStr "processing";
     "s3Key" := JStr "documents/doc-1/nda.txt";
     "contentType" := JStr "text/plain" ]}.

Definition scan : Item :=
  {[ "id" := JStr "doc-2"; "status" := JStr "processing";
     "s3Key" := JStr "documents/doc-2/nda.pdf";
     "contentType" := JStr "application/pdf" ]}.

Definition world : World :=
  {| table := {[ "doc-1" := document; "doc-2" := scan ]};
     ddb_requests := 0; clock_reads := 0; log := [] |}.

Definition blocks : list Block :=
  [ {| BlockType := Some "PAGE"; Text := None |};
    {| BlockType := Some "LINE"; Text := Some "MUTUAL NDA" |};
    {| BlockType := Some "WORD"; Text := Some "MUTUAL" |};
    {| BlockType := Some "LINE"; Text := Some "between A and B" |} ].

(** Every service answers; the model's text is [text]. *)
Definition env (text : string) : Env :=
  {| ddb_up := fun _ => true;
     s3_getObject := fun key =>
       if strict_eq key "documents/doc-1/nda.txt" then Some "Hello" else None;
     textract_detect := fun _ => Some (Some blocks);
     bedrock_invoke := fun _ =>
       Some (dq ("{'content':[{'type':'text','text':'" +:+ text +:+ "'}]}"));
     clock := fun n =>
       match n with
       | O => "2024-01-01T00:00:01.000Z"
       | _ => "2024-01-01T00:00:02.000Z"
       end |}.

(** The model cannot be reached. *)
Definition env_model_down : Env :=
  {| ddb_up := fun _ => true;
     s3_getObject := s3_getObject (env "");
     textract_detect := textract_detect (env "");
     bedrock_invoke := fun _ => None;
     clock := clock (env "") |}.

(** The table serves every request but the second one of the invocation,
    the write of the result. *)
Definition env_write_rejected (text : string) : Env :=
  {| ddb_up := fun n => negb (n =? 1)%nat;
     s3_getObject := s3_getObject (env text);
     textract_detect := textract_detect (env text);
     bedrock_invoke := bedrock_invoke (env text);
     clock := clock (env text) |}.

(** The table serves the first request only. *)
Definition env_table_down (text : string) : Env :=
  {| ddb_up := fun n => (n =? 0)%nat;
     s3_getObject := s3_getObject (env text);
     textract_detect := textract_detect (env text);
     bedrock_invoke := bedrock_invoke (env text);
     clock := clock (env text) |}.

Definition request (id : string) : APIGatewayProxyEvent :=
  {| event_body := Some (dq ("{'documentId':'" +:+ id +:+ "'}")) |}.

(** The world after a run that completed the first document. *)
Definition completed_world : World :=
  (handler JSON.parse (env "{}") (request "doc-1") world).2.

(** Answers of the model: five sections in their domains and no executive
    summary; values outside the domains; an object followed by prose that
    holds braces. *)
Definition partial : string :=
  dq "{'keyTerms': [{'type': 'party', 'value': 'Acme', 'confidence': 90, 'location': 'p1'}], 'riskAssessment': {'overallRisk': 'low', 'risks': [], 'totalScore': 10}, 'clauseAnalysis': [{'clauseType': 'Term', 'content': 'c', 'isStandard': true, 'unusualAspects': [], 'recommendation': 'r'}], 'complianceCheck': {'overallCompliance': 90, 'missingClauses': [], 'nonStandardClauses': [], 'recommendations': []}, 'confidenceScore': 88}".

Definition out_of_domain : string :=
  dq "{'keyTerms': [{'type': 'banana', 'value': 'x', 'confidence': 200, 'location': 'p1'}], 'riskAssessment': {'overallRisk': 'severe', 'risks': [], 'totalScore': 50}, 'confidenceScore': 500}".

Definition prose : string := dq "{'confidenceScore': 90} (see clause {3})".

Definition now1 : string := "2024-01-01T00:00:01.000Z".
Definition now2 : string := "2024-01-01T00:00:02.000Z".

End Sample.

(** ** Steps of a run, for the statements *)

(** The request the handler sends to read the document: storage for a
    plain text, the OCR service for the rest. *)
Definition sourceEvent (document : Item) : Event :=
  if strict_eq (document !! "contentType") "text/plain"
  then GetObject (document !! "s3Key")
  else DetectDocumentText (document !! "s3Key").

Definition sourceService (document : Item) : service :=
  if strict_eq (document !! "contentType") "text/plain" then S3 else Textract.

(** The text that request gives, [None] when the service fails. *)
Definition sourceText (env : Env) (document : Item) : option string :=
  if strict_eq (document !! "contentType") "text/plain"
  then s3_getObject env (document !! "s3Key")
  else linesText <$> textract_detect env (document !! "s3Key").

(** What the interpreter makes of an answer of the model at a time. *)
Definition interpreted (JSON_parse : string -> option json) (responseBody : json)
    (now : string) : ContractAnalysis :=
  match extractJSON JSON_parse responseBody with
  | Some p => mapSections p now
  | None => fallback now
  end.

(** The requests to the model in a log. *)
Definition model_calls (events : list Event) : list InvokeModelRequest :=
  omap (fun e => match e with InvokeModel r => Some r | _ => None end) events.

(** The writes to the table in a log. *)
Definition writes (events : list Event) : list (value * list (string * json)) :=
  omap (fun e => match e with UpdateItem k s => Some (k, s) | _ => None end) events.

(** ** The results Lambda (unnamed/part_000)

    The requests of this Lambda and of the upload Lambda that have no
    constructor in [Event] (the scan, the put) are seen in the count of
    requests and in the table, not in the log. *)

Module Results.

(** [event.pathParameters?.id] *)
Record Request := { path_id : option string }.

Inductive Data :=
| Document (item : Item)
| Documents (items : list Item).

Record Body := {
  success : bool;
  data : option Data;
  error : option string
}.

Record Result := {
  statusCode : Z;
  headers : list (string * string);
  body : Body
}.

Definition failure (code : Z) (message : string) : Result :=
  {| statusCode := code; headers := cors;
     body := {| success := false; data := None; error := Some message |} |}.

Definition found (d : Data) : Result :=
  {| statusCode := 200; headers := cors;
     body := {| success := true; data := Some d; error := None |} |}.

(** [ProjectionExpression: 'id, fileName, uploadedAt, #status, fileSize'] *)
Definition projection : list string :=
  ["id"; "fileName"; "uploadedAt"; "status"; "fileSize"].

Definition project (item : Item) : Item :=
  filter (fun kv => kv.1 ∈ projection) item.

Section Lambda.

(** The services, and the keys of the items of the page that the scan
    returns, in the order of the service. *)
Context (env : Env) (scan_page : list string).

Definition ScanCommand : M (list Item) := fun w =>
  let sent :=
    {| table := table w; ddb_requests := S (ddb_requests w);
       clock_reads := clock_reads w; log := log w |} in
  if ddb_up env (ddb_requests w)
  then (Ok (omap (fun id => project <$> (table w !! id)) scan_page), sent)
  else (Throw (ServiceException DynamoDB), sent).

(** Lines 9-70. An array is truthy, so that [result.Items || []] is the
    array of the answer. *)
Definition handler (event : Request) : M Result :=
  try_catch
    (if negb (String.eqb (string_or (path_id event) "") "")
     then
       result ← GetCommand env (Some (JStr (string_or (path_id event) "")));
       match result with
       | None => mret (failure 404 "Document not found")
       | Some item => mret (found (Document item))
       end
     else
       items ← ScanCommand;
       mret (found (Documents items)))
    (fun error =>
       _ ← console_error "Results error:" error;
       mret (failure 500 "Failed to retrieve results")).

End Lambda.

End Results.

(** ** The upload Lambda (unnamed/part_004) *)

Module Upload.

Record PutObjectCommand := { Key : string; ContentType : json }.

Record Data := {
  documentId : string;
  uploadUrl : string;
  metadata : Item
}.

Record Body := {
  success : bool;
  data : option Data;
  error : option string
}.

Record Result := {
  statusCode : Z;
  headers : list (string * string);
  body : Body
}.

Definition failure (code : Z) (message : string) : Result :=
  {| statusCode := code; headers := cors;
     body := {| success := false; data := None; error := Some message |} |}.

Definition created (d : Data) : Result :=
  {| statusCode := 200; headers := cors;
     body := {| success := true; data := Some d; error := None |} |}.

Definition allowedTypes : list string :=
  ["application/pdf";
   "application/vnd.openxmlformats-officedocument.wordprocessingml.document";
   "text/plain"].

(** [xs.includes(v)] for an array of strings. *)
Definition includes (xs : list string) (v : value) : bool :=
  existsb (strict_eq v) xs.

(** A value known to be truthy is defined. *)
Definition defined (v : value) : json := default JNull v.

Section Lambda.

(** [JSON.parse]; [Number.prototype.toString]; the services; the identifier
    that [uuidv4()] draws; the URL that the presigner gives for a command,
    [None] when it fails. *)
Context (JSON_parse : string -> option json) (Number_toString : Q -> string)
  (env : Env) (uuidv4 : string) (getSignedUrl : PutObjectCommand -> option string).

(** The string a value becomes in a template literal, [None] when the
    conversion throws a [TypeError]. An object that has no own [toString]
    is written by [Object.prototype.toString]; an own [toString] of a parsed
    object is not callable, and no [valueOf] gives a primitive in its place.
    An array is joined with commas, [null] elements as the empty string. *)
Fixpoint ToString (v : json) : option string :=
  match v with
  | JNull => Some "null"
  | JBool true => Some "true"
  | JBool false => Some "false"
  | JNum q => Some (Number_toString q)
  | JStr s => Some s
  | JArr xs =>
      String.concat ","
        <$> foldr (fun x rest =>
                     s ← match x with JNull => Some "" | _ => ToString x end;
                     (s ::.) <$> rest)
              (Some []) xs
  | JObj kvs =>
      match assoc "toString" kvs with
      | Some _ => None
      | None => Some "[object Object]"
      end
  end.

Definition presign (c : PutObjectCommand) : M string := fun w =>
  (match getSignedUrl c with
   | Some url => Ok url
   | None => Throw (ServiceException S3)
   end, w).

(** [PutCommand]: the item replaces what the table holds for its key. As
    for the other requests, one that the document client refuses counts as
    not served. *)
Definition PutCommand (id : string) (item : Item) : M unit := fun w =>
  let sent t :=
    {| table := t; ddb_requests := S (ddb_requests w);
       clock_reads := clock_reads w; log := log w |} in
  if ddb_up env (ddb_requests w)
  then (Ok tt, sent (<[id := item]> (table w)))
  else (Throw (ServiceException DynamoDB), sent (table w)).

(** Lines 57-65. *)
Definition documentMetadata (documentId : string) (fileName fileSize : json)
    (now s3Key : string) (contentType : json) : Item :=
  {[ "id" := JStr documentId; "fileName" := fileName; "fileSize" := fileSize;
     "uploadedAt" := JStr now; "status" := JStr "processing";
     "s3Key" := JStr s3Key; "contentType" := contentType ]}.

(** Lines 13-92. *)
Definition handler (event : APIGatewayProxyEvent) : M Result :=
  try_catch
    (parsed ← parse JSON_parse (string_or (event_body event) "{}");
     fileName ← lift (js_prop (Some parsed) "fileName");
     fileSize ← lift (js_prop (Some parsed) "fileSize");
     contentType ← lift (js_prop (Some parsed) "contentType");
     if negb (truthy fileName) || negb (truthy fileSize) || negb (truthy contentType)
     then mret (failure 400 "Missing required fields: fileName, fileSize, contentType")
     else if negb (includes allowedTypes contentType)
     then mret (failure 400
                  "Unsupported file type. Only PDF, DOCX, and TXT files are allowed.")
     else
       let documentId := uuidv4 in
       name ← lift (match ToString (defined fileName) with
                    | Some name => Ok name
                    | None => Throw TypeError
                    end);
       let s3Key := "documents/" +:+ documentId +:+ "/" +:+ name in
       uploadUrl ← presign {| Key := s3Key; ContentType := defined contentType |};
       now ← Date_now env;
       let metadata :=
         documentMetadata documentId (defined fileName) (defined fileSize) now s3Key
           (defined contentType) in
       _ ← PutCommand documentId metadata;
       mret (created {| documentId := documentId; uploadUrl := uploadUrl;
                        metadata := metadata |}))
    (fun error =>
       _ ← console_error "Upload error:" error;
       mret (failure 500 "Internal server error")).

End Lambda.

End Upload.

(** ** The file picker (frontend/src/components/FileUpload.tsx) *)

Module FileUpload.

Record File := { name : string; size : Z; type : string }.

Definition allowedTypes : list string :=
  ["application/pdf";
   "application/vnd.openxmlformats-officedocument.wordprocessingml.document";
   "text/plain"].

Definition maxSize : Z := 10 * 1024 * 1024.

(** Lines 14-35: the answer, and the error message the component is left
    with. *)
Definition validateFile (file : File) : bool * option string :=
  if negb (existsb (String.eqb (type file)) allowedTypes)
  then (false, Some "Only PDF, DOCX, and TXT files are supported")
  else if (size file >? maxSize)%Z
  then (false, Some "File size must be less than 10MB")
  else (true, None).

(** Lines 46-66, the body that [handleDrop] and [handleFileInput] share:
    the first of the files, if there is one, is validated and, once
    accepted, passed to [onFileSelect]. The state of the parent and the
    error of the component are returned. *)
Definition handleFiles {S : Type} (onFileSelect : File -> S -> S)
    (files : list File) (parent : S) (error : option string) : S * option string :=
  match files with
  | file :: _ =>
      if (validateFile file).1
      then (onFileSelect file parent, (validateFile file).2)
      else (parent, (validateFile file).2)
  | [] => (parent, error)
  end.

End FileUpload.

(** ** The pages of the frontend

    What a rejected call is caught with, and how a call of the API layer
    settles. *)

Inductive thrown :=
| ErrorObject (message : string)
| NotAnError.

Inductive settled (A : Type) :=
| Resolved (a : A)
| Rejected (err : thrown).
Arguments Resolved {A} a.
Arguments Rejected {A} err.

(** [err instanceof Error ? err.message : fallback] *)
Definition message_or (err : thrown) (fallback : string) : string :=
  match err with
  | ErrorObject message => message
  | NotAnError => fallback
  end.

(** *** The upload page (frontend/src/pages/UploadPage.tsx) *)

Module UploadPage.

Inductive Status := Idle | Uploading | Processing | Completed | Error.

Record State := {
  selectedFile : option FileUpload.File;
  uploadStatus : Status;
  error : option string;
  documentId : option string;
  progress : Z
}.

Record UploadResponse := { response_documentId : string; response_uploadUrl : string }.

(** The calls of the API layer (frontend/src/services/api). *)
Record Api := {
  initiateUpload : string -> Z -> string -> settled UploadResponse;
  uploadToS3 : string -> FileUpload.File -> settled unit;
  processDocument : string -> settled unit
}.

(** What the page does besides setting its state. *)
Inductive Effect :=
| InitiateUpload (fileName : string) (fileSize : Z) (contentType : string)
| UploadToS3 (uploadUrl : string) (file : FileUpload.File)
| ProcessDocument (documentId : string)
| ConsoleError (message : string) (err : thrown)
| Navigate (delay : Z) (path : string).

(** Lines 16-20. *)
Definition handleFileSelect (file : FileUpload.File) (st : State) : State :=
  {| selectedFile := Some file; uploadStatus := Idle; error := None;
     documentId := documentId st; progress := progress st |}.

(** The [catch] of lines 55-60, from the state and the effects so far. *)
Definition caught (st : State) (effects : list Effect) (err : thrown)
  : State * list Effect :=
  ({| selectedFile := selectedFile st; uploadStatus := Error;
      error := Some (message_or err "An error occurred");
      documentId := documentId st; progress := 0 |},
   effects ++ [ConsoleError "Upload/processing error:" err]).

(** Lines 22-61: the state when the handler has run to its end, and its
    effects in their order. *)
Definition handleUpload (api : Api) (st : State) : State * list Effect :=
  match selectedFile st with
  | None => (st, [])
  | Some file =>
      let started :=
        {| selectedFile := Some file; uploadStatus := Uploading; error := None;
           documentId := documentId st; progress := 25 |} in
      let call1 :=
        InitiateUpload (FileUpload.name file) (FileUpload.size file) (FileUpload.type file) in
      match initiateUpload api (FileUpload.name file) (FileUpload.size file)
              (FileUpload.type file) with
      | Rejected err => caught started [call1] err
      | Resolved uploadResponse =>
          let initiated :=
            {| selectedFile := Some file; uploadStatus := Uploading; error := None;
               documentId := Some (response_documentId uploadResponse); progress := 50 |} in
          let call2 := UploadToS3 (response_uploadUrl uploadResponse) file in
          match uploadToS3 api (response_uploadUrl uploadResponse) file with
          | Rejected err => caught initiated [call1; call2] err
          | Resolved _ =>
              let stored :=
                {| selectedFile := Some file; uploadStatus := Processing; error := None;
                   documentId := Some (response_documentId uploadResponse);
                   progress := 75 |} in
              let call3 := ProcessDocument (response_documentId uploadResponse) in
              match processDocument api (response_documentId uploadResponse) with
              | Rejected err => caught stored [call1; call2; call3] err
              | Resolved _ =>
                  ({| selectedFile := Some file; uploadStatus := Completed; error := None;
                      documentId := Some (response_documentId uploadResponse);
                      progress := 100 |},
                   [call1; call2; call3;
                    Navigate 1500 ("/results/" +:+ response_documentId uploadResponse)])
              end
          end
      end
  end.

Definition initial : State :=
  {| selectedFile := None; uploadStatus := Idle; error := None; documentId := None;
     progress := 0 |}.

(** What the user can do on the page: give files to the picker, whatever
    error the picker shows, and press the upload button. *)
Inductive step (api : Api) : State -> State -> Prop :=
| step_files (files : list FileUpload.File) (error : option string) (st : State) :
    step api st (FileUpload.handleFiles handleFileSelect files st error).1
| step_upload (st : State) :
    step api st (handleUpload api st).1.

(** What holds of the page between two actions of the user. *)
Definition invariant (st : State) : Prop :=
  match selectedFile st with
  | Some file => (FileUpload.validateFile file).1 = true
  | None => uploadStatus st = Idle
  end
  /\ match uploadStatus st with
     | Completed => progress st = 100%Z /\ error st = None /\ is_Some (documentId st)
     | Error => progress st = 0%Z /\ is_Some (error st)
     | Idle => error st = None
     | _ => False
     end.

End UploadPage.

(** *** The results page (unnamed/part_002) *)

Module ResultsPage.

(** [null] is [None] for the document and [JNull] for the analysis. *)
Record State := {
  document : option Item;
  analysis : json;
  loading : bool;
  error : option string
}.

Definition initial : State :=
  {| document := None; analysis := JNull; loading := true; error := None |}.

(** Lines 17-31, from how [getDocumentResults] settles. *)
Definition fetchResults (result : settled Item) (st : State) : State :=
  match result with
  | Resolved result =>
      {| document := Some result; analysis := js_or (result !! "analysis") JNull;
         loading := false; error := error st |}
  | Rejected err =>
      {| document := document st; analysis := analysis st; loading := false;
         error := Some (message_or err "Failed to load results") |}
  end.

Inductive View :=
| Loading
| ErrorLoadingResults (message : string)
| AnalysisNotAvailable
| Results (document : Item) (analysis : json).

(** Lines 134-173: which of the four views is rendered. *)
Definition render (st : State) : View :=
  if loading st then Loading
  else if truthy (JStr <$> error st) then ErrorLoadingResults (default "" (error st))
  else
    match document st with
    | Some document =>
        if truthy (Some (analysis st)) then Results document (analysis st)
        else AnalysisNotAvailable
    | None => AnalysisNotAvailable
    end.

(** [[^/.]] *)
Definition not_slash_dot (c : ascii) : bool :=
  negb (Ascii.eqb c "/") && negb (Ascii.eqb c ".").

(** [\.[^/.]+], the expression of line 128 before its [$]. *)
Definition extension : regex :=
  RSeq (RChar ".") (RSeq (RClass not_slash_dot) (RStar (RClass not_slash_dot))).

(** [$]: the match is accepted only at the end of the text. *)
Definition at_end (rest : list ascii) : option unit :=
  match rest with
  | [] => Some tt
  | _ => None
  end.

(** [s.replace(/\.[^/.]+$/, '')]: the leftmost match, which ends the text,
    is removed. *)
Fixpoint remove_extension (s : list ascii) : list ascii :=
  match rmatch extension s at_end with
  | Some _ => []
  | None =>
      match s with
      | [] => []
      | c :: s' => c :: remove_extension s'
      end
  end.

(** Line 132: the name given to the download, for a record whose file
    name is a string; on any other file name [replace] is not a function. *)
Definition downloadName (fileName : value) : outcome string :=
  match fileName with
  | Some (JStr fileName) =>
      Ok (string_of_list_ascii (remove_extension (list_ascii_of_string fileName))
            +:+ "_analysis.json")
  | _ => Throw TypeError
  end.

(** What [exportToJSON] does besides computing. *)
Inductive Effect :=
| CreateObjectURL (exportData : json)
| AppendChild
| Click (href : json) (download : string)
| RemoveChild
| RevokeObjectURL (exportData : json).

(** A call [f(...)] of a value held by a record or an analysis: such a value
    was parsed from JSON and is no function, so that the call throws. *)
Definition js_call (f : value) : outcome json := Throw TypeError.

(** The properties of an object literal whose value is defined, as
    [JSON.stringify] keeps them. *)
Definition literal (properties : list (string * value)) : json :=
  JObj (omap (fun kv => pair kv.1 <$> kv.2) properties).

(** Lines 116-138. Inside the component [document] is the state of line 11,
    the record, not the document of the page: [document.createElement] and
    [document.body] are read in the record. The effects done, in their
    order, and how the function ends. *)
Definition exportToJSON (st : State) : list Effect * outcome unit :=
  match document st with
  | Some document =>
      if truthy (Some (analysis st))
      then
        let exportData :=
          literal
            [("document",
              Some (literal [("id", document !! "id");
                             ("fileName", document !! "fileName");
                             ("uploadedAt", document !! "uploadedAt");
                             ("processedAt", section (analysis st) "processedAt")]));
             ("analysis", Some (analysis st))] in
        let url := [CreateObjectURL exportData] in
        match js_call (document !! "createElement") with
        | Throw e => (url, Throw e)
        | Ok a =>
            match downloadName (document !! "fileName") with
            | Throw e => (url, Throw e)
            | Ok download =>
                match js_prop (document !! "body") "appendChild" with
                | Throw e => (url, Throw e)
                | Ok appendChild =>
                    match js_call appendChild with
                    | Throw e => (url, Throw e)
                    | Ok _ =>
                        (url ++ [AppendChild; Click a download; RemoveChild;
                                 RevokeObjectURL exportData], Ok tt)
                    end
                end
            end
        end
      else ([], Ok tt)
  | None => ([], Ok tt)
  end.

End ResultsPage.

(** *** The sections of the analysis (unnamed/part_001) *)

Module AnalysisResults.

(** [new Set(['summary'])] *)
Definition initial : gset string := {[ "summary" ]}.

(** Lines 13-21. *)
Definition toggleSection (section : string) (expandedSections : gset string)
  : gset string :=
  if decide (section ∈ expandedSections)
  then expandedSections ∖ {[ section ]}
  else expandedSections ∪ {[ section ]}.

End AnalysisResults.

(** ** More sample runs *)

Module Runs.

(** The table rejects the first request and serves the following ones. *)
Definition env_lookup_fails : Env :=
  {| ddb_up := fun n => negb (n =? 0)%nat;
     s3_getObject := s3_getObject (Sample.env "");
     textract_detect := textract_detect (Sample.env "");
     bedrock_invoke := bedrock_invoke (Sample.env "");
     clock := clock (Sample.env "") |}.

(** Storage and the OCR service fail. *)
Definition env_source_down : Env :=
  {| ddb_up := fun _ => true;
     s3_getObject := fun _ => None;
     textract_detect := fun _ => None;
     bedrock_invoke := bedrock_invoke (Sample.env "{}");
     clock := clock (Sample.env "") |}.

(** The model answers with a body that is not JSON. *)
Definition env_model_garbled : Env :=
  {| ddb_up := fun _ => true;
     s3_getObject := s3_getObject (Sample.env "");
     textract_detect := textract_detect (Sample.env "");
     bedrock_invoke := fun _ => Some "<html>Bad Gateway</html>";
     clock := clock (Sample.env "") |}.

(** The presigner answers with a URL under the bucket. *)
Definition getSignedUrl (c : Upload.PutObjectCommand) : option string :=
  Some ("https://documents.s3.amazonaws.com/" +:+ Upload.Key c).

(** [Number.prototype.toString] on the integers. *)
Definition Number_toString (q : Q) : string :=
  NilZero.string_of_int (Z.to_int (Qnum q / Zpos (Qden q))).

Definition file : FileUpload.File :=
  {| FileUpload.name := "lease.txt"; FileUpload.size := 2048;
     FileUpload.type := "text/plain" |}.

(** The request that the API layer posts for [file]. *)
Definition upload : APIGatewayProxyEvent :=
  {| event_body :=
       Some (dq "{'fileName':'lease.txt','fileSize':2048,'contentType':'text/plain'}") |}.

Definition upload_handler : M Upload.Result :=
  Upload.handler JSON.parse Number_toString (Sample.env "{}") "doc-7" getSignedUrl upload.

(** The answer to the upload of [file], and the world after it. *)
Definition upload_answer : Upload.Result :=
  Upload.created
    {| Upload.documentId := "doc-7";
       Upload.uploadUrl := "https://documents.s3.amazonaws.com/documents/doc-7/lease.txt";
       Upload.metadata :=
         Upload.documentMetadata "doc-7" (JStr "lease.txt") (num 2048)
           "2024-01-01T00:00:01.000Z" "documents/doc-7/lease.txt" (JStr "text/plain") |}.

Definition uploaded_world : World := (upload_handler Sample.world).2.

(** The world after a run that failed on the completed first document. *)
Definition failed_world : World :=
  (handler JSON.parse Sample.env_model_down (Sample.request "doc-1")
     Sample.completed_world).2.

(** Every call of the API layer resolves. *)
Definition api : UploadPage.Api :=
  {| UploadPage.initiateUpload := fun _ _ _ =>
       Resolved {| UploadPage.response_documentId := "doc-7";
                   UploadPage.response_uploadUrl :=
                     "https://documents.s3.amazonaws.com/documents/doc-7/lease.txt" |};
     UploadPage.uploadToS3 := fun _ _ => Resolved tt;
     UploadPage.processDocument := fun _ => Resolved tt |}.

Definition page : UploadPage.State :=
  {| UploadPage.selectedFile := Some file; UploadPage.uploadStatus := UploadPage.Idle;
     UploadPage.error := None; UploadPage.documentId := None;
     UploadPage.progress := 0 |}.

End Runs.

(** * Properties *)

#[local] Arguments js_prop : simpl never.
#[local] Arguments section : simpl never.
#[local] Arguments truthy : simpl never.
#[local] Arguments extractText : simpl never.
#[local] Arguments analyzeContractWithBedrock : simpl never.
#[local] Arguments mapParsed : simpl never.
#[local] Arguments markFailed : simpl never.
#[local] Arguments UpdateCommand : simpl never.
#[local] Arguments GetCommand : simpl never.

(** ** The match of [/\{[\s\S]*\}/] *)

Lemma space_or_not_all c : space_or_not c = true.
Proof. unfold space_or_not. apply orb_negb_r. Qed.

Lemma star_loop_any {R} (step : list ascii -> (list ascii -> option R) -> option R)
    (n : nat) (s : list ascii) (k : list ascii -> option R) :
  (forall s k, step s k = match s with [] => None | _ :: s' => k s' end) ->
  length s <= n ->
  star_loop step n s k = shortest_suffix s k.
Proof.
  intros Hstep. revert s. induction n as [|n IH]; intros s Hlen.
  - destruct s; [reflexivity | simpl in Hlen; lia].
  - destruct s as [|c s']; simpl; rewrite Hstep.
    + reflexivity.
    + replace (length s' <? S (length s'))%nat with true
        by (symmetry; apply Nat.ltb_lt; lia).
      rewrite IH by (simpl in Hlen; lia). reflexivity.
Qed.

Lemma rmatch_any {R} (s : list ascii) (k : list ascii -> option R) :
  rmatch (RClass space_or_not) s k = match s with [] => None | _ :: s' => k s' end.
Proof. destruct s as [|c s']; simpl; [|rewrite space_or_not_all]; reflexivity. Qed.

Lemma closes_Some s rest : closes s = Some rest <-> s = close_brace :: rest.
Proof.
  unfold closes. destruct s as [|c s']; cbn [rmatch].
  - split; discriminate.
  - destruct (Ascii.eqb_spec close_brace c) as [->|Hne].
    + split; congruence.
    + split; [discriminate | congruence].
Qed.

Lemma shortest_suffix_closes_None s :
  shortest_suffix s closes = None <-> close_brace ∉ s.
Proof.
  induction s as [|c s IH]; simpl.
  - split; [intros _; apply not_elem_of_nil | reflexivity].
  - destruct (shortest_suffix s closes) as [x|] eqn:E.
    + split; [discriminate|]. intros Hn. exfalso.
      assert (close_brace ∉ s) as Hs by (intros ?; apply Hn; by right).
      apply IH in Hs. discriminate.
    + destruct (closes (c :: s)) as [r|] eqn:Ec.
      * apply closes_Some in Ec. injection Ec as -> ->.
        split; [discriminate|]. intros Hn. exfalso. apply Hn. by left.
      * split; [|reflexivity]. intros _ Hin.
        apply elem_of_cons in Hin as [Hc|Hin].
        -- subst c. unfold closes in Ec. cbn [rmatch] in Ec. rewrite Ascii.eqb_refl in Ec.
           discriminate.
        -- by apply IH in Hin.
Qed.

Lemma shortest_suffix_closes_Some s rest :
  shortest_suffix s closes = Some rest <->
  exists mid, s = mid ++ close_brace :: rest /\ (close_brace ∉ rest).
Proof.
  revert rest. induction s as [|c s IH]; intros rest; simpl.
  - split; [discriminate|]. intros (mid & Hs & _).
    destruct mid; discriminate.
  - pose proof (shortest_suffix_closes_None s) as HNone.
    destruct (shortest_suffix s closes) as [x|].
    + split.
      * intros [= ->]. destruct (proj1 (IH rest) eq_refl) as (mid & -> & Hn).
        exists (c :: mid). by split.
      * intros (mid & Hs & Hn). f_equal.
        destruct mid as [|c' mid]; simpl in Hs.
        -- injection Hs as -> ->.
           destruct (proj1 (IH x) eq_refl) as (mid' & -> & _).
           exfalso. apply Hn. apply elem_of_app. right. by left.
        -- injection Hs as -> Hs.
           assert (Some x = Some rest) as E' by (apply IH; eauto).
           congruence.
    + apply proj1 in HNone. specialize (HNone eq_refl).
      split.
      * intros Hc. apply closes_Some in Hc. injection Hc as -> ->.
        exists []. by split.
      * intros (mid & Hs & Hn).
        destruct mid as [|c' mid]; simpl in Hs.
        -- injection Hs as -> ->. apply closes_Some. reflexivity.
        -- injection Hs as -> ->. exfalso. apply HNone.
           apply elem_of_app. right. by left.
Qed.

Lemma rexec_json_regex s :
  rexec json_regex s =
  match s with
  | c :: s1 =>
      if Ascii.eqb open_brace c
      then (fun rest => take (length s - length rest) s) <$> (shortest_suffix s1 closes)
      else None
  | [] => None
  end.
Proof.
  unfold rexec, json_regex. destruct s as [|c s1]; [reflexivity|].
  change (rmatch (RSeq (RChar open_brace)
                    (RSeq (RStar (RClass space_or_not)) (RChar close_brace)))
            (c :: s1) (fun rest => Some rest))
    with (if Ascii.eqb open_brace c
          then star_loop (rmatch (RClass space_or_not)) (length s1) s1 closes
          else None).
  destruct (Ascii.eqb open_brace c); [|reflexivity].
  rewrite star_loop_any by (auto using @rmatch_any).
  destruct (shortest_suffix s1 closes); reflexivity.
Qed.

Lemma rexec_json_regex_Some s m :
  rexec json_regex s = Some m <->
  exists mid post,
    s = open_brace :: mid ++ close_brace :: post /\ (close_brace ∉ post)
    /\ m = open_brace :: mid ++ [close_brace].
Proof.
  rewrite rexec_json_regex. destruct s as [|c s1].
  - split; [discriminate|]. intros (? & ? & ? & _). discriminate.
  - destruct (Ascii.eqb_spec open_brace c) as [<-|Hne].
    + destruct (shortest_suffix s1 closes) as [rest|] eqn:E;
        cbn [fmap option_fmap option_map].
      * apply shortest_suffix_closes_Some in E as (mid & -> & Hn).
        assert (take (length (open_brace :: mid ++ close_brace :: rest) - length rest)
                  (open_brace :: mid ++ close_brace :: rest)
                = open_brace :: mid ++ [close_brace]) as Ht.
        { change (open_brace :: mid ++ close_brace :: rest)
            with ((open_brace :: mid) ++ close_brace :: rest).
          rewrite (cons_middle close_brace), app_assoc.
          rewrite length_app, Nat.add_sub.
          by rewrite take_app_length. }
        rewrite Ht. split.
        -- intros [= <-]. eauto.
        -- intros (mid' & post & Hs & Hn' & ->). f_equal.
           injection Hs as Hs.
           assert (shortest_suffix (mid ++ close_brace :: rest) closes = Some post) as E1
             by (apply shortest_suffix_closes_Some; eauto).
           assert (shortest_suffix (mid ++ close_brace :: rest) closes = Some rest) as E2
             by (apply shortest_suffix_closes_Some; eauto).
           rewrite E1 in E2. injection E2 as ->.
           apply app_inv_tail in Hs. by subst.
      * split; [discriminate|]. intros (mid & post & Hs & Hn & _).
        injection Hs as ->. apply shortest_suffix_closes_None in E.
        exfalso. apply E. apply elem_of_app. right. by left.
    + split; [discriminate|]. intros (? & ? & Hs & _). congruence.
Qed.

Lemma rsearch_json_regex_Some s m :
  rsearch json_regex s = Some m <->
  exists pre mid post,
    s = pre ++ open_brace :: mid ++ close_brace :: post
    /\ (open_brace ∉ pre) /\ (close_brace ∉ post)
    /\ m = open_brace :: mid ++ [close_brace].
Proof.
  split.
  - revert m. induction s as [|c s IH]; intros m; simpl.
    + destruct (rexec json_regex []) eqn:E; [|discriminate].
      rewrite rexec_json_regex in E. discriminate.
    + destruct (rexec json_regex (c :: s)) as [m'|] eqn:E.
      * intros [= ->]. apply rexec_json_regex_Some in E as (mid & post & Hs & Hn & ->).
        exists [], mid, post. repeat split; auto. apply not_elem_of_nil.
      * intros Hs. apply IH in Hs as (pre & mid & post & -> & Hpre & Hpost & ->).
        exists (c :: pre), mid, post. repeat split; auto.
        intros Hin. apply elem_of_cons in Hin as [<-|Hin]; [|done].
        rewrite rexec_json_regex, Ascii.eqb_refl in E.
        destruct (shortest_suffix _ closes) eqn:E'; [discriminate|].
        apply shortest_suffix_closes_None in E'. apply E'.
        apply elem_of_app. right. right. apply elem_of_app. right. by left.
  - intros (pre & mid & post & -> & Hpre & Hpost & ->).
    induction pre as [|c pre IH]; simpl.
    + assert (rexec json_regex (open_brace :: mid ++ close_brace :: post)
              = Some (open_brace :: mid ++ [close_brace])) as ->
        by (apply rexec_json_regex_Some; eauto).
      reflexivity.
    + assert (rexec json_regex (c :: pre ++ open_brace :: mid ++ close_brace :: post) = None) as ->.
      { rewrite rexec_json_regex.
        destruct (Ascii.eqb_spec open_brace c) as [<-|]; [|reflexivity].
        exfalso. apply Hpre. by left. }
      apply IH. intros Hin. apply Hpre. by right.
Qed.

Lemma rsearch_json_regex_None s :
  rsearch json_regex s = None <->
  ~ exists pre post, s = pre ++ open_brace :: post /\ close_brace ∈ post.
Proof.
  split.
  - intros Hnone (pre & post & -> & Hin).
    apply list_elem_of_split in Hin as (l1 & l2 & ->).
    (* the first opening brace and the last closing brace *)
    assert (exists pre' rest, pre ++ open_brace :: l1 ++ close_brace :: l2
              = pre' ++ open_brace :: rest /\ (open_brace ∉ pre')
              /\ close_brace ∈ rest) as (pre' & rest & Heq & Hpre & Hin).
    { clear Hnone. induction pre as [|c pre IH]; simpl.
      - exists [], (l1 ++ close_brace :: l2). repeat split; auto.
        + apply not_elem_of_nil.
        + apply elem_of_app. right. by left.
      - destruct (Ascii.eqb_spec open_brace c) as [<-|Hne].
        + exists [], (pre ++ open_brace :: l1 ++ close_brace :: l2).
          repeat split; auto; [apply not_elem_of_nil|].
          apply elem_of_app. right. right. apply elem_of_app. right. by left.
        + destruct IH as (pre' & rest & -> & Hpre & Hin).
          exists (c :: pre'), rest. repeat split; auto.
          intros H. apply elem_of_cons in H as [?|?]; [congruence | done]. }
    rewrite Heq in Hnone.
    destruct (shortest_suffix rest closes) as [post|] eqn:E.
    + apply shortest_suffix_closes_Some in E as (mid & -> & Hpost).
      assert (rsearch json_regex (pre' ++ open_brace :: mid ++ close_brace :: post)
              = Some (open_brace :: mid ++ [close_brace])) as E'
        by (apply rsearch_json_regex_Some; eauto 10).
      congruence.
    + apply shortest_suffix_closes_None in E. done.
  - intros Hn. destruct (rsearch json_regex s) as [m|] eqn:E; [|reflexivity].
    apply rsearch_json_regex_Some in E as (pre & mid & post & -> & _).
    exfalso. apply Hn. exists pre, (mid ++ close_brace :: post). split; auto.
    apply elem_of_app. right. by left.
Qed.

(** ** The interpreter and the handler, step by step *)

Lemma js_prop_section p k : p <> JNull -> js_prop (Some p) k = Ok (section p k).
Proof. destruct p; intros H; try reflexivity. congruence. Qed.

Lemma mapParsed_run env p w :
  p <> JNull ->
  mapParsed env p w = (Ok (mapSections p (clock env (clock_reads w))), tick w).
Proof.
  intros Hp. unfold mapParsed, mapSections.
  unfold mbind, M_bind, lift. rewrite !js_prop_section by done. reflexivity.
Qed.

Lemma mapParsed_null env w : mapParsed env JNull w = (Throw TypeError, w).
Proof. reflexivity. Qed.

Lemma interpretResponse_run JSON_parse env responseBody w :
  exists w',
    interpretResponse JSON_parse env responseBody w
    = (Ok match extractJSON JSON_parse responseBody with
          | Some p => mapSections p (clock env (clock_reads w))
          | None => fallback (clock env (clock_reads w))
          end, w')
    /\ table w' = table w /\ ddb_requests w' = ddb_requests w.
Proof.
  unfold interpretResponse, extractJSON, try_catch, mbind, M_bind, lift.
  destruct (analysisText responseBody) as [[[| | | text | |]|]|e]; simpl;
    try (eexists; split; [reflexivity | split; reflexivity]).
  destruct (jsonMatch text) as [m|]; simpl;
    try (eexists; split; [reflexivity | split; reflexivity]).
  unfold parse. destruct (JSON_parse m) as [p|]; simpl;
    try (eexists; split; [reflexivity | split; reflexivity]).
  assert (p = JNull \/ p <> JNull) as [->|Hp] by (destruct p; auto; right; discriminate).
  - simpl. eexists; split; [reflexivity | split; reflexivity].
  - unfold mret, M_ret. rewrite mapParsed_run by done.
    destruct p; try congruence; simpl; eexists; split; try reflexivity; split; reflexivity.
Qed.

Lemma extractText_frame env document w :
  table (extractText env document w).2 = table w
  /\ ddb_requests (extractText env document w).2 = ddb_requests w.
Proof.
  unfold extractText. destruct (strict_eq _ _).
  - unfold GetObjectCommand. simpl. auto.
  - unfold mbind, M_bind, DetectDocumentTextCommand.
    destruct (textract_detect env _); simpl; auto.
Qed.

Lemma analyze_frame JSON_parse env text w :
  table (analyzeContractWithBedrock JSON_parse env text w).2 = table w
  /\ ddb_requests (analyzeContractWithBedrock JSON_parse env text w).2 = ddb_requests w
  /\ forall a, (analyzeContractWithBedrock JSON_parse env text w).1 = Ok a ->
       exists responseBody now,
         a = match extractJSON JSON_parse responseBody with
             | Some p => mapSections p now
             | None => fallback now
             end.
Proof.
  unfold analyzeContractWithBedrock, mbind, M_bind, InvokeModelCommand.
  destruct (bedrock_invoke env _) as [response|]; simpl; [|repeat split; auto; discriminate].
  unfold parse. destruct (JSON_parse response) as [rb|]; simpl; [|repeat split; auto; discriminate].
  destruct (interpretResponse_run JSON_parse env rb (record (InvokeModel (command text)) w))
    as (w' & -> & Ht & Hd). simpl. repeat split; auto.
  intros a [= <-]. eauto.
Qed.

Lemma markFailed_unparsed JSON_parse env event text w :
  event_body event = Some text -> text <> "" -> JSON_parse text = None ->
  markFailed JSON_parse env event w = (Throw SyntaxError, w).
Proof.
  intros Hb Hne Hp. unfold markFailed. rewrite Hb.
  destruct (String.eqb_spec text ""); [congruence|].
  unfold mbind, M_bind, parse. rewrite Hp. reflexivity.
Qed.

Lemma markFailed_parsed JSON_parse env event text p w :
  event_body event = Some text -> text <> "" -> JSON_parse text = Some p ->
  markFailed JSON_parse env event w =
  match js_prop (Some p) "documentId" with
  | Ok documentId =>
      if truthy documentId
      then UpdateCommand env documentId [("status", JStr "failed")] w
      else (Ok tt, w)
  | Throw e => (Throw e, w)
  end.
Proof.
  intros Hb Hne Hp. unfold markFailed. rewrite Hb.
  destruct (String.eqb_spec text ""); [congruence|].
  unfold mbind, M_bind, parse, lift. rewrite Hp. cbn.
  destruct (js_prop (Some p) "documentId") as [d|]; [|reflexivity].
  destruct (truthy d); reflexivity.
Qed.

Lemma UpdateCommand_run env key sets w :
  UpdateCommand env key sets w =
  let sent t :=
    {| table := t; ddb_requests := S (ddb_requests w);
       clock_reads := clock_reads w; log := log w ++ [UpdateItem key sets] |} in
  match key with
  | Some (JStr id) =>
      if ddb_up env (ddb_requests w)
      then (Ok tt, sent (<[id := apply_sets sets (item_or_new id (table w))]> (table w)))
      else (Throw (ServiceException DynamoDB), sent (table w))
  | _ => (Throw (ServiceException DynamoDB), sent (table w))
  end.
Proof. reflexivity. Qed.

Lemma GetCommand_run env key w :
  GetCommand env key w =
  let sent :=
    {| table := table w; ddb_requests := S (ddb_requests w);
       clock_reads := clock_reads w; log := log w ++ [GetItem key] |} in
  match key with
  | Some (JStr id) =>
      if ddb_up env (ddb_requests w)
      then (Ok (table w !! id), sent)
      else (Throw (ServiceException DynamoDB), sent)
  | _ => (Throw (ServiceException DynamoDB), sent)
  end.
Proof. reflexivity. Qed.

Lemma handler_unfold JSON_parse env event w :
  handler JSON_parse env event w =
  match process JSON_parse env event w with
  | (Ok r, w1) => (Ok r, w1)
  | (Throw e, w1) =>
      match markFailed JSON_parse env event
              (record (ConsoleError "Processing error:" e) w1) with
      | (Ok _, w2) => (Ok (failure 500 "Processing failed"), w2)
      | (Throw e', w2) => (Throw e', w2)
      end
  end.
Proof. reflexivity. Qed.

Lemma handler_outcome JSON_parse env event w out w' :
  JSON_parse "{}" = Some (JObj []) ->
  handler JSON_parse env event w = (out, w') ->
  match out with
  | Throw e => table w' = table w
  | Ok r =>
      (r = failure 400 "Document ID is required" /\ table w' = table w)
      \/ (r = failure 404 "Document not found" /\ table w' = table w
          /\ exists id, requestedId JSON_parse event = Some id /\ table w !! id = None)
      \/ (exists id document a now,
            r = completed a /\ requestedId JSON_parse event = Some id
            /\ table w !! id = Some document
            /\ (exists responseBody t,
                  a = match extractJSON JSON_parse responseBody with
                      | Some p => mapSections p t
                      | None => fallback t
                      end)
            /\ table w' = <[id := apply_sets (completedSets a now) document]> (table w))
      \/ (exists id,
            r = failure 500 "Processing failed" /\ requestedId JSON_parse event = Some id
            /\ table w' = <[id := <["status" := JStr "failed"]> (item_or_new id (table w))]> (table w))
  end.
Proof.
  intros Hempty. rewrite handler_unfold. unfold process, requestedId.
  assert (forall text, event_body event = Some text -> text <> "" ->
            string_or (event_body event) "{}" = text) as Hbody.
  { intros text -> Hne. simpl. destruct (String.eqb_spec text ""); congruence. }
  assert ((event_body event = None \/ event_body event = Some "") \/
          exists text, event_body event = Some text /\ text <> "") as [Hfalsy|(text & Hb & Hne)].
  { destruct (event_body event) as [t|]; [|auto].
    destruct (String.eqb_spec t ""); subst; eauto. }
  { assert (string_or (event_body event) "{}" = "{}") as -> by (destruct Hfalsy as [->| ->]; reflexivity).
    unfold parse, mbind, M_bind. rewrite Hempty. cbn. intros [= <- <-]. auto. }
  rewrite (Hbody text Hb Hne).
  unfold parse, mbind, M_bind, lift, throw.
  destruct (JSON_parse text) as [p|] eqn:Hparse; cbn [mret M_ret].
  2:{ rewrite (markFailed_unparsed _ _ _ text) by done.
      intros [= <- <-]. reflexivity. }
  assert (p = JNull \/ p <> JNull) as [->|Hp] by (destruct p; auto; right; discriminate).
  { unfold js_prop at 1. cbn. rewrite (markFailed_parsed _ _ _ text JNull) by done.
    unfold js_prop. cbn. intros [= <- <-]. reflexivity. }
  rewrite !js_prop_section by done.
  destruct (truthy (section p "documentId")) eqn:Htruthy; cbn [negb].
  2:{ intros [= <- <-]. auto. }
  rewrite GetCommand_run. cbn zeta.
  assert (forall w1, markFailed JSON_parse env event w1
            = UpdateCommand env (section p "documentId") [("status", JStr "failed")] w1) as Hmark.
  { intros w1. rewrite (markFailed_parsed _ _ _ text p) by done.
    rewrite js_prop_section, Htruthy by done. reflexivity. }
  destruct (section p "documentId") as [[| | | id | |]|] eqn:Hid;
    try (rewrite Hmark, UpdateCommand_run; intros [= <- <-]; reflexivity).
  destruct (ddb_up env (ddb_requests w)) eqn:Hup0.
  2:{ rewrite Hmark, UpdateCommand_run. cbn [ddb_requests table record].
      destruct (ddb_up env (S (ddb_requests w))); intros [= <- <-]; cbn; eauto 10. }
  destruct (table w !! id) as [document|] eqn:Hdoc.
  2:{ unfold mret, M_ret. intros [= <- <-]. cbn. eauto 10. }
  set (w1 := {| table := table w; ddb_requests := S (ddb_requests w);
                clock_reads := clock_reads w; log := log w ++ [GetItem (Some (JStr id))] |}).
  pose proof (extractText_frame env document w1) as (Ht1 & Hd1).
  destruct (extractText env document w1) as [[text'|e1] w2]; cbn [fst snd] in Ht1, Hd1.
  2:{ rewrite Hmark, UpdateCommand_run. cbn [ddb_requests table record]. rewrite Ht1, Hd1. cbn.
      destruct (ddb_up env (S (ddb_requests w))); intros [= <- <-]; cbn; eauto 10. }
  pose proof (analyze_frame JSON_parse env text' w2) as (Ht2 & Hd2 & Ha).
  destruct (analyzeContractWithBedrock JSON_parse env text' w2) as [[a|e2] w3]; cbn [fst snd] in Ht2, Hd2, Ha.
  2:{ rewrite Hmark, UpdateCommand_run. cbn [ddb_requests table record]. rewrite Ht2, Hd2, Ht1, Hd1. cbn.
      destruct (ddb_up env (S (ddb_requests w))); intros [= <- <-]; cbn; eauto 10. }
  unfold Date_now. rewrite UpdateCommand_run. cbn [ddb_requests table record tick].
  rewrite Hd2, Hd1. cbn [ddb_requests table w1].
  destruct (ddb_up env (S (ddb_requests w))).
  + unfold mret, M_ret. intros [= <- <-]. cbn [table]. right. right. left.
    exists id, document, a, (clock env (clock_reads w3)).
    rewrite Ht2, Ht1. cbn [table w1].
    repeat split; auto. unfold item_or_new. rewrite Hdoc. reflexivity.
  + rewrite Hmark, UpdateCommand_run. cbn [ddb_requests table record].
    rewrite Ht2, Ht1. cbn [table w1].
    destruct (ddb_up env (S (S (ddb_requests w)))); intros [= <- <-]; cbn; eauto 10.
Qed.

(** ** Auxiliary facts *)

Lemma string_or_empty s : string_or (Some s) "" = s.
Proof. simpl. destruct (String.eqb_spec s ""); congruence. Qed.

Lemma linesText_join Blocks :
  linesText Blocks = join (String "010" "") (map Text (List.filter is_line (default [] Blocks))).
Proof. destruct Blocks as [blocks|]; [apply string_or_empty | reflexivity]. Qed.

Lemma ocr_calls_app l1 l2 : ocr_calls (l1 ++ l2) = ocr_calls l1 + ocr_calls l2.
Proof. unfold ocr_calls. by rewrite List.filter_app, length_app. Qed.


Lemma fallback_conforms now : conforms (fallback now) = true.
Proof. reflexivity. Qed.

Lemma js_or_truthy v d : truthy v = true -> Some (js_or v d) = v.
Proof.
  unfold js_or. intros H. rewrite H. destruct v; [reflexivity|].
  compute in H. discriminate.
Qed.

Lemma js_or_falsy v d : truthy v = false -> js_or v d = d.
Proof. unfold js_or. by intros ->. Qed.

Lemma absent_falsy v : v = None \/ v = Some JNull -> truthy v = false.
Proof. by intros [->| ->]. Qed.

Lemma sections_get p now k d get :
  In (k, d, get) sections -> get (mapSections p now) = js_or (section p k) d.
Proof.
  unfold sections. cbn [In]. intros H.
  repeat (destruct H as [[= <- <- <-]|H]; [reflexivity|]). destruct H.
Qed.

Lemma kept_in_js_or (domain : json -> bool) v d :
  domain d = true -> domain (js_or v d) = kept_in domain v.
Proof.
  intros Hd. unfold js_or, kept_in. destruct (truthy v) eqn:Hv; [|exact Hd].
  destruct v; [reflexivity|]. compute in Hv. discriminate.
Qed.

Lemma in_domain_mapSections p now :
  in_domain (mapSections p now) = sections_in_domain p.
Proof.
  unfold in_domain, sections_in_domain, mapSections, buildAnalysis.
  cbn [keyTerms riskAssessment complianceCheck confidenceScore].
  by rewrite !kept_in_js_or.
Qed.

Lemma jsonMatch_Some text m :
  jsonMatch text = Some m <->
  exists pre mid post,
    list_ascii_of_string text = pre ++ open_brace :: mid ++ close_brace :: post
    /\ (open_brace ∉ pre) /\ (close_brace ∉ post)
    /\ list_ascii_of_string m = open_brace :: mid ++ [close_brace].
Proof.
  unfold jsonMatch, String_match. split.
  - destruct (rsearch json_regex (list_ascii_of_string text)) as [l|] eqn:E; [|discriminate].
    cbn [fmap option_fmap option_map]. intros [= <-].
    rewrite list_ascii_of_string_of_list_ascii.
    by apply rsearch_json_regex_Some.
  - intros (pre & mid & post & Ht & Hpre & Hpost & Hm).
    assert (rsearch json_regex (list_ascii_of_string text)
            = Some (open_brace :: mid ++ [close_brace])) as ->
      by (apply rsearch_json_regex_Some; eauto 10).
    cbn [fmap option_fmap option_map]. f_equal. rewrite <- Hm.
    apply string_of_list_ascii_of_string.
Qed.

Lemma completed_item_status a now (document : Item) :
  apply_sets (completedSets a now) document !! "status" = Some (JStr "completed").
Proof.
  cbn. rewrite lookup_insert_ne by done. rewrite lookup_insert_ne by done.
  apply lookup_insert_eq.
Qed.

Lemma completed_item_analysis a now (document : Item) :
  apply_sets (completedSets a now) document !! "analysis" = Some (analysis_object a).
Proof. cbn. rewrite lookup_insert_ne by done. apply lookup_insert_eq. Qed.

Lemma item_or_new_analysis id (t : gmap string Item) :
  item_or_new id t !! "analysis" = t !! id ≫= (.!! "analysis").
Proof. unfold item_or_new. destruct (t !! id); reflexivity. Qed.

Lemma stored_insert id (item : Item) attribute (w w' : World) :
  table w' = <[id := item]> (table w) ->
  stored id attribute w' = item !! attribute.
Proof. unfold stored. intros ->. by rewrite lookup_insert_eq. Qed.

Lemma requestedId_body JSON_parse event id :
  JSON_parse "{}" = Some (JObj []) ->
  requestedId JSON_parse event = Some id ->
  exists text p,
    event_body event = Some text /\ text <> "" /\ JSON_parse text = Some p
    /\ p <> JNull /\ section p "documentId" = Some (JStr id).
Proof.
  intros Hempty. unfold requestedId.
  destruct (event_body event) as [text|]; cbn [string_or].
  2:{ rewrite Hempty. discriminate. }
  destruct (String.eqb_spec text "") as [->|Hne].
  { rewrite Hempty. discriminate. }
  destruct (JSON_parse text) as [p|] eqn:Hp; [|discriminate].
  destruct (section p "documentId") as [[| | | id' | |]|] eqn:Hsec; try discriminate.
  intros [= ->].
  assert (p <> JNull) as Hnull by (intros ->; discriminate Hsec).
  exists text, p. repeat split; assumption || reflexivity.
Qed.

Lemma truthy_string id : id <> "" -> truthy (Some (JStr id)) = true.
Proof.
  intros Hne. unfold truthy. destruct (String.eqb_spec id ""); [congruence|reflexivity].
Qed.

Lemma markFailed_requested JSON_parse env event id w :
  JSON_parse "{}" = Some (JObj []) ->
  requestedId JSON_parse event = Some id -> id <> "" ->
  markFailed JSON_parse env event w
  = UpdateCommand env (Some (JStr id)) [("status", JStr "failed")] w.
Proof.
  intros Hempty Hid Hne.
  destruct (requestedId_body _ _ _ Hempty Hid) as (text & p & Hb & Ht & Hp & Hnull & Hsec).
  rewrite (markFailed_parsed _ _ _ text p) by done.
  by rewrite js_prop_section, Hsec, truthy_string.
Qed.

Lemma process_throws_id JSON_parse env event id w e w1 :
  JSON_parse "{}" = Some (JObj []) ->
  requestedId JSON_parse event = Some id ->
  process JSON_parse env event w = (Throw e, w1) -> id <> "".
Proof.
  intros Hempty Hid Hproc ->.
  destruct (requestedId_body _ _ _ Hempty Hid) as (text & p & Hb & Ht & Hp & Hnull & Hsec).
  unfold process, parse, mbind, M_bind, lift in Hproc.
  rewrite Hb in Hproc. cbn [string_or] in Hproc.
  destruct (String.eqb_spec text ""); [congruence|].
  rewrite Hp in Hproc. cbn [mret M_ret] in Hproc.
  rewrite js_prop_section, Hsec in Hproc by done. discriminate Hproc.
Qed.

(** * The claims of the specification *)

(** C1 does not hold as stated. After a run that completes, the record is
    completed with an analysis outside the schema; after a failed run on a
    document completed before, the record is failed and still has its
    analysis. *)
Lemma invariant_broken :
  (let run := handler JSON.parse (Sample.env "{\'confidenceScore\': 500}")
                (Sample.request "doc-1") Sample.world in
   Spec.table_invariant Sample.world = true
   /\ statusCode <$> returned run = Some 200%Z
   /\ stored "doc-1" "status" run.2 = Some (JStr "completed")
   /\ Spec.invariant_at "doc-1" run.2 = Some false)
  /\ (let run := handler JSON.parse Sample.env_model_down
                   (Sample.request "doc-1") Sample.completed_world in
      Spec.table_invariant Sample.completed_world = true
      /\ stored "doc-1" "status" Sample.completed_world = Some (JStr "completed")
      /\ statusCode <$> returned run = Some 500%Z
      /\ stored "doc-1" "status" run.2 = Some (JStr "failed")
      /\ stored "doc-1" "analysis" run.2
         = stored "doc-1" "analysis" Sample.completed_world
      /\ is_Some (stored "doc-1" "analysis" run.2)
      /\ Spec.invariant_at "doc-1" run.2 = Some false).
Proof.
  cbv zeta. repeat split; try (vm_compute; reflexivity).
  vm_compute. eauto.
Qed.

(** C1, amended. After an invocation that answers 200 the record of the
    requested document has the status [completed] and an analysis, the
    object the interpreter returned (an object, not null; it is not checked
    against the schema). After an invocation that answers 500 the record has
    the status [failed] and its analysis attribute is what it was before the
    invocation: absent if it was absent, still there if the document had
    been completed before. Any other answer leaves the table as it was, and
    no invocation touches the record of another document. *)
Theorem status_and_analysis (JSON_parse : string -> option json) (env : Env)
    (event : APIGatewayProxyEvent) (w : World) (r : APIGatewayProxyResult)
    (w' : World) :
  JSON_parse "{}" = Some (JObj []) ->
  handler JSON_parse env event w = (Ok r, w') ->
  (statusCode r = 200%Z ->
   exists id a,
     requestedId JSON_parse event = Some id /\ data (body r) = Some a
     /\ stored id "status" w' = Some (JStr "completed")
     /\ stored id "analysis" w' = Some (analysis_object a)
     /\ analysis_object a <> JNull)
  /\ (statusCode r = 500%Z ->
      exists id,
        requestedId JSON_parse event = Some id
        /\ stored id "status" w' = Some (JStr "failed")
        /\ stored id "analysis" w' = stored id "analysis" w)
  /\ (statusCode r <> 200%Z -> statusCode r <> 500%Z -> table w' = table w)
  /\ (forall id', requestedId JSON_parse event <> Some id' ->
        table w' !! id' = table w !! id').
Proof.
  intros Hempty Hrun.
  pose proof (handler_outcome _ _ _ _ _ _ Hempty Hrun) as H. cbv beta iota in H.
  destruct H as [[-> Ht]|[(-> & Ht & _)|[H|(id & -> & Hid & Ht)]]].
  - repeat split; try discriminate; try (intros; congruence).
  - repeat split; try discriminate; try (intros; congruence).
  - destruct H as (id & document & a & now & -> & Hid & Hdoc & _ & Ht).
    split; [|split; [discriminate|split; [intros H; by destruct H|]]].
    + intros _. exists id, a. split; [exact Hid|]. split; [reflexivity|].
      rewrite !(stored_insert _ _ _ _ _ Ht).
      rewrite completed_item_status, completed_item_analysis. by repeat split.
    + intros id' Hne. rewrite Ht. apply lookup_insert_ne. congruence.
  - split; [discriminate|]. split; [|split; [intros _ H; by destruct H|]].
    + intros _. exists id. split; [exact Hid|].
      rewrite !(stored_insert _ _ _ _ _ Ht). split; [apply lookup_insert_eq|].
      rewrite lookup_insert_ne by done. apply item_or_new_analysis.
    + intros id' Hne. rewrite Ht. apply lookup_insert_ne. congruence.
Qed.

Lemma status_and_analysis_witness :
  (exists id a,
     requestedId JSON.parse (Sample.request "doc-1") = Some id
     /\ data (body (completed (mapSections (JObj []) Sample.now1))) = Some a
     /\ stored id "status" Sample.completed_world = Some (JStr "completed")
     /\ stored id "analysis" Sample.completed_world = Some (analysis_object a)
     /\ analysis_object a <> JNull)
  /\ (exists id,
        requestedId JSON.parse (Sample.request "doc-1") = Some id
        /\ stored id "status"
             (handler JSON.parse Sample.env_model_down (Sample.request "doc-1")
                Sample.completed_world).2 = Some (JStr "failed")
        /\ stored id "analysis"
             (handler JSON.parse Sample.env_model_down (Sample.request "doc-1")
                Sample.completed_world).2
           = stored id "analysis" Sample.completed_world).
Proof.
  split.
  - apply (status_and_analysis JSON.parse (Sample.env "{}") (Sample.request "doc-1")
             Sample.world (completed (mapSections (JObj []) Sample.now1))
             Sample.completed_world).
    + reflexivity.
    + vm_compute. reflexivity.
    + reflexivity.
  - apply (status_and_analysis JSON.parse Sample.env_model_down
             (Sample.request "doc-1") Sample.completed_world
             (failure 500 "Processing failed")).
    + reflexivity.
    + vm_compute. reflexivity.
    + reflexivity.
Defined.



(** C3 does not hold as stated: a confidence score of 0 is present and not
    null, so that the claim maps it as it is, and the result carries 75. *)
Lemma zero_confidence_replaced :
  let responseBody := answer (dq "{'confidenceScore': 0}") in
  let p := JObj [("confidenceScore", num 0)] in
  extractJSON JSON.parse responseBody = Some p
  /\ Spec.present (section p "confidenceScore") = true
  /\ Spec.mapSection (section p "confidenceScore") default_confidenceScore = num 0
  /\ confidenceScore
       <$> returned (interpretResponse JSON.parse (Sample.env "") responseBody
                      Sample.world)
     = Some (num 75).
Proof. cbv zeta. repeat split; vm_compute; reflexivity. Qed.

(** C3, amended. When a JSON value is extracted from the model's text and
    parsed, each of the six sections whose value is truthy is mapped into
    the result as it is, and each section that is absent or null is replaced
    by its default, one section independently of the other. With the six
    sections truthy the result is the direct mapping of the fields; with
    only the executive summary missing, only that section is the default. *)
Theorem sections_mapped_or_defaulted (JSON_parse : string -> option json)
    (env : Env) (responseBody : json) (w : World) (p : json) :
  extractJSON JSON_parse responseBody = Some p ->
  exists a w',
    interpretResponse JSON_parse env responseBody w = (Ok a, w')
    /\ (forall k d get, In (k, d, get) sections ->
          (truthy (section p k) = true -> Some (get a) = section p k)
          /\ (section p k = None \/ section p k = Some JNull -> get a = d))
    /\ (forall kt ra ca cc cs,
          section p "keyTerms" = Some kt -> truthy (Some kt) = true ->
          section p "riskAssessment" = Some ra -> truthy (Some ra) = true ->
          section p "clauseAnalysis" = Some ca -> truthy (Some ca) = true ->
          section p "complianceCheck" = Some cc -> truthy (Some cc) = true ->
          section p "confidenceScore" = Some cs -> truthy (Some cs) = true ->
          (forall es,
             section p "executiveSummary" = Some es -> truthy (Some es) = true ->
             a = {| documentId := ""; keyTerms := kt; riskAssessment := ra;
                    clauseAnalysis := ca; complianceCheck := cc;
                    executiveSummary := es; confidenceScore := cs;
                    processedAt := clock env (clock_reads w) |})
          /\ (section p "executiveSummary" = None ->
              a = {| documentId := ""; keyTerms := kt; riskAssessment := ra;
                     clauseAnalysis := ca; complianceCheck := cc;
                     executiveSummary := default_executiveSummary;
                     confidenceScore := cs;
                     processedAt := clock env (clock_reads w) |})).
Proof.
  intros Hp.
  destruct (interpretResponse_run JSON_parse env responseBody w) as (w' & Hrun & _).
  rewrite Hp in Hrun. eexists _, _. split; [exact Hrun|]. split.
  - intros k d get Hin. rewrite (sections_get _ _ _ _ _ Hin). split.
    + apply js_or_truthy.
    + intros H. apply js_or_falsy, absent_falsy, H.
  - intros kt ra ca cc cs Hkt Tkt Hra Tra Hca Tca Hcc Tcc Hcs Tcs.
    unfold mapSections, buildAnalysis. rewrite Hkt, Hra, Hca, Hcc, Hcs.
    unfold js_or. rewrite Tkt, Tra, Tca, Tcc, Tcs. cbn [default]. split.
    + intros es Hes Tes. by rewrite Hes, Tes.
    + intros ->. reflexivity.
Qed.

Lemma sections_mapped_or_defaulted_witness :
  exists p a w',
    extractJSON JSON.parse (answer Sample.partial) = Some p
    /\ interpretResponse JSON.parse (Sample.env "") (answer Sample.partial)
         Sample.world = (Ok a, w')
    /\ Some (confidenceScore a) = section p "confidenceScore"
    /\ confidenceScore a = num 88
    /\ Some (keyTerms a) = section p "keyTerms"
    /\ executiveSummary a = default_executiveSummary.
Proof.
  eexists.
  edestruct (sections_mapped_or_defaulted JSON.parse (Sample.env "")
               (answer Sample.partial) Sample.world)
    as (a & w' & Hrun & Hsec & Hall).
  { vm_compute. reflexivity. }
  exists a, w'. split; [reflexivity|]. split; [exact Hrun|].
  destruct (Hall _ _ _ _ _ eq_refl eq_refl eq_refl eq_refl eq_refl eq_refl
              eq_refl eq_refl eq_refl eq_refl) as [_ Hpartial].
  specialize (Hpartial eq_refl).
  split; [|split; [|split]].
  - apply (Hsec "confidenceScore" default_confidenceScore confidenceScore).
    + cbn. auto 10.
    + reflexivity.
  - rewrite Hpartial. reflexivity.
  - apply (Hsec "keyTerms" default_keyTerms keyTerms).
    + cbn. auto 10.
    + reflexivity.
  - rewrite Hpartial. reflexivity.
Defined.

(** C4 does not hold as stated: a term type, a risk level and scores
    outside their domains go through the interpreter unchanged. *)
Lemma out_of_domain_propagated :
  let run := interpretResponse JSON.parse (Sample.env "")
               (answer Sample.out_of_domain) Sample.world in
  confidenceScore <$> returned run = Some (num 500)
  /\ confidenceScore_domain ∘ confidenceScore <$> returned run = Some false
  /\ keyTerms_domain ∘ keyTerms <$> returned run = Some false
  /\ RiskAssessment_domain ∘ riskAssessment <$> returned run = Some false
  /\ in_domain <$> returned run = Some false.
Proof. cbv zeta. repeat split; vm_compute; reflexivity. Qed.

(** C4, amended. The interpreter checks no domain. Its result is the
    fallback analysis, which conforms to the schema, or the mapping of the
    parsed value, in which a truthy section is propagated unchanged and any
    other section is a default that lies in its domain: the enumerated
    fields and the scores of the result are in their domains exactly when
    those of the propagated sections are. *)
Theorem domains_of_results (JSON_parse : string -> option json) (env : Env)
    (responseBody : json) (w : World) :
  exists a w',
    interpretResponse JSON_parse env responseBody w = (Ok a, w')
    /\ match extractJSON JSON_parse responseBody with
       | None => a = fallback (clock env (clock_reads w)) /\ conforms a = true
       | Some p =>
           a = mapSections p (clock env (clock_reads w))
           /\ in_domain a = sections_in_domain p
           /\ (forall k d get, In (k, d, get) sections ->
                 truthy (section p k) = true -> Some (get a) = section p k)
       end.
Proof.
  destruct (interpretResponse_run JSON_parse env responseBody w) as (w' & Hrun & _).
  eexists _, _. split; [exact Hrun|].
  destruct (extractJSON JSON_parse responseBody) as [p|].
  - split; [reflexivity|]. split; [apply in_domain_mapSections|].
    intros k d get Hin. rewrite (sections_get _ _ _ _ _ Hin). apply js_or_truthy.
  - split; reflexivity.
Qed.

Lemma domains_of_results_witness :
  exists a w',
    interpretResponse JSON.parse (Sample.env "") (answer Sample.partial) Sample.world
    = (Ok a, w')
    /\ in_domain a = true
    /\ Some (riskAssessment a)
       = section (JObj [("riskAssessment",
                         JObj [("overallRisk", JStr "low"); ("risks", JArr []);
                               ("totalScore", num 10)])]) "riskAssessment".
Proof.
  destruct (domains_of_results JSON.parse (Sample.env "") (answer Sample.partial)
              Sample.world) as (a & w' & Hrun & H).
  exists a, w'. split; [exact Hrun|].
  assert (exists p, extractJSON JSON.parse (answer Sample.partial) = Some p
                    /\ sections_in_domain p = true
                    /\ truthy (section p "riskAssessment") = true
                    /\ section p "riskAssessment"
                       = Some (JObj [("overallRisk", JStr "low"); ("risks", JArr []);
                                     ("totalScore", num 10)]))
    as (p & Hp & Hdom & Htruthy & Hra).
  { eexists. split; [vm_compute; reflexivity|]. repeat split. }
  rewrite Hp in H. destruct H as (_ & Hin & Hkeep). split.
  - by rewrite Hin.
  - rewrite (Hkeep "riskAssessment" default_riskAssessment riskAssessment).
    + exact Hra.
    + cbn. auto 10.
    + exact Htruthy.
Defined.

(** C5 does not hold as stated: when the table rejects the write of the
    result and serves the next request, the status is set to [failed] after
    all, and the caller gets the same 500 answer as for any other failure. *)
Lemma rejected_write_marked_failed :
  let tried := process JSON.parse (Sample.env_write_rejected "{}")
                 (Sample.request "doc-1") Sample.world in
  let run := handler JSON.parse (Sample.env_write_rejected "{}")
               (Sample.request "doc-1") Sample.world in
  tried.1 = Throw (ServiceException DynamoDB)
  /\ last (log tried.2)
     = Some (UpdateItem (Some (JStr "doc-1"))
               (completedSets (mapSections (JObj []) Sample.now1) Sample.now2))
  /\ stored "doc-1" "status" Sample.world = Some (JStr "processing")
  /\ returned run = Some (failure 500 "Processing failed")
  /\ stored "doc-1" "status" run.2 = Some (JStr "failed").
Proof. cbv zeta. repeat split; vm_compute; reflexivity. Qed.

(** C5, amended. Whatever fails in the [try] block of the handler (the
    lookup, the extraction, the call of the model, or the final write of the
    result) is handled by one error boundary, which writes the status
    [failed] for the requested id. When the table serves that write, the
    handler answers the 500 "Processing failed" and the record is at
    [failed], also after a rejected final write; when the table does not
    serve it, the exception leaves the handler and the table is as it was
    before the invocation, so that the record keeps its earlier status. A
    request without a string id that fails ends in an exception as well. *)
Theorem failures_marked_failed (JSON_parse : string -> option json) (env : Env)
    (event : APIGatewayProxyEvent) (w : World) (e : exn) (w1 : World) :
  JSON_parse "{}" = Some (JObj []) ->
  process JSON_parse env event w = (Throw e, w1) ->
  (forall id,
     requestedId JSON_parse event = Some id ->
     ddb_up env (ddb_requests w1) = true ->
     exists w',
       handler JSON_parse env event w = (Ok (failure 500 "Processing failed"), w')
       /\ stored id "status" w' = Some (JStr "failed"))
  /\ (forall id,
        requestedId JSON_parse event = Some id ->
        ddb_up env (ddb_requests w1) = false ->
        exists w',
          handler JSON_parse env event w = (Throw (ServiceException DynamoDB), w')
          /\ table w' = table w)
  /\ (requestedId JSON_parse event = None ->
      exists e' w',
        handler JSON_parse env event w = (Throw e', w') /\ table w' = table w).
Proof.
  intros Hempty Hproc.
  assert (forall id, requestedId JSON_parse event = Some id ->
            handler JSON_parse env event w
            = if ddb_up env (ddb_requests w1)
              then (Ok (failure 500 "Processing failed"),
                    (UpdateCommand env (Some (JStr id)) [("status", JStr "failed")]
                       (record (ConsoleError "Processing error:" e) w1)).2)
              else (Throw (ServiceException DynamoDB),
                    (UpdateCommand env (Some (JStr id)) [("status", JStr "failed")]
                       (record (ConsoleError "Processing error:" e) w1)).2)) as Hh.
  { intros id Hid. rewrite handler_unfold, Hproc.
    rewrite (markFailed_requested _ _ _ id) by eauto using process_throws_id.
    rewrite UpdateCommand_run. cbn [ddb_requests record].
    destruct (ddb_up env (ddb_requests w1)); reflexivity. }
  split; [|split].
  - intros id Hid Hup. specialize (Hh id Hid). rewrite Hup in Hh.
    eexists. split; [exact Hh|].
    pose proof (handler_outcome _ _ _ _ _ _ Hempty Hh) as H. cbv beta iota in H.
    destruct H as [[[=] _]|[([=] & _)|[H|(id' & _ & Hid' & Ht)]]].
    + destruct H as (? & ? & ? & ? & [=] & _).
    + assert (id' = id) as -> by congruence.
      rewrite (stored_insert _ _ _ _ _ Ht). apply lookup_insert_eq.
  - intros id Hid Hup. specialize (Hh id Hid). rewrite Hup in Hh.
    eexists. split; [exact Hh|].
    exact (handler_outcome _ _ _ _ _ _ Hempty Hh).
  - intros Hnone.
    destruct (handler JSON_parse env event w) as [[r|e'] w'] eqn:Hrun.
    + exfalso. pose proof Hrun as Hr. rewrite handler_unfold, Hproc in Hr.
      destruct (markFailed _ _ _ _) as [[[]|?] w2]; [|discriminate].
      injection Hr as <- <-.
      pose proof (handler_outcome _ _ _ _ _ _ Hempty Hrun) as H. cbv beta iota in H.
      destruct H as [[[=] _]|[([=] & _)|[H|(id & _ & Hid & _)]]].
      * destruct H as (? & ? & ? & ? & [=] & _).
      * congruence.
    + exists e', w'. split; [reflexivity|].
      exact (handler_outcome _ _ _ _ _ _ Hempty Hrun).
Qed.

Lemma failures_marked_failed_witness :
  (exists w',
     handler JSON.parse (Sample.env_write_rejected "{}") (Sample.request "doc-1")
       Sample.world = (Ok (failure 500 "Processing failed"), w')
     /\ stored "doc-1" "status" w' = Some (JStr "failed"))
  /\ (exists w',
        handler JSON.parse (Sample.env_table_down "{}") (Sample.request "doc-1")
          Sample.world = (Throw (ServiceException DynamoDB), w')
        /\ table w' = table Sample.world).
Proof.
  split.
  - destruct (failures_marked_failed JSON.parse (Sample.env_write_rejected "{}")
                (Sample.request "doc-1") Sample.world (ServiceException DynamoDB)
                (process JSON.parse (Sample.env_write_rejected "{}")
                   (Sample.request "doc-1") Sample.world).2) as (H & _).
    + reflexivity.
    + vm_compute. reflexivity.
    + apply (H "doc-1"); vm_compute; reflexivity.
  - destruct (failures_marked_failed JSON.parse (Sample.env_table_down "{}")
                (Sample.request "doc-1") Sample.world (ServiceException DynamoDB)
                (process JSON.parse (Sample.env_table_down "{}")
                   (Sample.request "doc-1") Sample.world).2) as (_ & H & _).
    + reflexivity.
    + vm_compute. reflexivity.
    + apply (H "doc-1"); vm_compute; reflexivity.
Defined.

Lemma jsonMatch_None text :
  jsonMatch text = None <->
  ~ exists pre post,
      list_ascii_of_string text = pre ++ open_brace :: post /\ close_brace ∈ post.
Proof.
  unfold jsonMatch, String_match. rewrite <- rsearch_json_regex_None.
  destruct (rsearch json_regex (list_ascii_of_string text)); cbn; split; congruence.
Qed.

(** C6 does not hold as stated: the match runs to the last closing brace of
    the text, not to the brace that closes the first opening one. On this
    text the brace-depth scan gives an object that parses; the program hands
    a longer text to the parser, which throws, and the result is the
    fallback. *)
Lemma greedy_not_brace_depth :
  jsonMatch Sample.prose = Some (dq "{'confidenceScore': 90} (see clause {3}")
  /\ Spec.braceDepthMatch Sample.prose = Some (dq "{'confidenceScore': 90}")
  /\ jsonMatch Sample.prose <> Spec.braceDepthMatch Sample.prose
  /\ JSON.parse (dq "{'confidenceScore': 90}")
     = Some (JObj [("confidenceScore", num 90)])
  /\ returned (interpretResponse JSON.parse (Sample.env "") (answer Sample.prose)
                 Sample.world)
     = Some (fallback Sample.now1).
Proof.
  split; [vm_compute; reflexivity|].
  split; [vm_compute; reflexivity|].
  split; [vm_compute; discriminate|].
  split; vm_compute; reflexivity.
Qed.

(** C6, amended. The text handed to [JSON.parse] is the match of the greedy
    expression: it starts at the first opening brace of the model's text and
    ends at the last closing brace of the text. Without an opening brace
    followed by a closing one, or when that text does not parse, the result
    is the fallback; when it parses, the result is mapped from it. *)
Theorem match_is_first_to_last (JSON_parse : string -> option json) (env : Env)
    (text : string) :
  (forall m,
     jsonMatch text = Some m <->
     exists pre mid post,
       list_ascii_of_string text = pre ++ open_brace :: mid ++ close_brace :: post
       /\ (open_brace ∉ pre) /\ (close_brace ∉ post)
       /\ list_ascii_of_string m = open_brace :: mid ++ [close_brace])
  /\ (jsonMatch text = None <->
      ~ exists pre post,
          list_ascii_of_string text = pre ++ open_brace :: post
          /\ close_brace ∈ post)
  /\ (forall responseBody w,
        analysisText responseBody = Ok (Some (JStr text)) ->
        (interpretResponse JSON_parse env responseBody w).1
        = Ok match jsonMatch text with
             | Some m =>
                 match JSON_parse m with
                 | Some JNull | None => fallback (clock env (clock_reads w))
                 | Some p => mapSections p (clock env (clock_reads w))
                 end
             | None => fallback (clock env (clock_reads w))
             end).
Proof.
  split; [intros m; apply jsonMatch_Some|].
  split; [apply jsonMatch_None|].
  intros responseBody w Ht.
  destruct (interpretResponse_run JSON_parse env responseBody w) as (w' & -> & _).
  cbn [fst]. unfold extractJSON. rewrite Ht.
  destruct (jsonMatch text) as [m|]; cbn; [|reflexivity].
  destruct (JSON_parse m) as [[]|]; reflexivity.
Qed.

Lemma match_is_first_to_last_witness :
  jsonMatch Sample.prose = Some (dq "{'confidenceScore': 90} (see clause {3}")
  /\ (interpretResponse JSON.parse (Sample.env "") (answer Sample.prose)
        Sample.world).1
     = Ok (fallback Sample.now1).
Proof.
  destruct (match_is_first_to_last JSON.parse (Sample.env "") Sample.prose)
    as (Hm & _ & Hi).
  split.
  - apply Hm.
    exists [], (list_ascii_of_string (dq "'confidenceScore': 90} (see clause {3")),
      [")"%char].
    split; [vm_compute; reflexivity|].
    split; [apply not_elem_of_nil|].
    split; [|vm_compute; reflexivity].
    intros H. apply list_elem_of_singleton in H. discriminate.
  - rewrite (Hi (answer Sample.prose) Sample.world eq_refl). vm_compute. reflexivity.
Defined.

(** C7 does not hold as stated: for an id that the table does not hold,
    when the lookup itself is not served, the handler does not answer 404
    and it does write. The error boundary answers the 500 "Processing
    failed" and its update creates a record for the unknown id, made of the
    key and the status [failed]. *)
Lemma unknown_document_lookup_not_served :
  let run := handler JSON.parse Runs.env_lookup_fails (Sample.request "doc-9")
               Sample.world in
  table Sample.world !! "doc-9" = None
  /\ returned run = Some (failure 500 "Processing failed")
  /\ log run.2
     = [GetItem (Some (JStr "doc-9"));
        ConsoleError "Processing error:" (ServiceException DynamoDB);
        UpdateItem (Some (JStr "doc-9")) [("status", JStr "failed")]]
  /\ table run.2 !! "doc-9"
     = Some (<["status" := JStr "failed"]> {[ "id" := JStr "doc-9" ]}).
Proof. cbv zeta. repeat split; vm_compute; reflexivity. Qed.

(** C7, amended. A request for a document id that the table does not hold
    gets the 404 answer "Document not found" exactly when the table answers
    the lookup; the table is then left as it was and the only request sent
    is the lookup: nothing is written. When the table does not answer the
    lookup, the answer is not 404: the error boundary sends the update of
    the status for the unknown id; if the table serves it, the answer is
    the 500 "Processing failed" and the table holds a new record for the
    id, made of the key and the status [failed]; if not, the exception
    leaves the handler and the table is left as it was. *)
Theorem unknown_document_not_found (JSON_parse : string -> option json)
    (env : Env) (event : APIGatewayProxyEvent) (w : World) (id : string) :
  requestedId JSON_parse event = Some id -> id <> "" ->
  table w !! id = None ->
  (ddb_up env (ddb_requests w) = true ->
   exists w',
     handler JSON_parse env event w = (Ok (failure 404 "Document not found"), w')
     /\ table w' = table w
     /\ log w' = log w ++ [GetItem (Some (JStr id))])
  /\ (ddb_up env (ddb_requests w) = false ->
      JSON_parse "{}" = Some (JObj []) ->
      exists out w',
        handler JSON_parse env event w = (out, w')
        /\ out <> Ok (failure 404 "Document not found")
        /\ log w'
           = log w ++ [GetItem (Some (JStr id));
                       ConsoleError "Processing error:" (ServiceException DynamoDB);
                       UpdateItem (Some (JStr id)) [("status", JStr "failed")]]
        /\ (if ddb_up env (S (ddb_requests w))
            then out = Ok (failure 500 "Processing failed")
                 /\ table w'
                    = <[id := <["status" := JStr "failed"]> {[ "id" := JStr id ]}]>
                        (table w)
            else out = Throw (ServiceException DynamoDB) /\ table w' = table w)).
Proof.
  intros Hid Hne Hnone.
  assert (process JSON_parse env event w
          = let sent :=
              {| table := table w; ddb_requests := S (ddb_requests w);
                 clock_reads := clock_reads w;
                 log := log w ++ [GetItem (Some (JStr id))] |} in
            if ddb_up env (ddb_requests w)
            then (Ok (failure 404 "Document not found"), sent)
            else (Throw (ServiceException DynamoDB), sent)) as Hprocess.
  { pose proof Hid as Hid'. unfold requestedId in Hid'.
    unfold process, parse, mbind, M_bind, lift.
    destruct (JSON_parse (string_or (event_body event) "{}")) as [p|]; [|discriminate].
    destruct (section p "documentId") as [[| | | id' | |]|] eqn:Hsec; try discriminate.
    injection Hid' as ->.
    assert (p <> JNull) as Hp by (intros ->; discriminate Hsec).
    cbn [mret M_ret]. rewrite js_prop_section, Hsec by done.
    rewrite truthy_string by done. cbn [negb]. rewrite GetCommand_run. cbn zeta.
    rewrite Hnone. destruct (ddb_up env (ddb_requests w)); reflexivity. }
  cbn zeta in Hprocess. split.
  - intros Hup. rewrite handler_unfold, Hprocess, Hup.
    eexists. split; [reflexivity|]. split; reflexivity.
  - intros Hup Hempty. rewrite handler_unfold, Hprocess, Hup.
    rewrite (markFailed_requested _ _ _ id) by done.
    rewrite UpdateCommand_run. cbn zeta. cbn [table ddb_requests clock_reads log record].
    rewrite <- !app_assoc. cbn [app]. unfold item_or_new. rewrite Hnone. cbn [default].
    destruct (ddb_up env (S (ddb_requests w))); eexists _, _;
      (split; [reflexivity|]); (split; [discriminate|]); split; try reflexivity;
      split; reflexivity.
Qed.

Lemma unknown_document_not_found_witness :
  (exists w',
     handler JSON.parse (Sample.env "{}") (Sample.request "doc-9") Sample.world
     = (Ok (failure 404 "Document not found"), w')
     /\ table w' = table Sample.world
     /\ log w' = [GetItem (Some (JStr "doc-9"))])
  /\ (handler JSON.parse Runs.env_lookup_fails (Sample.request "doc-9")
        Sample.world).1
     <> Ok (failure 404 "Document not found").
Proof.
  split.
  - apply (unknown_document_not_found JSON.parse (Sample.env "{}")
             (Sample.request "doc-9") Sample.world "doc-9").
    + vm_compute. reflexivity.
    + discriminate.
    + vm_compute. reflexivity.
    + reflexivity.
  - destruct (unknown_document_not_found JSON.parse Runs.env_lookup_fails
                (Sample.request "doc-9") Sample.world "doc-9") as [_ Hnot].
    + vm_compute. reflexivity.
    + discriminate.
    + vm_compute. reflexivity.
    + destruct Hnot as (out & w' & Hrun & Hout & _); [reflexivity|reflexivity|].
      rewrite Hrun. exact Hout.
Defined.

(** C8. The text source: a document whose content type is ['text/plain'] is read
    from storage as it is and the OCR service is not called; any other
    document goes to the OCR service, and its text is the returned blocks of
    type LINE, in the order given, joined by a newline. An answer without
    lines gives the empty text, not an error. *)
Theorem extractText_policy (env : Env) (document : Item) (w : World) :
  (strict_eq (document !! "contentType") "text/plain" = true ->
   forall content, s3_getObject env (document !! "s3Key") = Some content ->
     exists w', extractText env document w = (Ok content, w')
       /\ log w' = log w ++ [GetObject (document !! "s3Key")]
       /\ ocr_calls (log w') = ocr_calls (log w))
  /\ (strict_eq (document !! "contentType") "text/plain" = false ->
      forall Blocks, textract_detect env (document !! "s3Key") = Some Blocks ->
        exists w', extractText env document w
          = (Ok (join (String "010" "")
                   (map Text (List.filter is_line (default [] Blocks)))), w')
          /\ log w' = log w ++ [DetectDocumentText (document !! "s3Key")]).
Proof.
  unfold extractText. split; intros -> ? Hs.
  - unfold GetObjectCommand. rewrite Hs. eexists. split; [reflexivity|].
    cbn [log record]. split; [reflexivity|].
    rewrite ocr_calls_app. cbn. lia.
  - unfold mbind, M_bind, DetectDocumentTextCommand. rewrite Hs. cbn.
    rewrite linesText_join. eauto.
Qed.

Lemma extractText_policy_witness :
  (exists w',
     extractText (Sample.env "") Sample.document Sample.world = (Ok "Hello", w')
     /\ log w' = [GetObject (Some (JStr "documents/doc-1/nda.txt"))]
     /\ ocr_calls (log w') = 0)
  /\ (exists w',
        extractText (Sample.env "") Sample.scan Sample.world
        = (Ok (String.concat (String "010" "") ["MUTUAL NDA"; "between A and B"]), w')
        /\ log w' = [DetectDocumentText (Some (JStr "documents/doc-2/nda.pdf"))]).
Proof.
  split.
  - destruct (extractText_policy (Sample.env "") Sample.document Sample.world)
      as [Hplain _].
    exact (Hplain eq_refl "Hello" eq_refl).
  - destruct (extractText_policy (Sample.env "") Sample.scan Sample.world)
      as [_ Hscan].
    exact (Hscan eq_refl (Some Sample.blocks) eq_refl).
Defined.

(** C9 fails on a body that is not JSON: the error boundary parses the body
    again, the parser throws again, and the exception leaves the handler
    after the error was logged; the 500 answer is never built and nothing is
    returned to the caller. The same happens with the body [null], where
    reading the document id throws twice. *)
Theorem malformed_body_escapes (env : Env) (w : World) :
  handler JSON.parse env {| event_body := Some "not json" |} w
  = (Throw SyntaxError, record (ConsoleError "Processing error:" SyntaxError) w)
  /\ handler JSON.parse env {| event_body := Some "null" |} w
     = (Throw TypeError, record (ConsoleError "Processing error:" TypeError) w)
  /\ returned (handler JSON.parse env {| event_body := Some "not json" |} w) = None.
Proof. split; [reflexivity | split; reflexivity]. Qed.

(** C10. On every path the result of the interpreter has the empty string
    as its [documentId], and the handler stores and returns that result as
    it is: the identifier of the document is never put in. *)
Theorem documentId_never_set (JSON_parse : string -> option json) (env : Env) :
  (forall responseBody w,
     exists a w', interpretResponse JSON_parse env responseBody w = (Ok a, w')
                  /\ documentId a = "")
  /\ (forall event w r w',
        JSON_parse "{}" = Some (JObj []) ->
        handler JSON_parse env event w = (Ok r, w') ->
        forall a, data (body r) = Some a ->
          documentId a = ""
          /\ exists id analysis,
               requestedId JSON_parse event = Some id
               /\ stored id "analysis" w' = Some analysis
               /\ analysis = analysis_object a
               /\ section analysis "documentId" = Some (JStr "")).
Proof.
  split.
  - intros responseBody w.
    destruct (interpretResponse_run JSON_parse env responseBody w) as (w' & Hrun & _).
    eexists _, _. split; [exact Hrun|].
    destruct (extractJSON JSON_parse responseBody); reflexivity.
  - intros event w r w' Hempty Hrun a Hdata.
    pose proof (handler_outcome _ _ _ _ _ _ Hempty Hrun) as H. cbv beta iota in H.
    destruct H as [[-> _]|[[-> _]|[H|[id [-> _]]]]]; try discriminate Hdata.
    destruct H as (id & document & a' & now & -> & Hid & Hdoc & (rb & t & Ha) & Ht).
    cbn in Hdata. injection Hdata as <-.
    assert (documentId a' = "") as Hd
      by (rewrite Ha; destruct (extractJSON JSON_parse rb); reflexivity).
    split; [exact Hd|].
    exists id, (analysis_object a').
    split; [exact Hid|].
    split; [rewrite (stored_insert _ _ _ _ _ Ht); apply completed_item_analysis|].
    split; [reflexivity|].
    unfold analysis_object. cbn. by rewrite Hd.
Qed.

Lemma documentId_never_set_witness :
  documentId (mapSections (JObj []) Sample.now1) = ""
  /\ exists id analysis,
       requestedId JSON.parse (Sample.request "doc-1") = Some id
       /\ stored id "analysis" Sample.completed_world = Some analysis
       /\ analysis = analysis_object (mapSections (JObj []) Sample.now1)
       /\ section analysis "documentId" = Some (JStr "").
Proof.
  destruct (documentId_never_set JSON.parse (Sample.env "{}")) as [_ H].
  apply (H (Sample.request "doc-1") Sample.world
           (completed (mapSections (JObj []) Sample.now1)) Sample.completed_world).
  - reflexivity.
  - vm_compute. reflexivity.
  - reflexivity.
Defined.

(** * Further properties of the code *)

(** ** The processing Lambda (unnamed/part_003) *)

Lemma handler_without_id JSON_parse env event w p :
  JSON_parse (string_or (event_body event) "{}") = Some p ->
  p <> JNull ->
  truthy (section p "documentId") = false ->
  handler JSON_parse env event w = (Ok (failure 400 "Document ID is required"), w).
Proof.
  intros Hp Hnull Hfalsy. rewrite handler_unfold.
  unfold process, parse, mbind, M_bind, lift. rewrite Hp. cbn [mret M_ret].
  rewrite js_prop_section, Hfalsy by done. reflexivity.
Qed.

Lemma requested_nonempty JSON_parse env event w r w' id :
  handler JSON_parse env event w = (Ok r, w') ->
  statusCode r <> 400%Z ->
  requestedId JSON_parse event = Some id -> id <> "".
Proof.
  intros Hrun Hcode Hid ->. unfold requestedId in Hid.
  destruct (JSON_parse (string_or (event_body event) "{}")) as [p|] eqn:Hp; [|discriminate].
  assert (p <> JNull) as Hnull by (intros ->; discriminate Hid).
  assert (truthy (section p "documentId") = false) as Hfalsy.
  { destruct (section p "documentId") as [[| | | s | |]|]; try discriminate.
    by injection Hid as ->. }
  rewrite (handler_without_id _ _ _ _ p Hp Hnull Hfalsy) in Hrun.
  injection Hrun as <- <-. by apply Hcode.
Qed.

Lemma extractText_run env document w :
  extractText env document w
  = (match sourceText env document with
     | Some t => Ok t
     | None => Throw (ServiceException (sourceService document))
     end, record (sourceEvent document) w).
Proof.
  unfold extractText, sourceText, sourceService, sourceEvent.
  destruct (strict_eq _ _).
  - unfold GetObjectCommand. by destruct (s3_getObject env _).
  - unfold mbind, M_bind, DetectDocumentTextCommand.
    by destruct (textract_detect env _).
Qed.

Lemma analyze_run JSON_parse env text w :
  analyzeContractWithBedrock JSON_parse env text w
  = match bedrock_invoke env (command text) with
    | None => (Throw (ServiceException Bedrock), record (InvokeModel (command text)) w)
    | Some response =>
        match JSON_parse response with
        | None => (Throw SyntaxError, record (InvokeModel (command text)) w)
        | Some responseBody =>
            interpretResponse JSON_parse env responseBody
              (record (InvokeModel (command text)) w)
        end
    end.
Proof.
  unfold analyzeContractWithBedrock, mbind, M_bind, InvokeModelCommand, parse.
  destruct (bedrock_invoke env _) as [response|]; [|reflexivity].
  destruct (JSON_parse response); reflexivity.
Qed.

Lemma interpretResponse_world JSON_parse env responseBody w :
  exists w' l,
    interpretResponse JSON_parse env responseBody w
    = (Ok (interpreted JSON_parse responseBody (clock env (clock_reads w))), w')
    /\ table w' = table w /\ ddb_requests w' = ddb_requests w
    /\ clock_reads w' = S (clock_reads w)
    /\ log w' = log w ++ l
    /\ (l = [] \/ exists e, l = [ConsoleError "Failed to parse Bedrock response:" e]).
Proof.
  assert (forall (a : ContractAnalysis),
            exists w' l, (Ok a, tick w) = (Ok a, w')
              /\ table w' = table w /\ ddb_requests w' = ddb_requests w
              /\ clock_reads w' = S (clock_reads w) /\ log w' = log w ++ l
              /\ (l = [] \/ exists e, l = [ConsoleError "Failed to parse Bedrock response:" e]))
    as Hquiet.
  { intros a. exists (tick w), []. cbn. rewrite app_nil_r. auto 10. }
  assert (forall (a : ContractAnalysis) e,
            exists w' l,
              (Ok a, tick (record (ConsoleError "Failed to parse Bedrock response:" e) w))
              = (Ok a, w')
              /\ table w' = table w /\ ddb_requests w' = ddb_requests w
              /\ clock_reads w' = S (clock_reads w) /\ log w' = log w ++ l
              /\ (l = [] \/ exists e, l = [ConsoleError "Failed to parse Bedrock response:" e]))
    as Hlogged.
  { intros a e. eexists _, [_]. cbn. eauto 10. }
  unfold interpretResponse, interpreted, extractJSON, try_catch, mbind, M_bind, lift.
  destruct (analysisText responseBody) as [[[| | | text | |]|]|e];
    try (apply Hlogged).
  cbn. destruct (jsonMatch text) as [m|]; cbn; [|apply Hquiet].
  unfold parse. destruct (JSON_parse m) as [p|]; cbn; [|apply Hlogged].
  assert (p = JNull \/ p <> JNull) as [->|Hp] by (destruct p; auto; right; discriminate).
  - cbn. apply Hlogged.
  - unfold mret, M_ret. rewrite mapParsed_run by done.
    destruct p; try congruence; apply Hquiet.
Qed.

Lemma process_requested JSON_parse env event id w :
  requestedId JSON_parse event = Some id -> id <> "" ->
  process JSON_parse env event w
  = match GetCommand env (Some (JStr id)) w with
    | (Ok (Some document), w1) =>
        match extractText env document w1 with
        | (Ok extractedText, w2) =>
            match analyzeContractWithBedrock JSON_parse env extractedText w2 with
            | (Ok analysis, w3) =>
                match UpdateCommand env (Some (JStr id))
                        (completedSets analysis (clock env (clock_reads w3)))
                        (tick w3) with
                | (Ok _, w4) => (Ok (completed analysis), w4)
                | (Throw e, w4) => (Throw e, w4)
                end
            | (Throw e, w3) => (Throw e, w3)
            end
        | (Throw e, w2) => (Throw e, w2)
        end
    | (Ok None, w1) => (Ok (failure 404 "Document not found"), w1)
    | (Throw e, w1) => (Throw e, w1)
    end.
Proof.
  unfold requestedId. intros Hid Hne.
  unfold process, parse, mbind, M_bind, lift.
  destruct (JSON_parse (string_or (event_body event) "{}")) as [p|]; [|discriminate].
  destruct (section p "documentId") as [[| | | id' | |]|] eqn:Hsec; try discriminate.
  injection Hid as ->.
  assert (p <> JNull) as Hp by (intros ->; discriminate Hsec).
  cbn [mret M_ret]. rewrite js_prop_section, Hsec by done.
  rewrite truthy_string by done. cbn [negb].
  destruct (GetCommand env (Some (JStr id)) w) as [[[document|]|e] w1]; reflexivity.
Qed.

Lemma model_calls_app l1 l2 : model_calls (l1 ++ l2) = model_calls l1 ++ model_calls l2.
Proof. apply omap_app. Qed.

Lemma writes_app l1 l2 : writes (l1 ++ l2) = writes l1 ++ writes l2.
Proof. apply omap_app. Qed.

Lemma model_calls_sourceEvent document : model_calls [sourceEvent document] = [].
Proof. unfold sourceEvent. by destruct (strict_eq _ _). Qed.

Lemma writes_sourceEvent document : writes [sourceEvent document] = [].
Proof. unfold sourceEvent. by destruct (strict_eq _ _). Qed.

Lemma quiet_interpretation (l : list Event) :
  l = [] \/ (exists e, l = [ConsoleError "Failed to parse Bedrock response:" e]) ->
  model_calls l = [] /\ writes l = [].
Proof. intros [->|[e ->]]; by split. Qed.

Lemma completed_item_processedAt a now (document : Item) :
  apply_sets (completedSets a now) document !! "processedAt" = Some (JStr now).
Proof. cbn. apply lookup_insert_eq. Qed.

Lemma interpreted_processedAt JSON_parse responseBody now :
  processedAt (interpreted JSON_parse responseBody now) = now.
Proof. unfold interpreted. by destruct (extractJSON _ _). Qed.

Lemma handler_fails JSON_parse env event w id e w1 :
  JSON_parse "{}" = Some (JObj []) ->
  requestedId JSON_parse event = Some id -> id <> "" ->
  process JSON_parse env event w = (Throw e, w1) ->
  handler JSON_parse env event w
  = let sent t :=
      {| table := t; ddb_requests := S (ddb_requests w1);
         clock_reads := clock_reads w1;
         log := log w1 ++ [ConsoleError "Processing error:" e;
                           UpdateItem (Some (JStr id)) [("status", JStr "failed")]] |} in
    if ddb_up env (ddb_requests w1)
    then (Ok (failure 500 "Processing failed"),
          sent (<[id := <["status" := JStr "failed"]> (item_or_new id (table w1))]>
                  (table w1)))
    else (Throw (ServiceException DynamoDB), sent (table w1)).
Proof.
  intros Hempty Hid Hne Hproc.
  rewrite handler_unfold, Hproc, (markFailed_requested _ _ _ id) by done.
  rewrite UpdateCommand_run. cbn [table ddb_requests clock_reads log record].
  cbn zeta. rewrite <- !app_assoc. cbn [app].
  destruct (ddb_up env (ddb_requests w1)); reflexivity.
Qed.

(** X1. The run up to the write of the result. When the body names a
    document that the table holds, the table serves the lookup, the text
    source gives a text and the body of the model's answer is JSON, the run
    sends one request to the model, built from the extracted text, and then
    the write of the result: the status ['completed'], the stored form of
    the analysis that the interpreter makes of the answer at the first
    reading of the clock, and, as [processedAt], the second reading of the
    clock, while the [processedAt] inside the analysis is the first one.
    The handler ends in one of two ways. Either that write is accepted: the
    answer is 200 with the analysis and the record holds what was written.
    Or it is refused, by the document client or by the table: the error
    boundary sends the write of the status ['failed'], the answer is 500 or
    the refusal of that second write leaves the handler, and the stored
    analysis and [processedAt] of the record are as they were. *)
Theorem handler_with_model_answer (JSON_parse : string -> option json) (env : Env)
    (event : APIGatewayProxyEvent) (w : World) (id : string) (document : Item)
    (text response : string) (responseBody : json) :
  JSON_parse "{}" = Some (JObj []) ->
  requestedId JSON_parse event = Some id -> id <> "" ->
  ddb_up env (ddb_requests w) = true ->
  table w !! id = Some document ->
  sourceText env document = Some text ->
  bedrock_invoke env (command text) = Some response ->
  JSON_parse response = Some responseBody ->
  let analysis := interpreted JSON_parse responseBody (clock env (clock_reads w)) in
  let written := clock env (S (clock_reads w)) in
  exists out w',
    handler JSON_parse env event w = (out, w')
    /\ processedAt analysis = clock env (clock_reads w)
    /\ model_calls (log w') = model_calls (log w) ++ [command text]
    /\ ((out = Ok (completed analysis)
         /\ table w'
            = <[id := apply_sets (completedSets analysis written) document]> (table w)
         /\ stored id "status" w' = Some (JStr "completed")
         /\ stored id "analysis" w' = Some (analysis_object analysis)
         /\ stored id "processedAt" w' = Some (JStr written)
         /\ writes (log w')
            = writes (log w) ++ [(Some (JStr id), completedSets analysis written)])
        \/ ((out = Ok (failure 500 "Processing failed")
             \/ out = Throw (ServiceException DynamoDB))
            /\ writes (log w')
               = writes (log w) ++ [(Some (JStr id), completedSets analysis written);
                                    (Some (JStr id), [("status", JStr "failed")])]
            /\ stored id "analysis" w' = stored id "analysis" w
            /\ stored id "processedAt" w' = stored id "processedAt" w)).
Proof.
  intros Hempty Hid Hne Hup Hdoc Hsrc Hbed Hparse analysis written.
  destruct (interpretResponse_world JSON_parse env responseBody
              (record (InvokeModel (command text))
                 (record (sourceEvent document)
                    {| table := table w; ddb_requests := S (ddb_requests w);
                       clock_reads := clock_reads w;
                       log := log w ++ [GetItem (Some (JStr id))] |})))
    as (w3 & l & Hinterpret & Ht & Hd & Hc & Hl & Hquiet).
  cbn [table ddb_requests clock_reads log record] in Ht, Hd, Hc, Hl.
  destruct (quiet_interpretation l Hquiet) as [Hm Hw].
  assert (model_calls (log w3) = model_calls (log w) ++ [command text]) as Hcalls.
  { rewrite Hl, !model_calls_app, Hm, model_calls_sourceEvent. cbn.
    by rewrite !app_nil_r. }
  assert (writes (log w3) = writes (log w)) as Hwrites.
  { rewrite Hl, !writes_app, Hw, writes_sourceEvent. cbn. by rewrite !app_nil_r. }
  assert (process JSON_parse env event w
          = match UpdateCommand env (Some (JStr id)) (completedSets analysis written)
                    (tick w3) with
            | (Ok _, w4) => (Ok (completed analysis), w4)
            | (Throw e, w4) => (Throw e, w4)
            end) as Hprocess.
  { rewrite (process_requested _ _ _ id) by done.
    rewrite GetCommand_run. cbn zeta. rewrite Hup, Hdoc.
    rewrite extractText_run, Hsrc, analyze_run, Hbed, Hparse, Hinterpret.
    fold analysis. rewrite Hc. fold written.
    reflexivity. }
  rewrite UpdateCommand_run in Hprocess. cbn zeta in Hprocess.
  cbn [table ddb_requests clock_reads log tick] in Hprocess.
  rewrite Hd, Ht in Hprocess. unfold item_or_new in Hprocess. rewrite Hdoc in Hprocess.
  cbn [default] in Hprocess.
  destruct (ddb_up env (S (ddb_requests w))) eqn:Hup1; cbn in Hprocess.
  - rewrite handler_unfold, Hprocess.
    eexists _, _. split; [reflexivity|]. split; [apply interpreted_processedAt|].
    cbn [log table]. rewrite model_calls_app, writes_app, Hcalls, Hwrites. cbn.
    rewrite app_nil_r. split; [reflexivity|]. left.
    rewrite !(stored_insert id (apply_sets (completedSets analysis written) document) _ w)
      by reflexivity.
    rewrite completed_item_status, completed_item_analysis, completed_item_processedAt.
    split_and!; reflexivity.
  - rewrite (handler_fails _ _ _ _ id _ _ Hempty Hid Hne Hprocess). cbn zeta.
    cbn [table ddb_requests clock_reads log].
    destruct (ddb_up env (S (S (ddb_requests w)))); eexists _, _;
      (split; [reflexivity|]); (split; [apply interpreted_processedAt|]);
      cbn [log table]; rewrite !model_calls_app, !writes_app, Hcalls, Hwrites; cbn;
      rewrite ?app_nil_r, <- ?app_assoc; (split; [reflexivity|]); right.
    + split; [auto|]. split; [reflexivity|].
      unfold stored. cbn [table]. rewrite lookup_insert_eq. unfold item_or_new.
      rewrite Hdoc. cbn [default mbind option_bind].
      by rewrite !lookup_insert_ne.
    + split; [auto|]. split; [reflexivity|]. split; reflexivity.
Qed.

(** X2. A body whose [documentId] is absent or falsy (no body, the empty
    string, [0], [null], [false]; a body that is an array or a number) is
    answered 400 ['Document ID is required'] before any service is called and
    before the clock is read: the world is left as it was. *)
Theorem missing_id_rejected (JSON_parse : string -> option json) (env : Env)
    (event : APIGatewayProxyEvent) (w : World) (p : json) :
  JSON_parse (string_or (event_body event) "{}") = Some p ->
  p <> JNull ->
  truthy (section p "documentId") = false ->
  handler JSON_parse env event w = (Ok (failure 400 "Document ID is required"), w).
Proof.
  intros Hp Hnull Hfalsy. rewrite handler_unfold.
  unfold process, parse, mbind, M_bind, lift. rewrite Hp. cbn [mret M_ret].
  rewrite js_prop_section, Hfalsy by done. reflexivity.
Qed.

Lemma missing_id_rejected_witness :
  handler JSON.parse (Sample.env "") {| event_body := None |} Sample.world
  = (Ok (failure 400 "Document ID is required"), Sample.world)
  /\ handler JSON.parse (Sample.env "") {| event_body := Some (dq "{'documentId': 0}") |}
       Sample.world
     = (Ok (failure 400 "Document ID is required"), Sample.world)
  /\ handler JSON.parse (Sample.env "") {| event_body := Some "[1, 2]" |} Sample.world
     = (Ok (failure 400 "Document ID is required"), Sample.world).
Proof.
  split; [|split].
  - apply (missing_id_rejected JSON.parse (Sample.env "") {| event_body := None |}
             Sample.world (JObj [])); [reflexivity | discriminate | reflexivity].
  - apply (missing_id_rejected JSON.parse (Sample.env "")
             {| event_body := Some (dq "{'documentId': 0}") |} Sample.world
             (JObj [("documentId", num 0)]));
      [vm_compute; reflexivity | discriminate | reflexivity].
  - apply (missing_id_rejected JSON.parse (Sample.env "")
             {| event_body := Some "[1, 2]" |} Sample.world
             (JArr [num 1; num 2]));
      [vm_compute; reflexivity | discriminate | reflexivity].
Defined.

(** X3. A [documentId] that is truthy and not a string (a number, [true],
    an array, an object) passes the check of line 21. The lookup is rejected
    by the table, whose key is a string, and so is the write of the error
    boundary, which repeats the key: the rejection escapes the handler,
    which gives no answer, and the table is left as it was. *)
Theorem non_string_id_escapes (JSON_parse : string -> option json) (env : Env)
    (event : APIGatewayProxyEvent) (w : World) (text : string) (p v : json) :
  event_body event = Some text -> text <> "" ->
  JSON_parse text = Some p ->
  section p "documentId" = Some v ->
  truthy (Some v) = true ->
  (forall s, v <> JStr s) ->
  exists w',
    handler JSON_parse env event w = (Throw (ServiceException DynamoDB), w')
    /\ table w' = table w
    /\ log w'
       = log w ++ [GetItem (Some v);
                   ConsoleError "Processing error:" (ServiceException DynamoDB);
                   UpdateItem (Some v) [("status", JStr "failed")]].
Proof.
  intros Hb Hne Hp Hsec Htruthy Hnot.
  assert (p <> JNull) as Hnull by (intros ->; discriminate Hsec).
  rewrite handler_unfold. unfold process, parse, mbind, M_bind, lift.
  rewrite Hb. cbn [string_or]. destruct (String.eqb_spec text ""); [congruence|].
  rewrite Hp. cbn [mret M_ret]. rewrite js_prop_section, Hsec, Htruthy by done.
  cbn [negb]. rewrite GetCommand_run. cbn zeta.
  assert (forall w1, markFailed JSON_parse env event w1
            = UpdateCommand env (Some v) [("status", JStr "failed")] w1) as Hmark.
  { intros w1. rewrite (markFailed_parsed _ _ _ text p) by done.
    by rewrite js_prop_section, Hsec, Htruthy. }
  destruct v; try (by destruct (Hnot s)); cbn [console_error];
    rewrite Hmark, UpdateCommand_run; cbn zeta; cbn [table log record];
    (eexists; split; [reflexivity|]; split; [reflexivity|]; cbn;
     by rewrite <- !app_assoc).
Qed.

Lemma non_string_id_escapes_witness :
  exists w',
    handler JSON.parse (Sample.env "") {| event_body := Some (dq "{'documentId': 5}") |}
      Sample.world = (Throw (ServiceException DynamoDB), w')
    /\ table w' = table Sample.world
    /\ log w'
       = log Sample.world
           ++ [GetItem (Some (num 5));
               ConsoleError "Processing error:" (ServiceException DynamoDB);
               UpdateItem (Some (num 5)) [("status", JStr "failed")]].
Proof.
  apply (non_string_id_escapes JSON.parse (Sample.env "")
           {| event_body := Some (dq "{'documentId': 5}") |} Sample.world
           (dq "{'documentId': 5}") (JObj [("documentId", num 5)]) (num 5)).
  - reflexivity.
  - vm_compute. discriminate.
  - vm_compute. reflexivity.
  - reflexivity.
  - reflexivity.
  - discriminate.
Defined.

(** X4. When the lookup fails for an id that the table does not hold and
    the table serves the next request, the update of the error boundary
    creates a record for that id, made of the key and the status ['failed']
    only; the answer is 500. *)
Theorem failed_lookup_creates_record (JSON_parse : string -> option json)
    (env : Env) (event : APIGatewayProxyEvent) (w : World) (id : string) :
  JSON_parse "{}" = Some (JObj []) ->
  requestedId JSON_parse event = Some id -> id <> "" ->
  table w !! id = None ->
  ddb_up env (ddb_requests w) = false ->
  ddb_up env (S (ddb_requests w)) = true ->
  exists w',
    handler JSON_parse env event w = (Ok (failure 500 "Processing failed"), w')
    /\ table w' !! id = Some (<["status" := JStr "failed"]> {[ "id" := JStr id ]})
    /\ stored id "status" w' = Some (JStr "failed").
Proof.
  intros Hempty Hid Hne Hnone Hdown Hup.
  rewrite (handler_fails _ _ _ _ id (ServiceException DynamoDB)
             {| table := table w; ddb_requests := S (ddb_requests w);
                clock_reads := clock_reads w;
                log := log w ++ [GetItem (Some (JStr id))] |}); try done.
  - cbn [table ddb_requests]. cbn zeta. rewrite Hup.
    eexists. split; [reflexivity|]. unfold stored. cbn [table].
    rewrite lookup_insert_eq. unfold item_or_new. rewrite Hnone. cbn [default].
    split; [reflexivity|]. cbn. apply lookup_insert_eq.
  - rewrite (process_requested _ _ _ id), GetCommand_run by done.
    cbn zeta. by rewrite Hdown.
Qed.

Lemma failed_lookup_creates_record_witness :
  exists w',
    handler JSON.parse Runs.env_lookup_fails (Sample.request "doc-9") Sample.world
    = (Ok (failure 500 "Processing failed"), w')
    /\ table w' !! "doc-9" = Some (<["status" := JStr "failed"]> {[ "id" := JStr "doc-9" ]})
    /\ stored "doc-9" "status" w' = Some (JStr "failed").
Proof.
  apply (failed_lookup_creates_record JSON.parse Runs.env_lookup_fails
           (Sample.request "doc-9")).
  - reflexivity.
  - vm_compute. reflexivity.
  - discriminate.
  - vm_compute. reflexivity.
  - reflexivity.
  - reflexivity.
Defined.

Lemma handler_with_model_answer_witness :
  (exists w',
     handler JSON.parse (Sample.env "{}") (Sample.request "doc-2") Sample.world
     = (Ok (completed (mapSections (JObj []) Sample.now1)), w')
     /\ model_calls (log w')
        = [command (String.concat (String "010" "") ["MUTUAL NDA"; "between A and B"])])
  /\ (exists w',
        handler JSON.parse (Sample.env_write_rejected "{}") (Sample.request "doc-2")
          Sample.world
        = (Ok (failure 500 "Processing failed"), w')
        /\ writes (log w')
           = [(Some (JStr "doc-2"),
               completedSets (mapSections (JObj []) Sample.now1) Sample.now2);
              (Some (JStr "doc-2"), [("status", JStr "failed")])]).
Proof.
  split.
  - destruct (handler_with_model_answer JSON.parse (Sample.env "{}")
                (Sample.request "doc-2") Sample.world "doc-2" Sample.scan
                (String.concat (String "010" "") ["MUTUAL NDA"; "between A and B"])
                (dq "{'content':[{'type':'text','text':'{}'}]}")
                (answer "{}"))
      as (out & w' & Hrun & _ & Hcalls & Hend).
    + reflexivity.
    + vm_compute. reflexivity.
    + discriminate.
    + reflexivity.
    + vm_compute. reflexivity.
    + reflexivity.
    + reflexivity.
    + vm_compute. reflexivity.
    + exists w'. split; [|exact Hcalls].
      destruct Hend as [(Hout & _)|(Hout & _)].
      * rewrite Hrun, Hout. reflexivity.
      * exfalso. apply (f_equal fst) in Hrun. cbn [fst] in Hrun.
        rewrite <- Hrun in Hout. vm_compute in Hout.
        destruct Hout as [Hout|Hout]; discriminate Hout.
  - destruct (handler_with_model_answer JSON.parse (Sample.env_write_rejected "{}")
                (Sample.request "doc-2") Sample.world "doc-2" Sample.scan
                (String.concat (String "010" "") ["MUTUAL NDA"; "between A and B"])
                (dq "{'content':[{'type':'text','text':'{}'}]}")
                (answer "{}"))
      as (out & w' & Hrun & _ & _ & Hend).
    + reflexivity.
    + vm_compute. reflexivity.
    + discriminate.
    + reflexivity.
    + vm_compute. reflexivity.
    + reflexivity.
    + reflexivity.
    + vm_compute. reflexivity.
    + exists w'. apply (f_equal fst) in Hrun as Hout1. cbn [fst] in Hout1.
      destruct Hend as [(Hout & _)|(Hout & Hwrites & _)].
      * exfalso. rewrite <- Hout1 in Hout. vm_compute in Hout. discriminate Hout.
      * split; [|exact Hwrites].
        destruct Hout as [Hout|Hout].
        -- rewrite Hrun, Hout. reflexivity.
        -- exfalso. rewrite <- Hout1 in Hout. vm_compute in Hout. discriminate Hout.
Defined.

(** X5. When the text source fails, the model is not called: the run sends
    no request to the model and one write, of the status ['failed'], and the
    stored analysis is left as it was. The answer is 500 when the table
    serves that write; when it does not, the rejection escapes the handler
    and the status stays as it was. *)
Theorem extraction_failure_skips_model (JSON_parse : string -> option json)
    (env : Env) (event : APIGatewayProxyEvent) (w : World) (id : string)
    (document : Item) :
  JSON_parse "{}" = Some (JObj []) ->
  requestedId JSON_parse event = Some id -> id <> "" ->
  ddb_up env (ddb_requests w) = true ->
  table w !! id = Some document ->
  sourceText env document = None ->
  exists out w',
    handler JSON_parse env event w = (out, w')
    /\ model_calls (log w') = model_calls (log w)
    /\ writes (log w') = writes (log w) ++ [(Some (JStr id), [("status", JStr "failed")])]
    /\ stored id "analysis" w' = stored id "analysis" w
    /\ out = (if ddb_up env (S (ddb_requests w))
              then Ok (failure 500 "Processing failed")
              else Throw (ServiceException DynamoDB))
    /\ stored id "status" w'
       = (if ddb_up env (S (ddb_requests w))
          then Some (JStr "failed")
          else stored id "status" w).
Proof.
  intros Hempty Hid Hne Hup Hdoc Hsrc.
  rewrite (handler_fails _ _ _ _ id (ServiceException (sourceService document))
             (record (sourceEvent document)
                {| table := table w; ddb_requests := S (ddb_requests w);
                   clock_reads := clock_reads w;
                   log := log w ++ [GetItem (Some (JStr id))] |})); try done.
  2:{ rewrite (process_requested _ _ _ id), GetCommand_run by done.
      cbn zeta. by rewrite Hup, Hdoc, extractText_run, Hsrc. }
  cbn [table ddb_requests clock_reads log record]. cbn zeta.
  assert (item_or_new id (table w) = document) as ->
    by (unfold item_or_new; by rewrite Hdoc).
  destruct (ddb_up env (S (ddb_requests w))); eexists _, _;
    (split; [reflexivity|]); cbn [log table];
    rewrite !model_calls_app, !writes_app, model_calls_sourceEvent, writes_sourceEvent;
    cbn; rewrite ?app_nil_r; repeat split; unfold stored; cbn [table];
    rewrite ?lookup_insert_eq, ?Hdoc; cbn;
    rewrite ?lookup_insert_eq, ?lookup_insert_ne by done; reflexivity.
Qed.

Lemma extraction_failure_skips_model_witness :
  exists out w',
    handler JSON.parse Runs.env_source_down (Sample.request "doc-1") Sample.world
    = (out, w')
    /\ model_calls (log w') = []
    /\ writes (log w') = [(Some (JStr "doc-1"), [("status", JStr "failed")])]
    /\ out = Ok (failure 500 "Processing failed")
    /\ stored "doc-1" "status" w' = Some (JStr "failed").
Proof.
  destruct (extraction_failure_skips_model JSON.parse Runs.env_source_down
              (Sample.request "doc-1") Sample.world "doc-1" Sample.document)
    as (out & w' & Hrun & Hcalls & Hwrites & _ & Hout & Hst).
  - reflexivity.
  - vm_compute. reflexivity.
  - discriminate.
  - reflexivity.
  - vm_compute. reflexivity.
  - reflexivity.
  - exists out, w'. split; [exact Hrun|]. split; [exact Hcalls|].
    split; [exact Hwrites|]. split; [exact Hout | exact Hst].
Defined.

(** X6. When the model cannot be reached, or the body of its answer is not
    JSON, the run has sent exactly one request to the model, for the
    extracted text, and its only write is the status ['failed']; the stored
    analysis is left as it was. The answer is 500 when the table serves
    that write; when it does not, the rejection escapes the handler and the
    status stays as it was. *)
Theorem model_failure_marks_failed (JSON_parse : string -> option json)
    (env : Env) (event : APIGatewayProxyEvent) (w : World) (id : string)
    (document : Item) (text : string) :
  JSON_parse "{}" = Some (JObj []) ->
  requestedId JSON_parse event = Some id -> id <> "" ->
  ddb_up env (ddb_requests w) = true ->
  table w !! id = Some document ->
  sourceText env document = Some text ->
  bedrock_invoke env (command text) ≫= JSON_parse = None ->
  exists out w',
    handler JSON_parse env event w = (out, w')
    /\ model_calls (log w') = model_calls (log w) ++ [command text]
    /\ writes (log w') = writes (log w) ++ [(Some (JStr id), [("status", JStr "failed")])]
    /\ stored id "analysis" w' = stored id "analysis" w
    /\ out = (if ddb_up env (S (ddb_requests w))
              then Ok (failure 500 "Processing failed")
              else Throw (ServiceException DynamoDB))
    /\ stored id "status" w'
       = (if ddb_up env (S (ddb_requests w))
          then Some (JStr "failed")
          else stored id "status" w).
Proof.
  intros Hempty Hid Hne Hup Hdoc Hsrc Hbad.
  assert (exists e,
            process JSON_parse env event w
            = (Throw e,
               record (InvokeModel (command text))
                 (record (sourceEvent document)
                    {| table := table w; ddb_requests := S (ddb_requests w);
                       clock_reads := clock_reads w;
                       log := log w ++ [GetItem (Some (JStr id))] |})))
    as [e Hproc].
  { rewrite (process_requested _ _ _ id), GetCommand_run by done.
    cbn zeta. rewrite Hup, Hdoc, extractText_run, Hsrc, analyze_run.
    destruct (bedrock_invoke env (command text)) as [response|]; [|eauto].
    cbn in Hbad. rewrite Hbad. eauto. }
  rewrite (handler_fails _ _ _ _ id _ _ Hempty Hid Hne Hproc).
  cbn [table ddb_requests clock_reads log record]. cbn zeta.
  assert (item_or_new id (table w) = document) as ->
    by (unfold item_or_new; by rewrite Hdoc).
  destruct (ddb_up env (S (ddb_requests w))); eexists _, _;
    (split; [reflexivity|]); cbn [log table];
    rewrite !model_calls_app, !writes_app, model_calls_sourceEvent, writes_sourceEvent;
    cbn; rewrite ?app_nil_r; repeat split; unfold stored; cbn [table];
    rewrite ?lookup_insert_eq, ?Hdoc; cbn;
    rewrite ?lookup_insert_eq, ?lookup_insert_ne by done; reflexivity.
Qed.

Lemma model_failure_marks_failed_witness :
  exists out w',
    handler JSON.parse Runs.env_model_garbled (Sample.request "doc-1") Sample.world
    = (out, w')
    /\ model_calls (log w') = [command "Hello"]
    /\ writes (log w') = [(Some (JStr "doc-1"), [("status", JStr "failed")])]
    /\ out = Ok (failure 500 "Processing failed")
    /\ stored "doc-1" "status" w' = Some (JStr "failed").
Proof.
  destruct (model_failure_marks_failed JSON.parse Runs.env_model_garbled
              (Sample.request "doc-1") Sample.world "doc-1" Sample.document "Hello")
    as (out & w' & Hrun & Hcalls & Hwrites & _ & Hout & Hst).
  - reflexivity.
  - vm_compute. reflexivity.
  - discriminate.
  - reflexivity.
  - vm_compute. reflexivity.
  - reflexivity.
  - vm_compute. reflexivity.
  - exists out, w'. split; [exact Hrun|]. split; [exact Hcalls|].
    split; [exact Hwrites|]. split; [exact Hout | exact Hst].
Defined.

Lemma completed_item_other a now (document : Item) attribute :
  attribute <> "status" -> attribute <> "analysis" -> attribute <> "processedAt" ->
  apply_sets (completedSets a now) document !! attribute = document !! attribute.
Proof. intros. cbn. by rewrite !lookup_insert_ne. Qed.

(** X7. An invocation that answers leaves the attributes of every record
    the table held as they were, but for [status] and, with the answer 200,
    [analysis] and [processedAt]: the file name, the size, the S3 key, the
    content type and the upload time are never rewritten, and an answer
    other than 200 leaves a stored analysis and its [processedAt]. *)
Theorem terminal_write_keeps_attributes (JSON_parse : string -> option json)
    (env : Env) (event : APIGatewayProxyEvent) (w : World)
    (r : APIGatewayProxyResult) (w' : World) (id attribute : string) :
  JSON_parse "{}" = Some (JObj []) ->
  handler JSON_parse env event w = (Ok r, w') ->
  is_Some (table w !! id) ->
  attribute <> "status" ->
  (attribute <> "analysis" /\ attribute <> "processedAt") \/ statusCode r <> 200%Z ->
  stored id attribute w' = stored id attribute w.
Proof.
  intros Hempty Hrun [item Hitem] Hst Hother.
  pose proof (handler_outcome _ _ _ _ _ _ Hempty Hrun) as H. cbv beta iota in H.
  unfold stored.
  destruct H as [[_ ->]|[(_ & -> & _)|[H|(id' & -> & _ & ->)]]]; try reflexivity.
  - destruct H as (id' & document & a & now & -> & _ & Hdoc & _ & ->).
    destruct Hother as [[Ha Hp]|Hcode]; [|by destruct Hcode].
    destruct (decide (id' = id)) as [->|Hne].
    + rewrite lookup_insert_eq, Hdoc. cbn [mbind option_bind].
      by apply completed_item_other.
    + by rewrite lookup_insert_ne.
  - destruct (decide (id' = id)) as [->|Hne].
    + rewrite lookup_insert_eq. unfold item_or_new. rewrite Hitem.
      cbn [mbind option_bind default]. by rewrite lookup_insert_ne.
    + by rewrite lookup_insert_ne.
Qed.

Lemma terminal_write_keeps_attributes_witness :
  stored "doc-1" "s3Key" Sample.completed_world = stored "doc-1" "s3Key" Sample.world
  /\ stored "doc-1" "processedAt"
       (handler JSON.parse Sample.env_model_down (Sample.request "doc-1")
          Sample.completed_world).2
     = stored "doc-1" "processedAt" Sample.completed_world.
Proof.
  split.
  - apply (terminal_write_keeps_attributes JSON.parse (Sample.env "{}")
             (Sample.request "doc-1") Sample.world
             (completed (mapSections (JObj []) Sample.now1))).
    + reflexivity.
    + vm_compute. reflexivity.
    + apply (bool_decide_unpack _). vm_compute. exact I.
    + discriminate.
    + left. split; discriminate.
  - apply (terminal_write_keeps_attributes JSON.parse Sample.env_model_down
             (Sample.request "doc-1") Sample.completed_world
             (failure 500 "Processing failed")).
    + reflexivity.
    + vm_compute. reflexivity.
    + apply (bool_decide_unpack _). vm_compute. exact I.
    + discriminate.
    + right. discriminate.
Defined.

Lemma append_inj_l (p s t : string) : p +:+ s = p +:+ t -> s = t.
Proof.
  induction p as [|c p IH]; [done|].
  change (String c p +:+ s) with (String c (p +:+ s)).
  change (String c p +:+ t) with (String c (p +:+ t)).
  intros [= H]. auto.
Qed.

Lemma list_ascii_of_string_app (s t : string) :
  list_ascii_of_string (s +:+ t) = list_ascii_of_string s ++ list_ascii_of_string t.
Proof.
  induction s as [|c s IH]; [reflexivity|].
  change (list_ascii_of_string (String c s +:+ t))
    with (c :: list_ascii_of_string (s +:+ t)).
  by rewrite IH.
Qed.

Lemma append_inj_r (s t q : string) : s +:+ q = t +:+ q -> s = t.
Proof.
  intros H. apply (f_equal list_ascii_of_string) in H.
  rewrite !list_ascii_of_string_app in H. apply app_inv_tail in H.
  apply (f_equal string_of_list_ascii) in H.
  by rewrite !string_of_list_ascii_of_string in H.
Qed.

Lemma append_empty_r (s : string) : s +:+ "" = s.
Proof.
  induction s as [|c s IH]; [reflexivity|].
  change (String c s +:+ "") with (String c (s +:+ "")). by rewrite IH.
Qed.

(** X8. The request sent to the model determines the text: the prompt
    holds the whole extracted text between its two fixed parts, so that two
    texts with the same request are the same text. *)
Theorem prompt_injective (text1 text2 : string) :
  command text1 = command text2 -> text1 = text2.
Proof.
  unfold command, prompt. intros [= H].
  apply append_inj_l, append_inj_r in H. exact H.
Qed.

Lemma prompt_injective_witness : "Hello" = "Hello".
Proof. apply prompt_injective. reflexivity. Defined.

(** X9. Prose around the object. When the model's text is an object in
    braces, with text before it that holds no opening brace and text after
    it that holds no closing brace, the match is the object itself, as it is
    for the object alone; and when [JSON.parse] accepts the object, the
    result of the interpreter is the mapping of the parsed object, with no
    recourse to the fallback. *)
Theorem wrapped_object_is_matched (JSON_parse : string -> option json) (env : Env)
    (pre mid post : string) :
  open_brace ∉ list_ascii_of_string pre ->
  close_brace ∉ list_ascii_of_string post ->
  let object := "{" +:+ mid +:+ "}" in
  jsonMatch (pre +:+ object +:+ post) = Some object
  /\ jsonMatch object = Some object
  /\ forall p w,
       JSON_parse object = Some p -> p <> JNull ->
       (interpretResponse JSON_parse env (answer (pre +:+ object +:+ post)) w).1
       = Ok (mapSections p (clock env (clock_reads w))).
Proof.
  intros Hpre Hpost object.
  assert (forall a b, open_brace ∉ list_ascii_of_string a ->
            close_brace ∉ list_ascii_of_string b ->
            jsonMatch (a +:+ object +:+ b) = Some object) as Hmatch.
  { intros a b Ha Hb. apply jsonMatch_Some.
    exists (list_ascii_of_string a), (list_ascii_of_string mid), (list_ascii_of_string b).
    unfold object. rewrite !list_ascii_of_string_app. cbn.
    rewrite <- !app_assoc. cbn. auto. }
  split; [by apply Hmatch|]. split.
  - pose proof (Hmatch "" "" (not_elem_of_nil _) (not_elem_of_nil _)) as H0.
    change ("" +:+ object +:+ "") with (object +:+ "") in H0.
    by rewrite append_empty_r in H0.
  - intros p w Hp Hnull.
    destruct (interpretResponse_run JSON_parse env (answer (pre +:+ object +:+ post)) w)
      as (w' & -> & _).
    cbn [fst]. unfold extractJSON. cbn [analysisText answer].
    change (analysisText (answer (pre +:+ object +:+ post)))
      with (@Ok value (Some (JStr (pre +:+ object +:+ post)))).
    cbv beta iota. rewrite (Hmatch pre post Hpre Hpost). cbn [mbind option_bind].
    rewrite Hp. by destruct p.
Qed.

Lemma wrapped_object_is_matched_witness :
  jsonMatch ("Here is the analysis: " +:+ ("{" +:+ dq "'confidenceScore': 90" +:+ "}")
               +:+ " Done.")
  = Some ("{" +:+ dq "'confidenceScore': 90" +:+ "}").
Proof.
  refine (proj1 (wrapped_object_is_matched JSON.parse (Sample.env "")
                   "Here is the analysis: " (dq "'confidenceScore': 90") " Done." _ _)).
  - apply (bool_decide_unpack _). vm_compute. exact I.
  - apply (bool_decide_unpack _). vm_compute. exact I.
Defined.

(** ** The results Lambda (unnamed/part_000) *)

Lemma results_unfold env scan_page event w :
  Results.handler env scan_page event w =
  let id := string_or (Results.path_id event) "" in
  let sent l :=
    {| table := table w; ddb_requests := S (ddb_requests w);
       clock_reads := clock_reads w; log := log w ++ l |} in
  let failed l :=
    (Ok (Results.failure 500 "Failed to retrieve results"),
     sent (l ++ [ConsoleError "Results error:" (ServiceException DynamoDB)])) in
  if negb (String.eqb id "")
  then
    if ddb_up env (ddb_requests w)
    then (Ok match table w !! id with
             | Some item => Results.found (Results.Document item)
             | None => Results.failure 404 "Document not found"
             end, sent [GetItem (Some (JStr id))])
    else failed [GetItem (Some (JStr id))]
  else
    if ddb_up env (ddb_requests w)
    then (Ok (Results.found (Results.Documents
                (omap (fun id => Results.project <$> (table w !! id)) scan_page))),
          sent [])
    else failed [].
Proof.
  unfold Results.handler, try_catch. cbv zeta.
  destruct (negb (String.eqb (string_or (Results.path_id event) "") "")).
  - unfold mbind, M_bind. rewrite GetCommand_run. cbv zeta.
    destruct (ddb_up env (ddb_requests w)).
    + destruct (table w !! string_or (Results.path_id event) ""); reflexivity.
    + unfold console_error, record. cbn. by rewrite <- app_assoc.
  - unfold mbind, M_bind, Results.ScanCommand.
    destruct (ddb_up env (ddb_requests w)); cbn.
    + by rewrite app_nil_r; destruct w.
    + reflexivity.
Qed.

Lemma string_or_path (o : option string) :
  string_or o "" <> "" -> o = Some (string_or o "").
Proof.
  destruct o as [s|]; cbn; [|done]. by destruct (String.eqb_spec s "").
Qed.

(** X10. The results Lambda always answers and never writes: it sends one
    request to the table, and the table and the updates in the log are as
    before. When the table serves the request the answer is either 404
    ['Document not found'], and then the request names a non-empty id that
    the table does not hold, or 200 with data; when the table does not
    serve it the answer is 500 ['Failed to retrieve results']. *)
Theorem results_reads_only (env : Env) (scan_page : list string)
    (event : Results.Request) (w : World) :
  exists r w',
    Results.handler env scan_page event w = (Ok r, w')
    /\ table w' = table w
    /\ ddb_requests w' = S (ddb_requests w)
    /\ writes (log w') = writes (log w)
    /\ (if ddb_up env (ddb_requests w)
        then (r = Results.failure 404 "Document not found"
              /\ exists id, Results.path_id event = Some id /\ id <> ""
                            /\ table w !! id = None)
             \/ (Results.statusCode r = 200%Z
                 /\ is_Some (Results.data (Results.body r)))
        else r = Results.failure 500 "Failed to retrieve results").
Proof.
  rewrite results_unfold. cbv zeta.
  destruct (String.eqb_spec (string_or (Results.path_id event) "") "") as [Hid|Hid];
    cbn [negb]; destruct (ddb_up env (ddb_requests w)); eexists _, _;
    (split; [reflexivity|]); cbn [table ddb_requests log];
    rewrite ?writes_app, ?app_nil_r;
    (split; [reflexivity|]); (split; [reflexivity|]); (split; [reflexivity|]);
    try reflexivity.
  - right. cbn. eauto.
  - destruct (table w !! _) eqn:Hitem.
    + right. cbn. eauto.
    + left. split; [done|]. eexists. split_and!; [by apply string_or_path|done|done].
Qed.

Lemma project_lookup (item : Item) attribute :
  Results.project item !! attribute =
  if decide (attribute ∈ Results.projection) then item !! attribute else None.
Proof.
  unfold Results.project. destruct (decide _) as [Hin|Hout].
  - destruct (item !! attribute) as [v|] eqn:Hv.
    + by apply map_lookup_filter_Some.
    + apply map_lookup_filter_None. left. done.
  - apply map_lookup_filter_None. right. intros v _. done.
Qed.

Lemma omap_length {A B} (f : A -> option B) (l : list A) :
  (length (omap f l) <= length l)%nat.
Proof. induction l as [|x l IH]; cbn; [lia|]. destruct (f x); cbn; lia. Qed.

(** X11. Without an id in the path (or with the empty one) the results
    Lambda, when the table serves the scan, answers 200 with a listing that
    has at most one item for each key of the page the scan returns. Every
    item is a record of the table cut down to [id], [fileName],
    [uploadedAt], [status] and [fileSize]: no item of the listing carries an
    analysis or an S3 key. *)
Theorem listing_is_projected (env : Env) (scan_page : list string)
    (event : Results.Request) (w : World) :
  string_or (Results.path_id event) "" = "" ->
  ddb_up env (ddb_requests w) = true ->
  exists items,
    (Results.handler env scan_page event w).1
    = Ok (Results.found (Results.Documents items))
    /\ (length items <= length scan_page)%nat
    /\ Forall (fun item : Item =>
         (exists id document,
            id ∈ scan_page /\ table w !! id = Some document
            /\ forall attribute,
                 item !! attribute =
                 if decide (attribute ∈ Results.projection)
                 then document !! attribute else None)
         /\ item !! "analysis" = None /\ item !! "s3Key" = None) items.
Proof.
  intros Hid Hup. rewrite results_unfold. cbv zeta. rewrite Hid, Hup. cbn [negb String.eqb fst].
  eexists. split; [reflexivity|]. split.
  - apply omap_length.
  - apply Forall_forall. intros item Hitem.
    apply list_elem_of_omap in Hitem as (id & Hin & Hsome).
    destruct (table w !! id) as [document|] eqn:Hdoc; [|discriminate].
    cbn in Hsome. injection Hsome as <-.
    split; [|by rewrite !project_lookup].
    exists id, document. split_and!; auto. apply project_lookup.
Qed.

Lemma listing_is_projected_witness :
  exists items,
    (Results.handler (Sample.env "") ["doc-1"; "doc-9"; "doc-2"]
       {| Results.path_id := None |} Sample.completed_world).1
    = Ok (Results.found (Results.Documents items))
    /\ (length items <= 3)%nat.
Proof.
  destruct (listing_is_projected (Sample.env "") ["doc-1"; "doc-9"; "doc-2"]
              {| Results.path_id := None |} Sample.completed_world)
    as (items & Hitems & Hlength & _).
  - reflexivity.
  - reflexivity.
  - exists items. split; assumption.
Defined.

(** ** The upload Lambda (unnamed/part_004) *)

Lemma completed_requested JSON_parse env event w r w' a :
  JSON_parse "{}" = Some (JObj []) ->
  handler JSON_parse env event w = (Ok r, w') ->
  data (body r) = Some a ->
  exists id document now,
    requestedId JSON_parse event = Some id /\ id <> ""
    /\ table w !! id = Some document
    /\ table w' = <[id := apply_sets (completedSets a now) document]> (table w).
Proof.
  intros Hempty Hrun Ha.
  pose proof (handler_outcome _ _ _ _ _ _ Hempty Hrun) as Hout. cbn in Hout.
  destruct Hout as [(-> & _)|[(-> & _)|[(id & document & a' & now & -> & Hid & Hdoc & _ & Ht)|
                                        (id & -> & _)]]]; try discriminate.
  cbn in Ha. injection Ha as ->.
  exists id, document, now. split_and!; auto.
  intros ->. unfold requestedId in Hid.
  destruct (JSON_parse (string_or (event_body event) "{}")) as [p|] eqn:Hp; [|discriminate].
  assert (p <> JNull) as Hnull by (intros ->; discriminate Hid).
  assert (truthy (section p "documentId") = false) as Hfalsy.
  { destruct (section p "documentId") as [[| | | s | |]|]; try discriminate.
    by injection Hid as ->. }
  rewrite (handler_without_id _ _ _ _ p Hp Hnull Hfalsy) in Hrun. discriminate.
Qed.

(** X12. Read after write. After an invocation of the processing Lambda
    that answered with an analysis, the results Lambda asked for the same
    id, when the table serves the lookup, answers 200 with the record: its
    status is ['completed'], its [analysis] is the stored form of the
    analysis that was answered, and its other attributes, [processedAt]
    apart, are those the record had before the processing. *)
Theorem processed_document_is_served (JSON_parse : string -> option json)
    (env env' : Env) (scan_page : list string) (event : APIGatewayProxyEvent)
    (w w' : World) (r : APIGatewayProxyResult) (a : ContractAnalysis) :
  JSON_parse "{}" = Some (JObj []) ->
  handler JSON_parse env event w = (Ok r, w') ->
  data (body r) = Some a ->
  ddb_up env' (ddb_requests w') = true ->
  exists id item,
    requestedId JSON_parse event = Some id
    /\ (Results.handler env' scan_page {| Results.path_id := Some id |} w').1
       = Ok (Results.found (Results.Document item))
    /\ item !! "status" = Some (JStr "completed")
    /\ item !! "analysis" = Some (analysis_object a)
    /\ forall attribute,
         attribute <> "status" -> attribute <> "analysis" -> attribute <> "processedAt" ->
         item !! attribute = stored id attribute w.
Proof.
  intros Hempty Hrun Ha Hup.
  destruct (completed_requested _ _ _ _ _ _ _ Hempty Hrun Ha)
    as (id & document & now & Hid & Hne & Hdoc & Ht).
  exists id, (apply_sets (completedSets a now) document).
  split; [done|]. rewrite results_unfold. cbv zeta. cbn [Results.path_id].
  assert (string_or (Some id) "" = id) as ->.
  { cbn. by destruct (String.eqb_spec id ""). }
  destruct (String.eqb_spec id ""); [done|]. cbn [negb].
  rewrite Hup, Ht, lookup_insert_eq. cbn [fst].
  split_and!; auto using completed_item_status, completed_item_analysis.
  intros attribute H1 H2 H3. unfold stored. rewrite Hdoc. cbn.
  by rewrite !lookup_insert_ne.
Qed.

Lemma processed_document_is_served_witness :
  exists id item,
    requestedId JSON.parse (Sample.request "doc-1") = Some id
    /\ (Results.handler (Sample.env "") [] {| Results.path_id := Some id |}
          Sample.completed_world).1
       = Ok (Results.found (Results.Document item))
    /\ item !! "status" = Some (JStr "completed").
Proof.
  destruct (processed_document_is_served JSON.parse (Sample.env "{}") (Sample.env "") []
              (Sample.request "doc-1") Sample.world Sample.completed_world
              (completed (mapSections (JObj []) Sample.now1))
              (mapSections (JObj []) Sample.now1))
    as (id & item & Hid & Hserved & Hstatus & _).
  - reflexivity.
  - vm_compute. reflexivity.
  - reflexivity.
  - reflexivity.
  - exists id, item. split_and!; assumption.
Defined.

Lemma upload_run JSON_parse Number_toString env uuidv4 getSignedUrl event w p :
  JSON_parse (string_or (event_body event) "{}") = Some p ->
  p <> JNull ->
  Upload.handler JSON_parse Number_toString env uuidv4 getSignedUrl event w =
  let fileName := section p "fileName" in
  let fileSize := section p "fileSize" in
  let contentType := section p "contentType" in
  if negb (truthy fileName) || negb (truthy fileSize) || negb (truthy contentType)
  then (Ok (Upload.failure 400 "Missing required fields: fileName, fileSize, contentType"), w)
  else if negb (Upload.includes Upload.allowedTypes contentType)
  then (Ok (Upload.failure 400
              "Unsupported file type. Only PDF, DOCX, and TXT files are allowed."), w)
  else
    match Upload.ToString Number_toString (Upload.defined fileName) with
    | None =>
        (Ok (Upload.failure 500 "Internal server error"),
         record (ConsoleError "Upload error:" TypeError) w)
    | Some name =>
        let s3Key := "documents/" +:+ uuidv4 +:+ "/" +:+ name in
        let metadata :=
          Upload.documentMetadata uuidv4 (Upload.defined fileName)
            (Upload.defined fileSize) (clock env (clock_reads w)) s3Key
            (Upload.defined contentType) in
        match getSignedUrl {| Upload.Key := s3Key;
                              Upload.ContentType := Upload.defined contentType |} with
        | None =>
            (Ok (Upload.failure 500 "Internal server error"),
             record (ConsoleError "Upload error:" (ServiceException S3)) w)
        | Some url =>
            if ddb_up env (ddb_requests w)
            then (Ok (Upload.created {| Upload.documentId := uuidv4;
                                        Upload.uploadUrl := url;
                                        Upload.metadata := metadata |}),
                  {| table := <[uuidv4 := metadata]> (table w);
                     ddb_requests := S (ddb_requests w);
                     clock_reads := S (clock_reads w); log := log w |})
            else (Ok (Upload.failure 500 "Internal server error"),
                  {| table := table w; ddb_requests := S (ddb_requests w);
                     clock_reads := S (clock_reads w);
                     log := log w ++ [ConsoleError "Upload error:"
                                        (ServiceException DynamoDB)] |})
        end
    end.
Proof.
  intros Hp Hnull. unfold Upload.handler, try_catch, parse, mbind, M_bind, lift.
  rewrite Hp. cbn [mret M_ret]. rewrite !js_prop_section by done. cbv zeta.
  destruct (negb (truthy (section p "fileName")) || negb (truthy (section p "fileSize"))
            || negb (truthy (section p "contentType"))); [reflexivity|].
  destruct (negb (Upload.includes Upload.allowedTypes (section p "contentType")));
    [reflexivity|].
  destruct (Upload.ToString Number_toString (Upload.defined (section p "fileName")))
    as [name|]; [|reflexivity].
  unfold Upload.presign.
  destruct (getSignedUrl _) as [url|]; [|reflexivity].
  unfold Date_now, Upload.PutCommand. cbn [tick ddb_requests clock_reads table log].
  destruct (ddb_up env (ddb_requests w)); reflexivity.
Qed.

Lemma upload_unparsed JSON_parse Number_toString env uuidv4 getSignedUrl event w :
  (JSON_parse (string_or (event_body event) "{}") = None
   \/ JSON_parse (string_or (event_body event) "{}") = Some JNull) ->
  exists e,
    Upload.handler JSON_parse Number_toString env uuidv4 getSignedUrl event w
    = (Ok (Upload.failure 500 "Internal server error"),
       record (ConsoleError "Upload error:" e) w).
Proof.
  unfold Upload.handler, try_catch, parse, mbind, M_bind, lift.
  intros [-> | ->]; eexists; reflexivity.
Qed.

(** X13. The upload Lambda always answers: no exception escapes it, and it
    sends no update. With 200 it returns data, the table holds a record
    under the drawn identifier and is unchanged at every other key. With 400
    the world is as it was: no request was sent and the clock was not read.
    Otherwise the answer is 500 ['Internal server error'], the table is
    unchanged and the error was logged. *)
Theorem upload_always_answers (JSON_parse : string -> option json)
    (Number_toString : Q -> string) (env : Env) (uuidv4 : string)
    (getSignedUrl : Upload.PutObjectCommand -> option string)
    (event : APIGatewayProxyEvent) (w : World) :
  exists r w',
    Upload.handler JSON_parse Number_toString env uuidv4 getSignedUrl event w = (Ok r, w')
    /\ writes (log w') = writes (log w)
    /\ ((Upload.statusCode r = 200%Z /\ is_Some (Upload.data (Upload.body r))
         /\ is_Some (table w' !! uuidv4)
         /\ forall id, id <> uuidv4 -> table w' !! id = table w !! id)
        \/ (Upload.statusCode r = 400%Z /\ w' = w)
        \/ (r = Upload.failure 500 "Internal server error" /\ table w' = table w
            /\ exists e, log w' = log w ++ [ConsoleError "Upload error:" e])).
Proof.
  destruct (JSON_parse (string_or (event_body event) "{}")) as [p|] eqn:Hp.
  2:{ destruct (upload_unparsed JSON_parse Number_toString env uuidv4 getSignedUrl event w)
        as (e & ->); [auto|].
      eexists _, _. split; [reflexivity|]. cbn. rewrite writes_app, app_nil_r. eauto 10. }
  assert (p = JNull \/ p <> JNull) as [->|Hnull] by (destruct p; auto; right; discriminate).
  { destruct (upload_unparsed JSON_parse Number_toString env uuidv4 getSignedUrl event w)
        as (e & ->); [auto|].
      eexists _, _. split; [reflexivity|]. cbn. rewrite writes_app, app_nil_r. eauto 10. }
  rewrite (upload_run _ _ _ _ _ _ _ p) by done. cbv zeta.
  destruct (_ || _); [eexists _, _; split; [reflexivity|]; cbn; auto 10|].
  destruct (negb (Upload.includes _ _)); [eexists _, _; split; [reflexivity|]; cbn; auto 10|].
  destruct (Upload.ToString _ _) as [name|].
  2:{ eexists _, _. split; [reflexivity|]. cbn. rewrite writes_app, app_nil_r. eauto 10. }
  destruct (getSignedUrl _) as [url|].
  - destruct (ddb_up env (ddb_requests w)); eexists _, _; (split; [reflexivity|]); cbn.
    + split; [done|]. left. split_and!; eauto.
      * by rewrite lookup_insert_eq.
      * intros id Hne. by rewrite lookup_insert_ne.
    + rewrite writes_app, app_nil_r. eauto 10.
  - eexists _, _. split; [reflexivity|]. cbn. rewrite writes_app, app_nil_r. eauto 10.
Qed.

Lemma includes_allowed v :
  Upload.includes Upload.allowedTypes v = true ->
  exists t, v = Some (JStr t) /\ t ∈ Upload.allowedTypes.
Proof.
  unfold Upload.includes. intros H. apply existsb_exists in H as (t & Hin & Heq).
  exists t. split; [|by apply list_elem_of_In].
  unfold strict_eq in Heq. destruct v as [[| | | s | |]|]; try discriminate.
  by apply String.eqb_eq in Heq as ->.
Qed.

(** X14. The 200 answer of the upload Lambda. The data returned are the
    drawn identifier, the URL that the presigner gave and the metadata, and
    the metadata are what the table now holds under the identifier. In them
    the status is ['processing'], there is no [analysis] and no
    [processedAt], the file name and the size are truthy, the content type
    is one of the three allowed, [uploadedAt] is the reading of the clock,
    and the S3 key is ['documents/<id>/<fileName>'], the file name turned
    into a string when it is not one (a conversion that did not throw). The URL was signed for that key and
    that content type. *)
Theorem upload_creates_record (JSON_parse : string -> option json)
    (Number_toString : Q -> string) (env : Env) (uuidv4 : string)
    (getSignedUrl : Upload.PutObjectCommand -> option string)
    (event : APIGatewayProxyEvent) (w w' : World) (r : Upload.Result) :
  Upload.handler JSON_parse Number_toString env uuidv4 getSignedUrl event w = (Ok r, w') ->
  Upload.statusCode r = 200%Z ->
  exists (fileName fileSize : json) (name contentType url : string) (item : Item),
    let s3Key := "documents/" +:+ uuidv4 +:+ "/" +:+ name in
    Upload.ToString Number_toString fileName = Some name
    /\ Upload.data (Upload.body r)
    = Some {| Upload.documentId := uuidv4; Upload.uploadUrl := url;
              Upload.metadata := item |}
    /\ getSignedUrl {| Upload.Key := s3Key; Upload.ContentType := JStr contentType |}
       = Some url
    /\ table w' = <[uuidv4 := item]> (table w)
    /\ item = Upload.documentMetadata uuidv4 fileName fileSize (clock env (clock_reads w))
                s3Key (JStr contentType)
    /\ truthy (Some fileName) = true /\ truthy (Some fileSize) = true
    /\ contentType ∈ Upload.allowedTypes
    /\ item !! "status" = Some (JStr "processing")
    /\ item !! "analysis" = None
    /\ item !! "processedAt" = None.
Proof.
  intros Hrun H200.
  destruct (JSON_parse (string_or (event_body event) "{}")) as [p|] eqn:Hp.
  2:{ destruct (upload_unparsed JSON_parse Number_toString env uuidv4 getSignedUrl event w)
        as (e & He); [auto|]. rewrite He in Hrun. injection Hrun as <- <-. discriminate. }
  assert (p = JNull \/ p <> JNull) as [->|Hnull] by (destruct p; auto; right; discriminate).
  { destruct (upload_unparsed JSON_parse Number_toString env uuidv4 getSignedUrl event w)
        as (e & He); [auto|]. rewrite He in Hrun. injection Hrun as <- <-. discriminate. }
  rewrite (upload_run _ _ _ _ _ _ _ p) in Hrun by done. cbv zeta in Hrun.
  destruct (_ || _) eqn:Hmissing; [injection Hrun as <- <-; discriminate|].
  destruct (negb (Upload.includes _ _)) eqn:Hallowed; [injection Hrun as <- <-; discriminate|].
  apply negb_false_iff in Hallowed. apply includes_allowed in Hallowed as (t & Ht & Hin).
  apply orb_false_iff in Hmissing as [Hmissing _].
  apply orb_false_iff in Hmissing as [Hname Hsize].
  apply negb_false_iff in Hname, Hsize.
  destruct (section p "fileName") as [fileName|] eqn:Hn; [|discriminate].
  destruct (section p "fileSize") as [fileSize|] eqn:Hs; [|discriminate].
  rewrite Ht in Hrun. cbn [Upload.defined default] in Hrun. unfold id in Hrun.
  destruct (Upload.ToString Number_toString fileName) as [name|] eqn:Hstring;
    [|injection Hrun as <- <-; discriminate].
  destruct (getSignedUrl _) as [url|] eqn:Hurl; [|injection Hrun as <- <-; discriminate].
  destruct (ddb_up env (ddb_requests w)); injection Hrun as <- <-; [|discriminate].
  exists fileName, fileSize, name, t, url. eexists. cbv zeta.
  cbn [Upload.created Upload.body Upload.data table].
  split_and!; try reflexivity; auto.
Qed.

Lemma upload_creates_record_witness :
  exists item : Item,
    table Runs.uploaded_world = <["doc-7" := item]> (table Sample.world)
    /\ item !! "status" = Some (JStr "processing").
Proof.
  destruct (upload_creates_record JSON.parse Runs.Number_toString (Sample.env "{}") "doc-7"
              Runs.getSignedUrl Runs.upload Sample.world Runs.uploaded_world
              Runs.upload_answer)
    as (fileName & fileSize & name & contentType & url & item & H).
  - vm_compute. reflexivity.
  - reflexivity.
  - cbv zeta in H. destruct H as (_ & _ & _ & Htable & _ & _ & _ & _ & Hstatus & _).
    exists item. split; assumption.
Defined.

Lemma analyze_log JSON_parse env text w :
  exists l,
    log (analyzeContractWithBedrock JSON_parse env text w).2
    = log w ++ InvokeModel (command text) :: l.
Proof.
  rewrite analyze_run.
  destruct (bedrock_invoke env (command text)) as [response|]; [|by exists []].
  destruct (JSON_parse response) as [responseBody|]; [|by exists []].
  destruct (interpretResponse_world JSON_parse env responseBody
              (record (InvokeModel (command text)) w))
    as (w' & l & -> & _ & _ & _ & Hlog & _).
  exists l. cbn in *. by rewrite Hlog, <- app_assoc.
Qed.

Lemma handler_found_log JSON_parse env event id document w :
  JSON_parse "{}" = Some (JObj []) ->
  requestedId JSON_parse event = Some id -> id <> "" ->
  ddb_up env (ddb_requests w) = true ->
  table w !! id = Some document ->
  exists l,
    log (handler JSON_parse env event w).2
    = log w ++ GetItem (Some (JStr id)) :: sourceEvent document :: l
    /\ (handler JSON_parse env event w).1 <> Ok (failure 404 "Document not found").
Proof.
  intros Hempty Hid Hne Hup Hdoc.
  assert (exists l,
            log (process JSON_parse env event w).2
            = log w ++ GetItem (Some (JStr id)) :: sourceEvent document :: l
            /\ (process JSON_parse env event w).1 <> Ok (failure 404 "Document not found"))
    as (l & Hlog & Hout).
  { rewrite (process_requested _ _ _ id) by done.
    rewrite GetCommand_run. cbv zeta. rewrite Hup, Hdoc, extractText_run.
    destruct (sourceText env document) as [text|].
    2:{ exists []. cbn. rewrite <- app_assoc. split; [done|discriminate]. }
    set (w2 := record _ _).
    assert (log w2 = log w ++ [GetItem (Some (JStr id)); sourceEvent document]) as Hw2.
    { unfold w2. cbn. by rewrite <- app_assoc. }
    destruct (analyze_log JSON_parse env text w2) as (l & Hl).
    rewrite Hw2, <- app_assoc in Hl. cbn [app] in Hl.
    destruct (analyzeContractWithBedrock JSON_parse env text w2) as [[a|e] w3];
      cbn [snd] in Hl.
    - rewrite UpdateCommand_run. cbv zeta. cbn [tick ddb_requests table log clock_reads].
      destruct (ddb_up env (ddb_requests w3)); eexists; cbn [fst snd log];
        rewrite Hl, <- app_assoc; cbn [app]; (split; [reflexivity|discriminate]).
    - eexists. cbn [fst snd]. split; [exact Hl|discriminate]. }
  destruct (process JSON_parse env event w) as [[r|e] w1] eqn:Hproc.
  - rewrite handler_unfold, Hproc. eauto.
  - rewrite (handler_fails _ _ _ _ id e w1) by done. cbv zeta.
    cbn [snd] in Hlog.
    destruct (ddb_up env (ddb_requests w1)); eexists; cbn [fst snd log];
      rewrite Hlog, <- app_assoc; cbn [app]; (split; [reflexivity|discriminate]).
Qed.

(** X15. Upload, then process. After a 200 answer of the upload Lambda, an
    invocation of the processing Lambda for the identifier drawn, when the
    table serves the lookup, finds the record (the answer is not 404) and
    next reads the source under the very key that the returned upload URL
    was signed for: from storage when the content type of the upload is
    ['text/plain'], through the OCR otherwise. *)
Theorem uploaded_document_is_read (JSON_parse : string -> option json)
    (Number_toString : Q -> string) (env env' : Env) (uuidv4 : string)
    (getSignedUrl : Upload.PutObjectCommand -> option string)
    (upload request : APIGatewayProxyEvent) (w w' : World) (r : Upload.Result) :
  JSON_parse "{}" = Some (JObj []) ->
  Upload.handler JSON_parse Number_toString env uuidv4 getSignedUrl upload w = (Ok r, w') ->
  Upload.statusCode r = 200%Z ->
  requestedId JSON_parse request = Some uuidv4 -> uuidv4 <> "" ->
  ddb_up env' (ddb_requests w') = true ->
  exists (key contentType url : string) (l : list Event),
    getSignedUrl {| Upload.Key := key; Upload.ContentType := JStr contentType |} = Some url
    /\ Upload.uploadUrl <$> Upload.data (Upload.body r) = Some url
    /\ log (handler JSON_parse env' request w').2
       = log w' ++ GetItem (Some (JStr uuidv4))
                :: (if String.eqb contentType "text/plain"
                    then GetObject (Some (JStr key))
                    else DetectDocumentText (Some (JStr key))) :: l
    /\ (handler JSON_parse env' request w').1 <> Ok (failure 404 "Document not found").
Proof.
  intros Hempty Hrun H200 Hid Hne Hup.
  destruct (JSON_parse (string_or (event_body upload) "{}")) as [p|] eqn:Hp.
  2:{ destruct (upload_unparsed JSON_parse Number_toString env uuidv4 getSignedUrl upload w)
        as (e & He); [auto|]. rewrite He in Hrun. injection Hrun as <- <-. discriminate. }
  assert (p = JNull \/ p <> JNull) as [->|Hnull] by (destruct p; auto; right; discriminate).
  { destruct (upload_unparsed JSON_parse Number_toString env uuidv4 getSignedUrl upload w)
        as (e & He); [auto|]. rewrite He in Hrun. injection Hrun as <- <-. discriminate. }
  rewrite (upload_run _ _ _ _ _ _ _ p) in Hrun by done. cbv zeta in Hrun.
  destruct (_ || _) eqn:Hmissing; [injection Hrun as <- <-; discriminate|].
  destruct (negb (Upload.includes _ _)) eqn:Hallowed; [injection Hrun as <- <-; discriminate|].
  apply negb_false_iff in Hallowed. apply includes_allowed in Hallowed as (t & Ht & Hin).
  rewrite Ht in Hrun. cbn [Upload.defined default] in Hrun.
  destruct (Upload.ToString _ _) as [name|]; [|injection Hrun as <- <-; discriminate].
  destruct (getSignedUrl _) as [url|] eqn:Hurl; [|injection Hrun as <- <-; discriminate].
  destruct (ddb_up env (ddb_requests w)); injection Hrun as <- <-; [|discriminate].
  match type of Hurl with getSignedUrl {| Upload.Key := ?k; Upload.ContentType := _ |} = _ =>
    set (key := k) in * end.
  match goal with |- context [<[uuidv4 := ?m]> (table w)] => set (item := m) end.
  set (w' := {| table := <[uuidv4 := item]> (table w); ddb_requests := _;
                clock_reads := _; log := _ |}) in *.
  destruct (handler_found_log JSON_parse env' request uuidv4 item w')
    as (l & Hlog & Hout); auto.
  { cbn. apply lookup_insert_eq. }
  exists key, t, url, l. split_and!; auto.
Qed.

Lemma uploaded_document_is_read_witness :
  (handler JSON.parse (Sample.env "{}") (Sample.request "doc-7") Runs.uploaded_world).1
  <> Ok (failure 404 "Document not found").
Proof.
  destruct (uploaded_document_is_read JSON.parse Runs.Number_toString (Sample.env "{}")
              (Sample.env "{}") "doc-7" Runs.getSignedUrl Runs.upload
              (Sample.request "doc-7") Sample.world Runs.uploaded_world Runs.upload_answer)
    as (key & contentType & url & l & _ & _ & _ & Hfound).
  - reflexivity.
  - vm_compute. reflexivity.
  - reflexivity.
  - vm_compute. reflexivity.
  - discriminate.
  - reflexivity.
  - exact Hfound.
Defined.

Lemma truthy_num (n : Z) : truthy (Some (num n)) = negb (n =? 0)%Z.
Proof.
  unfold truthy, num. destruct n; reflexivity.
Qed.

Lemma includes_frontend (t : string) :
  existsb (String.eqb t) FileUpload.allowedTypes
  = Upload.includes Upload.allowedTypes (Some (JStr t)).
Proof.
  unfold Upload.includes, FileUpload.allowedTypes, Upload.allowedTypes, strict_eq. cbn.
  reflexivity.
Qed.

(** X16. The picker and the upload Lambda. For a file that [validateFile]
    accepts, posted as [{fileName, fileSize, contentType}], the upload
    Lambda never answers ['Unsupported file type...']: the two lists of
    types agree. It answers 400 ['Missing required fields...'] exactly when
    the name of the file is empty or its size is 0: the picker accepts an
    empty file and the Lambda refuses it. *)
Theorem accepted_file_upload (JSON_parse : string -> option json)
    (Number_toString : Q -> string) (env : Env) (uuidv4 : string)
    (getSignedUrl : Upload.PutObjectCommand -> option string)
    (file : FileUpload.File) (event : APIGatewayProxyEvent) (w : World) :
  (FileUpload.validateFile file).1 = true ->
  JSON_parse (string_or (event_body event) "{}")
  = Some (JObj [("fileName", JStr (FileUpload.name file));
                ("fileSize", num (FileUpload.size file));
                ("contentType", JStr (FileUpload.type file))]) ->
  let answer :=
    (Upload.handler JSON_parse Number_toString env uuidv4 getSignedUrl event w).1 in
  answer <> Ok (Upload.failure 400
                  "Unsupported file type. Only PDF, DOCX, and TXT files are allowed.")
  /\ (answer = Ok (Upload.failure 400
                     "Missing required fields: fileName, fileSize, contentType")
      <-> FileUpload.name file = "" \/ FileUpload.size file = 0%Z).
Proof.
  intros Hvalid Hp answer. unfold answer.
  rewrite (upload_run _ _ _ _ _ _ _ _ Hp) by discriminate. cbv zeta.
  change (section (JObj _) "fileName") with (Some (JStr (FileUpload.name file))).
  change (section (JObj _) "fileSize") with (Some (num (FileUpload.size file))).
  change (section (JObj _) "contentType") with (Some (JStr (FileUpload.type file))).
  unfold FileUpload.validateFile in Hvalid.
  destruct (existsb _ _) eqn:Htype; [|discriminate]. clear Hvalid.
  rewrite includes_frontend in Htype. rewrite Htype. cbn [negb].
  rewrite truthy_num.
  assert (FileUpload.type file <> "") as Hct.
  { intros Hc. rewrite Hc in Htype. discriminate. }
  rewrite (truthy_string (FileUpload.type file)) by done.
  cbn [negb orb]. rewrite orb_false_r, negb_involutive.
  assert (truthy (Some (JStr (FileUpload.name file)))
          = negb (String.eqb (FileUpload.name file) "")) as -> by reflexivity.
  rewrite negb_involutive.
  destruct (String.eqb_spec (FileUpload.name file) "") as [Hn|Hn]; cbn [orb].
  { split; [discriminate|]. split; auto. }
  destruct (Z.eqb_spec (FileUpload.size file) 0) as [Hs|Hs].
  { split; [discriminate|]. split; auto. }
  cbn [Upload.defined default]. unfold id. cbn [Upload.ToString].
  split.
  - destruct (getSignedUrl _); [destruct (ddb_up env _)|]; discriminate.
  - split; [|intros [?|?]; done].
    destruct (getSignedUrl _); [destruct (ddb_up env _)|]; discriminate.
Qed.

Lemma accepted_file_upload_witness :
  (Upload.handler JSON.parse Runs.Number_toString (Sample.env "{}") "doc-7"
     Runs.getSignedUrl Runs.upload Sample.world).1
  <> Ok (Upload.failure 400
           "Unsupported file type. Only PDF, DOCX, and TXT files are allowed.").
Proof.
  refine (proj1 (accepted_file_upload JSON.parse Runs.Number_toString (Sample.env "{}")
                   "doc-7" Runs.getSignedUrl Runs.file Runs.upload Sample.world _ _)).
  - reflexivity.
  - vm_compute. reflexivity.
Defined.

(** ** The frontend *)

(** X22. Toggling a section of the analysis twice gives back the set of
    expanded sections; one toggle changes the membership of that section and
    of no other. *)
Theorem toggleSection_involutive (section : string) (expandedSections : gset string) :
  AnalysisResults.toggleSection section
    (AnalysisResults.toggleSection section expandedSections) = expandedSections
  /\ (section ∈ AnalysisResults.toggleSection section expandedSections
      <-> section ∉ expandedSections)
  /\ forall other, other <> section ->
       (other ∈ AnalysisResults.toggleSection section expandedSections
        <-> other ∈ expandedSections).
Proof.
  unfold AnalysisResults.toggleSection.
  destruct (decide (section ∈ expandedSections)) as [Hin|Hout].
  - split_and!.
    + rewrite decide_False by (rewrite elem_of_difference, elem_of_singleton; tauto).
      apply set_eq. intros x.
      rewrite elem_of_union, elem_of_difference, elem_of_singleton.
      destruct (decide (x = section)) as [->|Hx]; tauto.
    + rewrite elem_of_difference, elem_of_singleton. tauto.
    + intros other Hother. rewrite elem_of_difference, elem_of_singleton. tauto.
  - split_and!.
    + rewrite decide_True by (rewrite elem_of_union, elem_of_singleton; tauto).
      apply set_eq. intros x.
      rewrite elem_of_difference, elem_of_union, elem_of_singleton.
      destruct (decide (x = section)) as [->|Hx]; tauto.
    + rewrite elem_of_union, elem_of_singleton. tauto.
    + intros other Hother. rewrite elem_of_union, elem_of_singleton. tauto.
Qed.

(** X17. The picker accepts a file exactly when its type is one of the
    three allowed and its size is at most 10485760 bytes: a file of exactly
    10 MB is accepted, where the message for a refused size reads ['File
    size must be less than 10MB']. The error of the component is cleared
    exactly when the file is accepted. *)
Theorem validateFile_accepts (file : FileUpload.File) :
  ((FileUpload.validateFile file).1 = true
   <-> FileUpload.type file ∈ FileUpload.allowedTypes
       /\ (FileUpload.size file <= 10485760)%Z)
  /\ ((FileUpload.validateFile file).2 = None <-> (FileUpload.validateFile file).1 = true).
Proof.
  unfold FileUpload.validateFile.
  destruct (existsb _ _) eqn:Htype; cbn [negb].
  - apply existsb_exists in Htype as (t & Hin & Heq).
    apply String.eqb_eq in Heq as <-. apply list_elem_of_In in Hin.
    destruct (Z.gtb_spec (FileUpload.size file) FileUpload.maxSize) as [Hbig|Hsmall];
      cbn [fst snd]; unfold FileUpload.maxSize in *.
    + split; split; try discriminate; try (intros [_ ?]; lia).
    + split; [split; [intros _; split; [done|lia]|done]|done].
  - cbn [fst snd]. split; split; try discriminate. intros [Hin _].
    apply Bool.not_true_iff_false in Htype. exfalso. apply Htype.
    apply existsb_exists. exists (FileUpload.type file).
    split; [by apply list_elem_of_In|apply String.eqb_refl].
Qed.

(** X18. With a file selected, [handleUpload] ends with the file still
    selected and in one of two ways. Either the three calls resolved, made
    in the order [initiateUpload], [uploadToS3] with the URL returned,
    [processDocument] with the id returned: the status is ['completed'],
    the progress 100, no error, and the navigation to ['/results/<id>'] is
    scheduled after 1500 ms. Or a call was rejected: the status is
    ['error'], the progress 0, the error is the message of what was caught
    (or ['An error occurred']), it was logged, and no call was made after
    the rejected one; the document id is the one returned if
    [initiateUpload] resolved, and the earlier one if not. *)
Theorem handleUpload_outcome (api : UploadPage.Api) (st : UploadPage.State)
    (file : FileUpload.File) :
  UploadPage.selectedFile st = Some file ->
  let st' := (UploadPage.handleUpload api st).1 in
  let effects := (UploadPage.handleUpload api st).2 in
  let call1 :=
    UploadPage.InitiateUpload (FileUpload.name file) (FileUpload.size file)
      (FileUpload.type file) in
  UploadPage.selectedFile st' = Some file
  /\ ((exists response,
         UploadPage.initiateUpload api (FileUpload.name file) (FileUpload.size file)
           (FileUpload.type file) = Resolved response
         /\ UploadPage.uploadToS3 api (UploadPage.response_uploadUrl response) file
            = Resolved tt
         /\ UploadPage.processDocument api (UploadPage.response_documentId response)
            = Resolved tt
         /\ UploadPage.uploadStatus st' = UploadPage.Completed
         /\ UploadPage.progress st' = 100%Z /\ UploadPage.error st' = None
         /\ UploadPage.documentId st' = Some (UploadPage.response_documentId response)
         /\ effects
            = [call1; UploadPage.UploadToS3 (UploadPage.response_uploadUrl response) file;
               UploadPage.ProcessDocument (UploadPage.response_documentId response);
               UploadPage.Navigate 1500
                 ("/results/" +:+ UploadPage.response_documentId response)])
      \/ (exists err calls,
            UploadPage.uploadStatus st' = UploadPage.Error
            /\ UploadPage.progress st' = 0%Z
            /\ UploadPage.error st' = Some (message_or err "An error occurred")
            /\ effects = calls ++ [UploadPage.ConsoleError "Upload/processing error:" err]
            /\ (calls = [call1] /\ UploadPage.documentId st' = UploadPage.documentId st
                \/ exists response,
                     UploadPage.initiateUpload api (FileUpload.name file)
                       (FileUpload.size file) (FileUpload.type file) = Resolved response
                     /\ UploadPage.documentId st'
                        = Some (UploadPage.response_documentId response)
                     /\ let call2 :=
                          UploadPage.UploadToS3 (UploadPage.response_uploadUrl response)
                            file in
                        (calls = [call1; call2]
                         \/ (UploadPage.uploadToS3 api
                               (UploadPage.response_uploadUrl response) file = Resolved tt
                             /\ calls
                                = [call1; call2;
                                   UploadPage.ProcessDocument
                                     (UploadPage.response_documentId response)]))))).
Proof.
  intros Hfile st' effects call1. subst st' effects.
  unfold UploadPage.handleUpload. rewrite Hfile. cbv zeta. fold call1.
  destruct (UploadPage.initiateUpload api _ _ _) as [response|err] eqn:H1.
  2:{ cbn. split; [done|]. right. exists err, [call1]. cbn. auto 10. }
  set (call2 := UploadPage.UploadToS3 (UploadPage.response_uploadUrl response) file).
  destruct (UploadPage.uploadToS3 api _ _) as [[]|err] eqn:H2.
  2:{ cbn. split; [done|]. right. exists err, [call1; call2]. cbn. split_and!; auto.
      right. exists response. auto. }
  set (call3 := UploadPage.ProcessDocument (UploadPage.response_documentId response)).
  destruct (UploadPage.processDocument api _) as [[]|err] eqn:H3.
  2:{ cbn. split; [done|]. right. exists err, [call1; call2; call3]. cbn.
      split_and!; auto. right. exists response. auto 10. }
  cbn. split; [done|]. left. exists response. auto 10.
Qed.

Lemma handleUpload_outcome_witness :
  UploadPage.selectedFile (UploadPage.handleUpload Runs.api Runs.page).1 = Some Runs.file.
Proof.
  exact (proj1 (handleUpload_outcome Runs.api Runs.page Runs.file eq_refl)).
Defined.

Lemma invariant_step api st st' :
  UploadPage.step api st st' -> UploadPage.invariant st -> UploadPage.invariant st'.
Proof.
  intros [files error st0|st0] [Hfile Hstatus].
  - unfold FileUpload.handleFiles. destruct files as [|file files]; [done|].
    destruct (FileUpload.validateFile file).1 eqn:Hvalid; [|done].
    split; [exact Hvalid|reflexivity].
  - destruct (UploadPage.selectedFile st0) as [file|] eqn:Hsel.
    2:{ unfold UploadPage.handleUpload. rewrite Hsel. cbn [fst].
        split; [rewrite Hsel; exact Hfile|exact Hstatus]. }
    unfold UploadPage.handleUpload. rewrite Hsel. cbv zeta.
    destruct (UploadPage.initiateUpload api _ _ _) as [response|err];
      [|by split; cbn; eauto].
    destruct (UploadPage.uploadToS3 api _ _) as [[]|err]; [|by split; cbn; eauto].
    destruct (UploadPage.processDocument api _) as [[]|err]; [|by split; cbn; eauto].
    split; cbn; eauto.
Qed.

(** X19. An invariant of the upload page. In every state reached from the
    initial one by giving files to the picker and pressing the upload
    button, the selected file, if there is one, passes [validateFile] (a
    refused file does not replace the selected one, and none is selected
    only in ['idle']); the page rests in ['idle'], ['completed'] or
    ['error']; ['completed'] comes with progress 100, no error and a
    document id, ['error'] with progress 0 and a message, ['idle'] with no
    error. *)
Theorem reachable_page_states (api : UploadPage.Api) (st : UploadPage.State) :
  rtc (UploadPage.step api) UploadPage.initial st ->
  UploadPage.invariant st.
Proof.
  intros Hreach.
  assert (UploadPage.invariant UploadPage.initial) as Hinit by (split; reflexivity).
  revert Hinit. induction Hreach as [|st1 st2 st3 Hstep _ IH]; [done|].
  intros H1. apply IH. by apply (invariant_step api st1).
Qed.

Lemma reachable_page_states_witness :
  UploadPage.invariant
    (UploadPage.handleUpload Runs.api
       (FileUpload.handleFiles UploadPage.handleFileSelect [Runs.file]
          UploadPage.initial None).1).1.
Proof.
  apply (reachable_page_states Runs.api).
  eapply rtc_l; [apply (UploadPage.step_files Runs.api [Runs.file] None)|].
  eapply rtc_l; [apply UploadPage.step_upload|].
  apply rtc_refl.
Defined.

(** X20. The results page does not read [status]. After an invocation of
    the processing Lambda that answered 500 for a record holding a truthy
    analysis, the results Lambda, when the table serves the lookup, answers
    200 with that record under the status ['failed'], and the page loaded
    with it renders the results with the earlier analysis, not ['Analysis
    Not Available']. *)
Theorem failed_rerun_still_shown (JSON_parse : string -> option json)
    (env env' : Env) (scan_page : list string) (event : APIGatewayProxyEvent)
    (w w' : World) (r : APIGatewayProxyResult) (id : string) (document : Item)
    (analysis : json) :
  JSON_parse "{}" = Some (JObj []) ->
  handler JSON_parse env event w = (Ok r, w') ->
  statusCode r = 500%Z ->
  requestedId JSON_parse event = Some id ->
  table w !! id = Some document ->
  document !! "analysis" = Some analysis ->
  truthy (Some analysis) = true ->
  ddb_up env' (ddb_requests w') = true ->
  exists item,
    (Results.handler env' scan_page {| Results.path_id := Some id |} w').1
    = Ok (Results.found (Results.Document item))
    /\ item = <["status" := JStr "failed"]> document
    /\ ResultsPage.render
         (ResultsPage.fetchResults (Resolved item) ResultsPage.initial)
       = ResultsPage.Results item analysis.
Proof.
  intros Hempty Hrun Hcode Hid Hdoc Ha Htruthy Hup.
  assert (id <> "") as Hne.
  { apply (requested_nonempty _ _ _ _ _ _ _ Hrun); [rewrite Hcode; done|done]. }
  pose proof (handler_outcome _ _ _ _ _ _ Hempty Hrun) as Hout. cbn in Hout.
  destruct Hout as [(-> & _)|[(-> & _)|[(id' & d' & a' & now & -> & _)|
                                        (id' & -> & Hid' & Ht)]]]; try discriminate.
  rewrite Hid in Hid'. injection Hid' as <-.
  exists (<["status" := JStr "failed"]> document).
  rewrite results_unfold. cbv zeta. cbn [Results.path_id].
  assert (string_or (Some id) "" = id) as ->.
  { cbn. by destruct (String.eqb_spec id ""). }
  destruct (String.eqb_spec id ""); [done|]. cbn [negb].
  rewrite Hup, Ht, lookup_insert_eq. unfold item_or_new. rewrite Hdoc.
  cbn [fst default]. split_and!; auto.
  unfold ResultsPage.render, ResultsPage.fetchResults. cbn.
  rewrite lookup_insert_ne by done. rewrite Ha.
  unfold js_or. rewrite Htruthy. cbn. by rewrite Htruthy.
Qed.

Lemma failed_rerun_still_shown_witness :
  exists item,
    (Results.handler (Sample.env "") [] {| Results.path_id := Some "doc-1" |}
       Runs.failed_world).1
    = Ok (Results.found (Results.Document item))
    /\ item !! "status" = Some (JStr "failed")
    /\ ResultsPage.render (ResultsPage.fetchResults (Resolved item) ResultsPage.initial)
       = ResultsPage.Results item (analysis_object (mapSections (JObj []) Sample.now1)).
Proof.
  destruct (failed_rerun_still_shown JSON.parse Sample.env_model_down (Sample.env "") []
              (Sample.request "doc-1") Sample.completed_world Runs.failed_world
              (failure 500 "Processing failed") "doc-1"
              (apply_sets
                 (completedSets (mapSections (JObj []) Sample.now1) Sample.now2)
                 Sample.document)
              (analysis_object (mapSections (JObj []) Sample.now1)))
    as (item & Hserved & Hitem & Hview).
  - reflexivity.
  - vm_compute. reflexivity.
  - reflexivity.
  - vm_compute. reflexivity.
  - vm_compute. reflexivity.
  - vm_compute. reflexivity.
  - reflexivity.
  - reflexivity.
  - exists item. split_and!; [assumption| |assumption].
    rewrite Hitem. apply lookup_insert_eq.
Defined.

(** X21. [exportToJSON] never downloads. Inside the component [document]
    is the record of the state, so that [document.createElement] is no
    function: whenever the page renders the results, and with them the
    export button, the handler throws a [TypeError] after it has created
    the object URL of the export data, which hold the analysis; the URL is
    not revoked, no link is clicked and no file name is computed. Without a
    document or an analysis the handler does nothing. *)
Theorem exportToJSON_never_downloads (st : ResultsPage.State) :
  (forall href download,
     ResultsPage.Click href download ∉ (ResultsPage.exportToJSON st).1)
  /\ (forall document analysis,
        ResultsPage.render st = ResultsPage.Results document analysis ->
        (ResultsPage.exportToJSON st).2 = Throw TypeError
        /\ exists exportData,
             (ResultsPage.exportToJSON st).1 = [ResultsPage.CreateObjectURL exportData]
             /\ section exportData "analysis" = Some analysis)
  /\ (ResultsPage.document st = None \/ truthy (Some (ResultsPage.analysis st)) = false ->
      ResultsPage.exportToJSON st = ([], Ok tt)).
Proof.
  unfold ResultsPage.exportToJSON, ResultsPage.js_call. split_and!.
  - intros href download.
    destruct (ResultsPage.document st) as [document|]; [|apply not_elem_of_nil].
    destruct (truthy (Some (ResultsPage.analysis st))); [|apply not_elem_of_nil].
    cbn [fst]. intros Hin. apply list_elem_of_singleton in Hin. discriminate.
  - intros document analysis. unfold ResultsPage.render.
    destruct (ResultsPage.loading st); [discriminate|].
    destruct (truthy (JStr <$> ResultsPage.error st)); [discriminate|].
    destruct (ResultsPage.document st) as [d|]; [|discriminate].
    destruct (truthy (Some (ResultsPage.analysis st))); [|discriminate].
    intros [= -> <-]. cbn [fst snd]. split; [reflexivity|].
    eexists. split; reflexivity.
  - intros [-> | Hfalsy]; [reflexivity|].
    destruct (ResultsPage.document st); [|reflexivity]. by rewrite Hfalsy.
Qed.

Lemma exportToJSON_never_downloads_witness :
  let st :=
    ResultsPage.fetchResults
      (Resolved (apply_sets
                   (completedSets (mapSections (JObj []) Sample.now1) Sample.now2)
                   Sample.document))
      ResultsPage.initial in
  (ResultsPage.exportToJSON st).2 = Throw TypeError.
Proof.
  cbv zeta.
  refine (proj1 (proj1 (proj2 (exportToJSON_never_downloads _)) _ _ _)).
  vm_compute. reflexivity.
Defined.
